(** * OracleAI: signal -> confidence -> position-sizing pipeline

    A shallow embedding of the numerical core of the repository:

    - [SignalAggregationSkill] (src/skills/SignalAggregationSkill.js):
      [aggregate], [calculateWeightedScore], [normalizeSignal], [clearCache];
    - [ConfidenceScoringSkill] (src/agents/politics-ai/index.js):
      [calculate] and its components, [recordOutcome],
      [getCalibrationForConfidence];
    - [ExecutionSkill] (src/agents/politics-ai/index.js):
      [calculatePositionSize], the constructor, [init], [selectPlatform],
      [execute], [closePosition], [createDryRunTrade];
    - the built-in sources of [SignalAggregationSkill]: [fetchNewsSignals],
      [fetchSocialSignals], [fetchOnChainSignals], [analyzeSentiment],
      [getNewsSourcesForCategory];
    - [BaseAgent] (src/core/BaseAgent.js): the constructor, [use], [init],
      [execute], [aggregateSignals], [calculateConfidence], [logOutcome];
    - [PoliticsAI] (src/agents/politics-ai/index.js): the constructor,
      [init], [predictGeneric].

    JavaScript numbers are modelled by [jsnum]: a finite value is an exact
    rational (the rounding and the overflow of IEEE doubles are not
    modelled), and the three special values NaN, +Infinity and -Infinity are
    kept, because the code produces them (division by zero, arithmetic on
    [undefined]) and its truthiness tests ([x || d], [if (x)]) depend on
    them.  A property that is [undefined] is [None]; a method either returns
    a value or throws ([completion]).

    The sums, products and quotients of the model are those of the code as
    long as the doubles of the code do not overflow (their largest finite
    value is about 1.8e308).  A theorem about numbers that the code adds
    up or multiplies, and that are not bounded by their nature, therefore
    bounds them: by [max_magnitude] = 1e100 in absolute value, and a
    divisor by [min_price] = 1e-100 from below.  Three factors of that
    size, and the sum of as many terms of that size as an array can hold
    (fewer than 2^32), stay inside the range of the doubles. *)

From Stdlib Require Import QArith Qabs Qround Qminmax Lqa Lia ZArith.
From stdpp Require Import gmap strings list fin_maps.

Local Open Scope Q_scope.

(* ===================================================================== *)
(** ** JavaScript numbers                                                 *)
(* ===================================================================== *)

Inductive jsnum : Type :=
| Fin (q : Q)
| PosInf
| NegInf
| NaN.

Arguments Fin q%_Q.

Declare Scope js_scope.
Delimit Scope js_scope with js.
Bind Scope js_scope with jsnum.

Definition Qltb (a b : Q) : bool := negb (Qle_bool b a).

Module JS.

(** Unary minus. *)
Definition neg (a : jsnum) : jsnum :=
  match a with
  | Fin q => Fin (- q)
  | PosInf => NegInf
  | NegInf => PosInf
  | NaN => NaN
  end.

(** [a + b]; Infinity + -Infinity is NaN. *)
Definition add (a b : jsnum) : jsnum :=
  match a, b with
  | NaN, _ | _, NaN => NaN
  | Fin x, Fin y => Fin (x + y)
  | PosInf, NegInf | NegInf, PosInf => NaN
  | PosInf, _ | _, PosInf => PosInf
  | NegInf, _ | _, NegInf => NegInf
  end.

Definition sub (a b : jsnum) : jsnum := add a (neg b).

(** An infinity multiplied by a finite factor of the given sign. *)
Definition scale (i : jsnum) (c : comparison) : jsnum :=
  match c with
  | Eq => NaN
  | Gt => i
  | Lt => neg i
  end.

(** [a * b]; 0 * Infinity is NaN. *)
Definition mul (a b : jsnum) : jsnum :=
  match a, b with
  | NaN, _ | _, NaN => NaN
  | Fin x, Fin y => Fin (x * y)
  | Fin x, i => scale i (x ?= 0)
  | i, Fin y => scale i (y ?= 0)
  | PosInf, PosInf | NegInf, NegInf => PosInf
  | PosInf, NegInf | NegInf, PosInf => NegInf
  end.

(** [a / b].  The sign of zero is not tracked: a zero divisor stands for +0,
    which is the zero the code divides by (the difference [1/1 - 1]).  So
    x/0 is +Infinity, -Infinity or NaN as x is positive, negative or zero. *)
Definition div (a b : jsnum) : jsnum :=
  match a, b with
  | NaN, _ | _, NaN => NaN
  | Fin x, Fin y =>
      if Qeq_bool y 0
      then match x ?= 0 with Eq => NaN | Gt => PosInf | Lt => NegInf end
      else Fin (x / y)
  | Fin _, _ => Fin 0
  | PosInf, Fin y => if Qltb y 0 then NegInf else PosInf
  | NegInf, Fin y => if Qltb y 0 then PosInf else NegInf
  | _, _ => NaN
  end.

(** [a < b]; every comparison with NaN is false. *)
Definition lt (a b : jsnum) : bool :=
  match a, b with
  | NaN, _ | _, NaN => false
  | Fin x, Fin y => Qltb x y
  | NegInf, NegInf => false
  | NegInf, _ => true
  | _, NegInf => false
  | PosInf, _ => false
  | _, PosInf => true
  end.

(** [a > b]. *)
Definition gt (a b : jsnum) : bool := lt b a.

(** [Math.min(a, b)] and [Math.max(a, b)]: NaN when an argument is NaN. *)
Definition min (a b : jsnum) : jsnum :=
  match a, b with
  | NaN, _ | _, NaN => NaN
  | _, _ => if lt b a then b else a
  end.

Definition max (a b : jsnum) : jsnum :=
  match a, b with
  | NaN, _ | _, NaN => NaN
  | _, _ => if lt a b then b else a
  end.

(** [Math.abs] and [Math.floor]. *)
Definition abs (a : jsnum) : jsnum :=
  match a with
  | Fin q => Fin (Qabs q)
  | PosInf | NegInf => PosInf
  | NaN => NaN
  end.

Definition floor (a : jsnum) : jsnum :=
  match a with
  | Fin q => Fin (inject_Z (Qfloor q))
  | other => other
  end.

(** Truthiness of a number: 0 and NaN are falsy. *)
Definition truthy (a : jsnum) : bool :=
  match a with
  | Fin q => negb (Qeq_bool q 0)
  | NaN => false
  | _ => true
  end.

(** Truthiness of a property that holds a number or is [undefined]. *)
Definition truthy_opt (o : option jsnum) : bool :=
  match o with
  | Some a => truthy a
  | None => false
  end.

(** [o || d] for a numeric property [o] and a numeric default [d]. *)
Definition or_else (o : option jsnum) (d : jsnum) : jsnum :=
  match o with
  | Some a => if truthy a then a else d
  | None => d
  end.

(** Conversion of a property to a number in arithmetic: [undefined] is NaN. *)
Definition toNumber (o : option jsnum) : jsnum :=
  match o with
  | Some a => a
  | None => NaN
  end.

(** [Number.isFinite]. *)
Definition isFinite (a : jsnum) : bool :=
  match a with
  | Fin _ => true
  | _ => false
  end.

(** A count (array length, sample counter) as a number. *)
Definition of_nat (n : nat) : jsnum := Fin (inject_Z (Z.of_nat n)).

End JS.

Infix "+" := JS.add : js_scope.
Infix "-" := JS.sub : js_scope.
Infix "*" := JS.mul : js_scope.
Infix "/" := JS.div : js_scope.
Infix "<?" := JS.lt : js_scope.
Infix ">?" := JS.gt (at level 70) : js_scope.
Infix "||" := JS.or_else : js_scope.

(** Equality of numbers up to the representation of the rational. *)
Definition num_eq (a b : jsnum) : Prop :=
  match a, b with
  | Fin x, Fin y => x == y
  | PosInf, PosInf | NegInf, NegInf | NaN, NaN => True
  | _, _ => False
  end.

(** [in_range lo hi a]: [a] is a finite number of the closed interval. *)
Definition in_range (lo hi : Q) (a : jsnum) : Prop :=
  match a with
  | Fin q => lo <= q /\ q <= hi
  | _ => False
  end.

(* ===================================================================== *)
(** ** Completions: a call returns a value or throws                     *)
(* ===================================================================== *)

Inductive exn : Type :=
| TypeError (msg : string)
| Error (msg : string).

Inductive completion (A : Type) : Type :=
| Normal (a : A)
| Throw (e : exn).

Arguments Normal {A} a.
Arguments Throw {A} e.

#[global] Instance completion_ret : MRet completion := fun _ a => Normal a.

#[global] Instance completion_bind : MBind completion := fun _ _ k c =>
  match c with
  | Normal a => k a
  | Throw e => Throw e
  end.

(** Dereferencing an argument to read one of its properties: a TypeError on
    [null] or [undefined]. *)
Definition deref {A} (o : option A) : completion A :=
  match o with
  | Some a => Normal a
  | None => Throw (TypeError "Cannot read properties of undefined")
  end.

Definition raises {A} (c : completion A) : Prop := exists e, c = Throw e.

(* ===================================================================== *)
(** ** Data model                                                         *)
(* ===================================================================== *)

(** A prediction object; every property may be missing. *)
Record Prediction : Type := mkPrediction {
  rawConfidence : option jsnum;
  model : option string;
  dataQuality : option jsnum;
  marketType : option string;
  confidence : option jsnum;
  marketPrice : option jsnum;
}.

(* ===================================================================== *)
(** ** ExecutionSkill                                                     *)
(* ===================================================================== *)

Module ExecutionSkill.

(** [agent.config] of the attached agent, as far as the skill reads it. *)
Record AgentConfig : Type := mkAgentConfig {
  maxBetSize : option jsnum;
}.

Record Agent : Type := mkAgent {
  agent_config : option AgentConfig;
}.

(** The skill object: [this.config.bankroll] is whatever the constructor's
    [...config] spread copied (the constructor gives it no default), and
    [this.agent] is [null] until [attach]. *)
Record t : Type := mk {
  bankroll : option jsnum;
  agent : option Agent;
}.

(** [this.agent?.config?.maxBetSize] *)
Definition agentMaxBetSize (self : t) : option jsnum :=
  match agent self with
  | Some a =>
      match agent_config a with
      | Some c => maxBetSize c
      | None => None
      end
  | None => None
  end.

(** The local [kelly] before and after the cap (lines "Kelly formula" to
    "Cap at 50%" of [calculatePositionSize]). *)
Definition fullKelly (pr : Prediction) : jsnum :=
  let p := JS.toNumber (confidence pr) in
  let q := (Fin 1 - p)%js in
  let b := (Fin 1 / (marketPrice pr || Fin 0.5) - Fin 1)%js in
  ((b * p - q) / b)%js.

Definition kelly (pr : Prediction) : jsnum :=
  JS.max (Fin 0) (JS.min (fullKelly pr) (Fin 0.5)).

Definition calculatePositionSize (self : t) (prediction : option Prediction)
  : completion jsnum :=
  let kellyFraction := Fin 0.25 in
  let bankroll := (bankroll self || Fin 1000)%js in
  pr ← deref prediction;
  let kelly := kelly pr in
  let size := (bankroll * kelly * kellyFraction)%js in
  Normal (JS.min size (agentMaxBetSize self || Fin 100)%js).

End ExecutionSkill.

(** [{...prediction, marketPrice: v}] *)
Definition with_marketPrice (pr : Prediction) (v : option jsnum) : Prediction :=
  {| rawConfidence := rawConfidence pr; model := model pr;
     dataQuality := dataQuality pr; marketType := marketType pr;
     confidence := confidence pr; marketPrice := v |}.

(** A skill with the given [config.bankroll], attached to an agent with the
    given [config.maxBetSize]. *)
Definition skill_with (bank cap : option jsnum) : ExecutionSkill.t :=
  ExecutionSkill.mk bank
    (Some (ExecutionSkill.mkAgent (Some (ExecutionSkill.mkAgentConfig cap)))).

(** The prediction [{confidence: c, marketPrice: m}]. *)
Definition priced (c m : option jsnum) : Prediction :=
  mkPrediction None None None None c m.

(* ===================================================================== *)
(** ** SignalAggregationSkill                                             *)
(* ===================================================================== *)

(** A signal; [sentiment] is set by the news and social sources, [change24h]
    by the on-chain source. *)
Record Signal : Type := mkSignal {
  type : string;
  sentiment : option jsnum;
  change24h : option jsnum;
  weight : option jsnum;
}.

(** The object [aggregate] returns and [calculate] reads; [volatility] and
    [liquidity] are read by [applyMarketAdjustments] and never set by
    [aggregate]. *)
Record AggregateResult : Type := mkAggregateResult {
  signals : option (list Signal);
  score : option jsnum;
  timestamp : option Z;
  sourceCount : option nat;
  volatility : option jsnum;
  liquidity : option jsnum;
}.

Module SignalAggregationSkill.

(** [normalizeSignal]: the [switch] on [signal.type]. *)
Definition normalizeSignal (signal : Signal) : jsnum :=
  if String.eqb (type signal) "news" then
    ((JS.toNumber (sentiment signal) + Fin 1) / Fin 2)%js
  else if String.eqb (type signal) "social" then
    ((JS.toNumber (sentiment signal) + Fin 1) / Fin 2)%js
  else if String.eqb (type signal) "onchain" then
    let change := JS.toNumber (change24h signal) in
    if (change >? Fin 0)%js
    then JS.min (Fin 0.5 + change / Fin 100)%js (Fin 1)
    else JS.max (Fin 0.5 + change / Fin 100)%js (Fin 0)
  else Fin 0.5.

(** One turn of the [for] loop of [calculateWeightedScore] on the pair
    ([totalWeight], [weightedSum]). *)
Definition accumulate (acc : jsnum * jsnum) (signal : Signal) : jsnum * jsnum :=
  let '(totalWeight, weightedSum) := acc in
  let weight := (weight signal || Fin 1)%js in
  let score := normalizeSignal signal in
  ((totalWeight + weight)%js, (weightedSum + score * weight)%js).

Definition calculateWeightedScore (signals : list Signal) : jsnum :=
  if (length signals =? 0)%nat then Fin 0.5 else
  let '(totalWeight, weightedSum) := fold_left accumulate signals (Fin 0, Fin 0) in
  if (totalWeight >? Fin 0)%js then (weightedSum / totalWeight)%js else Fin 0.5.

(** A market is a name or an object with an optional [id]. *)
Inductive Market : Type :=
| MarketName (name : string)
| MarketObject (id : option string).

(** [market.id || market] inside the template string: a string has no [id];
    an object without a (non-empty) [id] prints as [[object Object]]. *)
Definition marketKey (market : Market) : string :=
  match market with
  | MarketName name => name
  | MarketObject (Some id) => if String.eqb id "" then "[object Object]" else id
  | MarketObject None => "[object Object]"
  end.

Definition cacheKey (market : Market) (category : string) : string :=
  category +:+ "-" +:+ marketKey market.

Record Config : Type := mkConfig {
  sources : list string;
  cacheDuration : Z;
}.

(** The constructor's defaults; a property of the argument overrides its
    default through the [...config] spread. *)
Definition defaultConfig (sources' : option (list string)) (cacheDuration' : option Z) : Config :=
  {| sources := default ["news"; "social"; "onchain"] sources';
     cacheDuration := default (5 * 60 * 1000)%Z cacheDuration' |}.

Record CacheEntry : Type := mkCacheEntry {
  data : AggregateResult;
  entry_timestamp : Z;
}.

(** A fetch issued to a source. *)
Record FetchCall : Type := mkFetchCall {
  source : string;
  fetch_market : Market;
  fetch_category : string;
}.

(** The skill's cache together with what it shares with the world: the
    clock [Date.now()] in milliseconds and the fetches issued so far. *)
Record State : Type := mkState {
  cache : gmap string CacheEntry;
  now : Z;
  issued : list FetchCall;
}.

(** The sources ([fetchNewsSignals], [fetchSocialSignals] and
    [fetchOnChainSignals], which draw on feeds and on [Math.random]) are
    collaborators: [fetch call n] is what the [n]-th fetch issued settles
    to, [None] for a rejected promise. *)
Definition Sources : Type := FetchCall -> nat -> option (list Signal).

(** The fetches of a cache miss, in the order the code pushes them. *)
Definition fetchCalls (config : Config) (market : Market) (category : string)
  : list FetchCall :=
  (if bool_decide ("news" ∈ sources config)
   then [mkFetchCall "news" market category] else []) ++
  (if bool_decide ("social" ∈ sources config)
   then [mkFetchCall "social" market category] else []) ++
  (if bool_decide ("onchain" ∈ sources config)
   then [mkFetchCall "onchain" market category] else []).

(** [Promise.allSettled], the filter on fulfilled results and [flat]. *)
Definition settle (fetch : Sources) (first : nat) (calls : list FetchCall)
  : list Signal :=
  concat (omap id (imap (fun i call => fetch call (first + i)%nat) calls)).

(** [aggregate].  On a miss the fetches take the time [elapsed]; the two
    readings of the clock that follow them ([new Date()] for the result,
    [Date.now()] for the cache entry) are taken as one instant. *)
Definition aggregate (config : Config) (fetch : Sources)
    (market : Market) (category : string) (elapsed : Z) (st : State)
  : AggregateResult * State :=
  let cacheKey := cacheKey market category in
  let miss :=
    let calls := fetchCalls config market category in
    let signals := settle fetch (length (issued st)) calls in
    let weightedScore := calculateWeightedScore signals in
    let time := (now st + elapsed)%Z in
    let result :=
      {| signals := Some signals; score := Some weightedScore;
         timestamp := Some time; sourceCount := Some (length signals);
         volatility := None; liquidity := None |} in
    (result,
     {| cache := <[cacheKey := mkCacheEntry result time]> (cache st);
        now := time;
        issued := issued st ++ calls |}) in
  match cache st !! cacheKey with
  | Some cached =>
      if (now st - entry_timestamp cached <? cacheDuration config)%Z
      then (data cached, st)
      else miss
  | None => miss
  end.

Definition clearCache (st : State) : State :=
  {| cache := ∅; now := now st; issued := issued st |}.

(** Time passing between two calls. *)
Definition advance (d : Z) (st : State) : State :=
  {| cache := cache st; now := (now st + d)%Z; issued := issued st |}.

End SignalAggregationSkill.

(* ===================================================================== *)
(** ** ConfidenceScoringSkill                                             *)
(* ===================================================================== *)

(** The agent's [state.performance], as far as the skill reads it. *)
Record Performance : Type := mkPerformance {
  total : option jsnum;
  winRate : option jsnum;
  recentWinRate : option jsnum;
  pnl : option jsnum;
}.

(** The name of a bucket in [cal.buckets].  The bucket of a confidence is
    the number [Math.floor(confidence * 10) / 10], used as a property name:
    [BTenths k] stands for the name of the number k/10, and the three other
    constructors for the names of NaN, Infinity and -Infinity. *)
Inductive bkey : Type :=
| BTenths (k : Z)
| BNaN
| BPosInf
| BNegInf.

#[global] Instance bkey_eq_dec : EqDecision bkey.
Proof. solve_decision. Defined.

Definition bkey_code (b : bkey) : Z + nat :=
  match b with
  | BTenths k => inl k
  | BNaN => inr 0%nat
  | BPosInf => inr 1%nat
  | BNegInf => inr 2%nat
  end.

Definition bkey_decode (c : Z + nat) : bkey :=
  match c with
  | inl k => BTenths k
  | inr 0%nat => BNaN
  | inr 1%nat => BPosInf
  | inr _ => BNegInf
  end.

#[global] Instance bkey_countable : Countable bkey :=
  inj_countable' bkey_code bkey_decode
    (fun b => match b with
              | BTenths _ | BNaN | BPosInf | BNegInf => eq_refl
              end).

Module Bucket.
Record t : Type := mk {
  samples : nat;
  correct : nat;
  accuracy : option jsnum;
}.
End Bucket.

Module Ledger.
Record t : Type := mk {
  samples : nat;
  buckets : gmap bkey Bucket.t;
}.
End Ledger.

Module ConfidenceScoringSkill.

Record Config : Type := mkConfig {
  baseWeight : jsnum;
  signalWeight : jsnum;
  historyWeight : jsnum;
  calibrationEnabled : bool;
  minSamplesForHistory : jsnum;
}.

(** The constructor's defaults; a property of the argument overrides its
    default through the [...config] spread. *)
Definition defaultConfig (base signal history : option jsnum)
    (calibration : option bool) (minSamples : option jsnum) : Config :=
  {| baseWeight := default (Fin 0.3) base;
     signalWeight := default (Fin 0.4) signal;
     historyWeight := default (Fin 0.3) history;
     calibrationEnabled := default true calibration;
     minSamplesForHistory := default (Fin 10) minSamples |}.

(** The skill object: its configuration and [this.calibrationData]. *)
Record t : Type := mk {
  config : Config;
  calibrationData : gmap string Ledger.t;
}.

(** The property name of the bucket [Math.floor(confidence * 10) / 10]. *)
Definition bucketOf (confidence : jsnum) : bkey :=
  match (JS.floor (confidence * Fin 10) / Fin 10)%js with
  | Fin b => BTenths (Qfloor (b * 10))
  | NaN => BNaN
  | PosInf => BPosInf
  | NegInf => BNegInf
  end.

(** The local [score] of [calculateBaseConfidence] after the adjustment for
    the methodology. *)
Definition modelAdjusted (prediction : Prediction) : jsnum :=
  let score := (rawConfidence prediction || Fin 0.5)%js in
  match model prediction with
  | Some m =>
      if String.eqb m "ensemble" then (score * Fin 1.1)%js
      else if String.eqb m "naive" then (score * Fin 0.9)%js
      else score
  | None => score
  end.

(** The local [score] after the adjustment for the data quality. *)
Definition qualityAdjusted (prediction : Prediction) : jsnum :=
  let score := modelAdjusted prediction in
  if JS.truthy_opt (dataQuality prediction)
  then (score * (Fin 0.5 + JS.toNumber (dataQuality prediction) * Fin 0.5))%js
  else score.

Definition calculateBaseConfidence (prediction : Prediction) : jsnum :=
  JS.min (qualityAdjusted prediction) (Fin 0.95).

(** [values.reduce((a, b) => a + b, 0)] *)
Definition sum (values : list jsnum) : jsnum :=
  fold_left JS.add values (Fin 0).

(** [Math.pow(d, 2)] is the product [d * d]. *)
Definition calculateVariance (values : list jsnum) : jsnum :=
  let mean := (sum values / JS.of_nat (length values))%js in
  let squaredDiffs := map (fun v => ((v - mean) * (v - mean))%js) values in
  (sum squaredDiffs / JS.of_nat (length values))%js.

(** The three sub-scores of [calculateSignalConfidence]. *)
Definition consensusScore (sigs : list Signal) : jsnum :=
  let sentimentSignals := filter (fun s => is_Some (sentiment s)) sigs in
  if (1 <? length sentimentSignals)%nat then
    let sentiments := map (fun s => JS.toNumber (sentiment s)) sentimentSignals in
    let variance := calculateVariance sentiments in
    JS.max (Fin 0) (Fin 1 - variance)%js
  else Fin 0.5.

Definition diversityScore (sigs : list Signal) : jsnum :=
  let sourceTypes := size (list_to_set (map type sigs) : gset string) in
  JS.min (JS.of_nat sourceTypes / Fin 3)%js (Fin 1).

Definition avgSignalStrength (sigs : list Signal) : jsnum :=
  (fold_left (fun sum s => (sum + JS.abs (sentiment s || Fin 0.5))%js) sigs (Fin 0)
   / JS.of_nat (length sigs))%js.

Definition calculateSignalConfidence (signals' : option AggregateResult) : jsnum :=
  match signals' with
  | None => Fin 0.5
  | Some o =>
      match signals o with
      | None | Some [] => Fin 0.5
      | Some sigs =>
          (consensusScore sigs * Fin 0.4 + diversityScore sigs * Fin 0.3
           + avgSignalStrength sigs * Fin 0.3)%js
      end
  end.

(** [cal?.buckets?.[bucket]] on the ledger of the market type 'default'. *)
Definition getCalibrationForConfidence (self : t) (confidence : option jsnum)
  : option Bucket.t :=
  let bucket := bucketOf (JS.toNumber confidence) in
  match calibrationData self !! "default" with
  | Some cal => Ledger.buckets cal !! bucket
  | None => None
  end.

Definition calculateHistoryConfidence (self : t)
    (performance : option Performance) (prediction : Prediction) : jsnum :=
  match performance with
  | None => Fin 0.5
  | Some performance =>
      if (JS.toNumber (total performance) <? minSamplesForHistory (config self))%js
      then Fin 0.5
      else
        let score := (winRate performance || Fin 0.5)%js in
        let score :=
          if JS.truthy_opt (recentWinRate performance)
          then (score * Fin 0.6 + JS.toNumber (recentWinRate performance) * Fin 0.4)%js
          else score in
        let calibration :=
          getCalibrationForConfidence self (rawConfidence prediction) in
        let score :=
          match calibration with
          | Some calibration =>
              (score * Fin 0.7 + JS.toNumber (Bucket.accuracy calibration) * Fin 0.3)%js
          | None => score
          end in
        if (JS.toNumber (pnl performance) <? Fin 0)%js
        then (score * Fin 0.8)%js
        else score
  end.

(** [this.calibrationData.get(marketType) || this.calibrationData.get('default')] *)
Definition ledgerFor (self : t) (marketType : option string) : option Ledger.t :=
  match marketType with
  | Some m =>
      match calibrationData self !! m with
      | Some cal => Some cal
      | None => calibrationData self !! "default"
      end
  | None => calibrationData self !! "default"
  end.

Definition applyCalibration (self : t) (confidence : jsnum)
    (marketType : option string) : jsnum :=
  match ledgerFor self marketType with
  | None => confidence
  | Some cal =>
      if (Ledger.samples cal <? 20)%nat then confidence else
      match Ledger.buckets cal !! bucketOf confidence with
      | Some bucketData =>
          if (5 <? Bucket.samples bucketData)%nat then
            let adjustment :=
              ((JS.toNumber (Bucket.accuracy bucketData) - confidence) * Fin 0.3)%js in
            (confidence + adjustment)%js
          else confidence
      | None => confidence
      end
  end.

(** [applyMarketAdjustments] reads [signals.volatility] without a guard: a
    TypeError when [signals] is [null] or [undefined]. *)
Definition applyMarketAdjustments (confidence : jsnum)
    (signals' : option AggregateResult) : completion jsnum :=
  o ← deref signals';
  let adjusted := confidence in
  let adjusted :=
    if JS.truthy_opt (volatility o) then
      if (JS.toNumber (volatility o) >? Fin 0.8)%js then (adjusted * Fin 0.85)%js
      else if (JS.toNumber (volatility o) >? Fin 0.5)%js then (adjusted * Fin 0.95)%js
      else adjusted
    else adjusted in
  let adjusted :=
    if (JS.toNumber (liquidity o) <? Fin 10000)%js then (adjusted * Fin 0.9)%js
    else adjusted in
  mret adjusted.

(** The weighted sum of the three components. *)
Definition combined (self : t) (prediction : Prediction)
    (signals' : option AggregateResult) (performance : option Performance) : jsnum :=
  let base := calculateBaseConfidence prediction in
  let signal := calculateSignalConfidence signals' in
  let history := calculateHistoryConfidence self performance prediction in
  (base * baseWeight (config self) + signal * signalWeight (config self)
   + history * historyWeight (config self))%js.

Definition calculate (self : t) (prediction : option Prediction)
    (signals' : option AggregateResult) (performance : option Performance)
  : completion jsnum :=
  pr ← deref prediction;
  let confidence := combined self pr signals' performance in
  let confidence :=
    if calibrationEnabled (config self)
    then applyCalibration self confidence (marketType pr)
    else confidence in
  confidence ← applyMarketAdjustments confidence signals';
  mret (JS.min (JS.max confidence (Fin 0.01)) (Fin 0.99)).

(** One step of [recordOutcome] on the bucket named [bucket]: create it if
    missing, count the sample, count it as correct if the outcome is. *)
Definition countOutcome (actualOutcome : bool) (old : option Bucket.t) : Bucket.t :=
  let b := default (Bucket.mk 0 0 None) old in
  Bucket.mk (S (Bucket.samples b))
            (if actualOutcome then S (Bucket.correct b) else Bucket.correct b)
            (Bucket.accuracy b).

(** The body of the final [for (const b in cal.buckets)] loop. *)
Definition recalculate (bucketData : Bucket.t) : Bucket.t :=
  Bucket.mk (Bucket.samples bucketData) (Bucket.correct bucketData)
    (Some (JS.of_nat (Bucket.correct bucketData)
           / JS.of_nat (Bucket.samples bucketData))%js).

Definition recordOutcome (predictedConfidence : jsnum) (actualOutcome : bool)
    (marketType : option string) (self : t) : t :=
  let marketType := default "default" marketType in
  let bucket := bucketOf predictedConfidence in
  let cal := default (Ledger.mk 0 ∅) (calibrationData self !! marketType) in
  let counted :=
    <[bucket := countOutcome actualOutcome (Ledger.buckets cal !! bucket)]>
      (Ledger.buckets cal) in
  let cal' := Ledger.mk (S (Ledger.samples cal)) (recalculate <$> counted) in
  mk (config self) (<[marketType := cal']> (calibrationData self)).

(** A new skill: no calibration data. *)
Definition new (config : Config) : t := mk config ∅.

End ConfidenceScoringSkill.

(* ===================================================================== *)
(** ** Histories of recorded outcomes                                     *)
(* ===================================================================== *)

(** The arguments of one call of [recordOutcome]. *)
Record Outcome : Type := mkOutcome {
  predictedConfidence : jsnum;
  actualOutcome : bool;
  outcomeMarketType : option string;
}.

Definition record (self : ConfidenceScoringSkill.t) (o : Outcome)
  : ConfidenceScoringSkill.t :=
  ConfidenceScoringSkill.recordOutcome
    (predictedConfidence o) (actualOutcome o) (outcomeMarketType o) self.

(** The skill after a sequence of calls of [recordOutcome]. *)
Definition recordAll (calls : list Outcome) (self : ConfidenceScoringSkill.t)
  : ConfidenceScoringSkill.t :=
  fold_left record calls self.

(** [this.calibrationData.get(marketType)?.buckets[bucket]] *)
Definition bucketAt (self : ConfidenceScoringSkill.t) (marketType : string)
    (bucket : bkey) : option Bucket.t :=
  cal ← ConfidenceScoringSkill.calibrationData self !! marketType;
  Ledger.buckets cal !! bucket.

(** The counters of a bucket, (0, 0) for a bucket not yet created. *)
Definition counts (o : option Bucket.t) : nat * nat :=
  match o with
  | Some b => (Bucket.samples b, Bucket.correct b)
  | None => (0%nat, 0%nat)
  end.

(** The call lands in the bucket [bucket] of the ledger of [marketType]. *)
Definition lands_in (marketType : string) (bucket : bkey) (o : Outcome) : bool :=
  bool_decide (default "default" (outcomeMarketType o) = marketType)
  && bool_decide (ConfidenceScoringSkill.bucketOf (predictedConfidence o) = bucket).

(** No call of the history records an incorrect outcome in the bucket. *)
Definition no_opposing (marketType : string) (bucket : bkey)
    (calls : list Outcome) : bool :=
  forallb (fun o => implb (lands_in marketType bucket o) (actualOutcome o)) calls.

(** A bucket as [recordOutcome] leaves it. *)
Definition consistent (b : Bucket.t) : Prop :=
  (1 <= Bucket.samples b)%nat /\ (Bucket.correct b <= Bucket.samples b)%nat /\
  Bucket.accuracy b =
    Some (JS.of_nat (Bucket.correct b) / JS.of_nat (Bucket.samples b))%js.

(** [this.calibrationData.get(marketType)?.buckets[bucket]?.accuracy] *)
Definition accuracyAt (self : ConfidenceScoringSkill.t) (marketType : string)
    (bucket : bkey) : option jsnum :=
  b ← bucketAt self marketType bucket; Bucket.accuracy b.

(** [n] calls [recordOutcome(c, true, mt)] in a row. *)
Fixpoint successes (n : nat) (c : jsnum) (mt : option string)
    (self : ConfidenceScoringSkill.t) : ConfidenceScoringSkill.t :=
  match n with
  | O => self
  | S n => ConfidenceScoringSkill.recordOutcome c true mt (successes n c mt self)
  end.

(** A counter as a rational. *)
Definition Qnat (n : nat) : Q := inject_Z (Z.of_nat n).

(** Every bucket of every ledger of the skill is consistent. *)
Definition calibrated (self : ConfidenceScoringSkill.t) : Prop :=
  forall m k b, bucketAt self m k = Some b -> consistent b.

(* ===================================================================== *)
(** ** Histories of the aggregation cache                                 *)
(* ===================================================================== *)

(** What may happen between two calls of [aggregate] short of [clearCache]:
    another call of [aggregate], or time passing. *)
Inductive CacheOp : Type :=
| Aggregate (market : SignalAggregationSkill.Market) (category : string) (elapsed : Z)
| Advance (d : Z).

Definition runOp (config : SignalAggregationSkill.Config)
    (fetch : SignalAggregationSkill.Sources) (st : SignalAggregationSkill.State)
    (o : CacheOp) : SignalAggregationSkill.State :=
  match o with
  | Aggregate market category elapsed =>
      snd (SignalAggregationSkill.aggregate config fetch market category elapsed st)
  | Advance d => SignalAggregationSkill.advance d st
  end.

Definition runOps (config : SignalAggregationSkill.Config)
    (fetch : SignalAggregationSkill.Sources) (ops : list CacheOp)
    (st : SignalAggregationSkill.State) : SignalAggregationSkill.State :=
  fold_left (runOp config fetch) ops st.

(** The clock does not run backwards. *)
Definition forward (o : CacheOp) : bool :=
  match o with
  | Aggregate _ _ elapsed => (0 <=? elapsed)%Z
  | Advance d => (0 <=? d)%Z
  end.

(** At the time [t], the entry that [st] caches under [key] is younger than
    the configured duration: the test [cached && Date.now() -
    cached.timestamp < this.config.cacheDuration]. *)
Definition within_ttl (config : SignalAggregationSkill.Config)
    (st : SignalAggregationSkill.State) (key : string) (t : Z) : bool :=
  match SignalAggregationSkill.cache st !! key with
  | Some cached =>
      (t - SignalAggregationSkill.entry_timestamp cached
       <? SignalAggregationSkill.cacheDuration config)%Z
  | None => false
  end.

(* ===================================================================== *)
(** ** Conditions on inputs                                               *)
(* ===================================================================== *)

(** [in_range] as a test. *)
Definition in_rangeb (lo hi : Q) (a : jsnum) : bool :=
  match a with
  | Fin q => Qle_bool lo q && Qle_bool q hi
  | _ => false
  end.

(** A property that, when present, holds a finite number. *)
Definition finite_opt (o : option jsnum) : bool :=
  match o with
  | Some a => JS.isFinite a
  | None => true
  end.

(** The Signal data model: a sentiment, when present, lies in [-1, 1]; a
    weight, when present, is a positive number. *)
Definition data_model (s : Signal) : bool :=
  match sentiment s with
  | Some x => in_rangeb (-1) 1 x
  | None => true
  end &&
  match weight s with
  | Some (Fin w) => Qltb 0 w
  | Some _ => false
  | None => true
  end.

(** The properties [normalizeSignal] reads for the type of the signal: a
    sentiment on a news or social signal, a finite [change24h] on an
    on-chain signal. *)
Definition has_fields (s : Signal) : bool :=
  if String.eqb (type s) "news" || String.eqb (type s) "social"
  then bool_decide (is_Some (sentiment s))
  else if String.eqb (type s) "onchain"
  then match change24h s with Some (Fin _) => true | _ => false end
  else true.

(** The numbers [calculate] does arithmetic on are finite: the raw
    confidence and the data quality of the prediction, the sentiments of the
    signals, the win rates of the performance and the weights of the
    configuration.  (What is only compared, as [total], [pnl], [volatility]
    and [liquidity], is not restricted.) *)
Definition finite_prediction (p : Prediction) : bool :=
  finite_opt (rawConfidence p) && finite_opt (dataQuality p).

Definition finite_signals (o : AggregateResult) : bool :=
  match signals o with
  | Some sigs => forallb (fun s => finite_opt (sentiment s)) sigs
  | None => true
  end.

Definition finite_performance (o : option Performance) : bool :=
  match o with
  | Some p => finite_opt (winRate p) && finite_opt (recentWinRate p)
  | None => true
  end.

Definition finite_config (c : ConfidenceScoringSkill.Config) : bool :=
  JS.isFinite (ConfidenceScoringSkill.baseWeight c)
  && JS.isFinite (ConfidenceScoringSkill.signalWeight c)
  && JS.isFinite (ConfidenceScoringSkill.historyWeight c).

(** The magnitude up to which the numbers of a theorem range when the code
    adds them up or multiplies them: 1e100.  The doubles of the code reach
    1.8e308, so that a product of three such numbers and a sum of 2^32 of
    them are finite in the code as they are in the model. *)
Definition max_magnitude : Q := Eval vm_compute in inject_Z (10 ^ 100).

(** The least market price of a theorem that divides by the price: 1e-100,
    whose reciprocal is far below the largest double. *)
Definition min_price : Q := Eval vm_compute in / inject_Z (10 ^ 100).

(** A number of magnitude at most [max_magnitude]. *)
Definition moderate (a : jsnum) : bool :=
  match a with
  | Fin q => Qle_bool (Qabs q) max_magnitude
  | _ => false
  end.

(** A property that, when present, holds a number of moderate magnitude. *)
Definition moderate_opt (o : option jsnum) : bool :=
  match o with
  | Some a => moderate a
  | None => true
  end.

(** The numbers [calculate] does arithmetic on are of moderate magnitude. *)
Definition moderate_prediction (p : Prediction) : bool :=
  moderate_opt (rawConfidence p) && moderate_opt (dataQuality p).

Definition moderate_signals (o : AggregateResult) : bool :=
  match signals o with
  | Some sigs => forallb (fun s => moderate_opt (sentiment s)) sigs
  | None => true
  end.

Definition moderate_performance (o : option Performance) : bool :=
  match o with
  | Some p => moderate_opt (winRate p) && moderate_opt (recentWinRate p)
  | None => true
  end.

Definition moderate_config (c : ConfidenceScoringSkill.Config) : bool :=
  moderate (ConfidenceScoringSkill.baseWeight c)
  && moderate (ConfidenceScoringSkill.signalWeight c)
  && moderate (ConfidenceScoringSkill.historyWeight c).

(** The weight of the signal, when present, is of moderate magnitude. *)
Definition moderate_weight (s : Signal) : bool := moderate_opt (weight s).

(** The base component as the specification words it: the score (the raw
    confidence, or 0.5, times the model factor) multiplied by the
    dampening factor 0.5 + 0.5 * dataQuality, for every data quality, and
    clamped to at most 0.95. *)
Definition dampenedBase (prediction : Prediction) : jsnum :=
  let score := ConfidenceScoringSkill.modelAdjusted prediction in
  JS.min (score * (Fin 0.5 + Fin 0.5 * JS.toNumber (dataQuality prediction)))%js
         (Fin 0.95).

(* ===================================================================== *)
(** ** Counting recorded outcomes                                         *)
(* ===================================================================== *)

(** The number of elements of a list that pass a test. *)
Definition countb {A} (p : A -> bool) (l : list A) : nat :=
  length (List.filter p l).

(** The call is recorded in the ledger of [marketType]. *)
Definition of_type (marketType : string) (o : Outcome) : bool :=
  bool_decide (default "default" (outcomeMarketType o) = marketType).

(** [this.calibrationData.get(marketType)?.samples], 0 without a ledger. *)
Definition ledgerSamples (self : ConfidenceScoringSkill.t) (marketType : string)
  : nat :=
  match ConfidenceScoringSkill.calibrationData self !! marketType with
  | Some cal => Ledger.samples cal
  | None => 0%nat
  end.

(** The population variance of rationals, as [calculateVariance] computes it
    on finite numbers. *)
Definition qsum (qs : list Q) : Q := fold_left Qplus qs 0.

Definition qvariance (qs : list Q) : Q :=
  let mean := qsum qs / Qnat (length qs) in
  qsum (map (fun q => (q + - mean) * (q + - mean)) qs) / Qnat (length qs).

(** The sentiment of the signal, when present, is a number of [lo, hi]. *)
Definition sentiment_in (lo hi : Q) (s : Signal) : bool :=
  match sentiment s with
  | Some x => in_rangeb lo hi x
  | None => true
  end.

(** The sentiment of the signal, when present, is the number [a]. *)
Definition sentiment_is (a : Q) (s : Signal) : bool :=
  match sentiment s with
  | Some (Fin x) => Qeq_bool x a
  | Some _ => false
  | None => true
  end.

(** The number of signals that carry a sentiment. *)
Definition sentimentCount (sigs : list Signal) : nat :=
  countb (fun s => bool_decide (is_Some (sentiment s))) sigs.

(* ===================================================================== *)
(** ** ExecutionSkill: routing and execution                             *)
(* ===================================================================== *)

(** The message of a thrown value ([err.message]). *)
Definition message (e : exn) : string :=
  match e with
  | TypeError msg | Error msg => msg
  end.

(** The names every plain object inherits from [Object.prototype]: a lookup
    [obj[name]] of one of them on [{}] finds a function or an object. *)
Definition objectPrototypeKeys : list string :=
  ["constructor"; "__defineGetter__"; "__defineSetter__"; "hasOwnProperty";
   "__lookupGetter__"; "__lookupSetter__"; "isPrototypeOf";
   "propertyIsEnumerable"; "toString"; "valueOf"; "__proto__";
   "toLocaleString"].

Module Execution.

(** The prediction as [execute] reads it: the properties of the sizing
    ([confidence], [marketPrice]) and those of the order. *)
Record TradePrediction : Type := mkTradePrediction {
  sizing : Prediction;
  category : option string;
  id : option string;
  marketId : option string;
  outcome : option string;
  maxPrice : option jsnum;
  minPrice : option jsnum;
}.

(** The argument of [client.placeOrder]. *)
Record Order : Type := mkOrder {
  order_marketId : option string;
  order_outcome : option string;
  order_size : jsnum;
  order_maxPrice : jsnum;
  order_minPrice : jsnum;
}.

(** What [client.placeOrder] resolves to, as far as [execute] reads it. *)
Record Receipt : Type := mkReceipt {
  receipt_id : option string;
  receipt_price : option jsnum;
}.

(** What [closePosition] resolves to. *)
Record Closed : Type := mkClosed {
  closed_status : string;
  closed_positionId : string;
}.

(** A venue client is a collaborator: placing an order resolves to a
    receipt (or to nothing) or rejects, and so does closing a position. *)
Record Client : Type := mkClient {
  placeOrder : Order -> completion (option Receipt);
  client_closePosition : string -> completion Closed;
}.

Record Config : Type := mkConfig {
  platform : string;
  dryRun : bool;
}.

(** A value that the argument of the constructor may hold under [dryRun]. *)
Inductive Value : Type :=
| VUndefined
| VNull
| VBoolean (b : bool)
| VNumber (n : jsnum)
| VString (s : string)
| VObject.

Definition truthy (v : Value) : bool :=
  match v with
  | VUndefined | VNull => false
  | VBoolean b => b
  | VNumber n => JS.truthy n
  | VString s => negb (String.eqb s "")
  | VObject => true
  end.

(** The constructor: [platform: config.platform || 'polymarket'] and
    [dryRun: config.dryRun || true], each overridden by the [...config]
    spread when the argument has the property ([Some]), whatever value the
    property holds.  Of [this.config.dryRun] the skill only tests the
    truthiness, which is what [dryRun] records. *)
Definition defaultConfig (platform' : option string) (dryRun' : option Value) : Config :=
  {| platform := default "polymarket" platform';
     dryRun := match dryRun' with
               | Some v => truthy v
               | None => true
               end |}.

(** The skill: what the sizing reads, the configuration and [this.clients]. *)
Record t : Type := mk {
  sizer : ExecutionSkill.t;
  config : Config;
  clients : gmap string Client;
}.

(** [new ExecutionSkill(config)]: no agent, no client. *)
Definition new (bankroll : option jsnum) (config : Config) : t :=
  mk (ExecutionSkill.mk bankroll None) config ∅.

(** [init] with the two clients it constructs. *)
Definition init (polymarket kalshi : Client) (self : t) : t :=
  let p := platform (config self) in
  let clients1 :=
    if String.eqb p "polymarket" || String.eqb p "both"
    then <["polymarket" := polymarket]> (clients self) else clients self in
  let clients2 :=
    if String.eqb p "kalshi" || String.eqb p "both"
    then <["kalshi" := kalshi]> clients1 else clients1 in
  mk (sizer self) (config self) clients2.

(** [this.clients[platform]]: a configured client, a value inherited from
    [Object.prototype], or [undefined]. *)
Inductive Found : Type :=
| Own (client : Client)
| Inherited
| Absent.

Definition clientFor (self : t) (platform : string) : Found :=
  match clients self !! platform with
  | Some client => Own client
  | None =>
      if bool_decide (platform ∈ objectPrototypeKeys) then Inherited else Absent
  end.

Definition selectPlatform (self : t) (prediction : option TradePrediction)
  : completion string :=
  if negb (String.eqb (platform (config self)) "both")
  then mret (platform (config self))
  else
    pr ← deref prediction;
    if bool_decide (category pr = Some "crypto") then mret "polymarket"
    else if bool_decide (category pr = Some "politics")
            || bool_decide (category pr = Some "sports")
    then mret "kalshi"
    else mret "polymarket".

(** The identifier of a trade: [`dry-${Date.now()}`] or the one the client
    gave. *)
Inductive TradeId : Type :=
| DryRunId (time : Z)
| ClientId (id : option string).

Record Trade : Type := mkTrade {
  trade_id : option TradeId;
  trade_platform : string;
  trade_predictionId : option string;
  trade_marketId : option string;
  trade_outcome : option string;
  trade_size : jsnum;
  trade_price : option jsnum;
  trade_timestamp : Z;
  trade_status : string;
  trade_error : option string;
}.

(** [createDryRunTrade]; [time] is the reading of [Date.now()], [stamp]
    that of [new Date()]. *)
Definition createDryRunTrade (time stamp : Z) (prediction : TradePrediction)
    (platform : string) (size : jsnum) : Trade :=
  {| trade_id := Some (DryRunId time);
     trade_platform := platform;
     trade_predictionId := id prediction;
     trade_marketId := marketId prediction;
     trade_outcome := outcome prediction;
     trade_size := size;
     trade_price := Some (marketPrice (sizing prediction) || Fin 0.5)%js;
     trade_timestamp := stamp;
     trade_status := "dry_run";
     trade_error := None |}.

(** [await client.placeOrder(order)] on what the lookup found: a value
    inherited from [Object.prototype] has no [placeOrder] to call. *)
Definition callPlaceOrder (found : Found) (order : Order)
  : completion (option Receipt) :=
  match found with
  | Own client => placeOrder client order
  | _ => Throw (TypeError "client.placeOrder is not a function")
  end.

(** [execute]; [time] and [stamp] are the readings of the clock.  The
    [catch] turns a rejected order, and the TypeError of reading [trade.id]
    when the client resolved to nothing, into a failed trade. *)
Definition execute (time stamp : Z) (self : t) (prediction : option TradePrediction)
  : completion Trade :=
  platform ← selectPlatform self prediction;
  match clientFor self platform with
  | Absent => Throw (Error ("No client configured for " +:+ platform))
  | client =>
      size ← ExecutionSkill.calculatePositionSize (sizer self) (sizing <$> prediction);
      pr ← deref prediction;
      if dryRun (config self)
      then mret (createDryRunTrade time stamp pr platform size)
      else
        let order :=
          {| order_marketId := marketId pr;
             order_outcome := outcome pr;
             order_size := size;
             order_maxPrice := (maxPrice pr || Fin 0.95)%js;
             order_minPrice := (minPrice pr || Fin 0.05)%js |} in
        let failed (error : string) :=
          {| trade_id := None;
             trade_platform := platform;
             trade_predictionId := id pr;
             trade_marketId := None;
             trade_outcome := outcome pr;
             trade_size := size;
             trade_price := None;
             trade_timestamp := stamp;
             trade_status := "failed";
             trade_error := Some error |} in
        match callPlaceOrder client order with
        | Normal (Some trade) =>
            mret {| trade_id := Some (ClientId (receipt_id trade));
                    trade_platform := platform;
                    trade_predictionId := id pr;
                    trade_marketId := marketId pr;
                    trade_outcome := outcome pr;
                    trade_size := size;
                    trade_price := receipt_price trade;
                    trade_timestamp := stamp;
                    trade_status := "executed";
                    trade_error := None |}
        | Normal None =>
            mret (failed "Cannot read properties of undefined (reading 'id')")
        | Throw err => mret (failed (message err))
        end
  end.

(** [closePosition]: the call of the client is not guarded by a [try]. *)
Definition closePosition (self : t) (positionId platform : string)
  : completion Closed :=
  match clientFor self platform with
  | Absent => Throw (Error ("No client for " +:+ platform))
  | client =>
      if dryRun (config self)
      then mret (mkClosed "dry_run" positionId)
      else
        match client with
        | Own client => client_closePosition client positionId
        | _ => Throw (TypeError "client.closePosition is not a function")
        end
  end.

End Execution.

(* ===================================================================== *)
(** ** SignalAggregationSkill: the built-in sources                       *)
(* ===================================================================== *)

Module BuiltinSources.
Import SignalAggregationSkill.

(** [this.config.weights]. *)
Record Weights : Type := mkWeights {
  news : option jsnum;
  social : option jsnum;
  onchain : option jsnum;
}.

(** The constructor's default [{ news: 0.4, social: 0.3, onchain: 0.3 }]. *)
Definition defaultWeights : Weights :=
  {| news := Some (Fin 0.4); social := Some (Fin 0.3); onchain := Some (Fin 0.3) |}.

(** An item of a feed, as far as [analyzeSentiment] reads it. *)
Record Item : Type := mkItem {
  title : option string;
  description : option string;
}.

(** [text.includes(word)] *)
Fixpoint includes (text word : string) : bool :=
  String.prefix word text ||
  match text with
  | EmptyString => false
  | String _ rest => includes rest word
  end.

Definition positive : list string :=
  ["bullish"; "up"; "growth"; "positive"; "win"; "success"].

Definition negative : list string :=
  ["bearish"; "down"; "crash"; "negative"; "loss"; "fail"].

(** [analyzeSentiment]; the conversion [toLowerCase] of the platform is a
    parameter.  A missing title prints as [undefined]. *)
Definition analyzeSentiment (toLowerCase : string -> string) (item : Item) : jsnum :=
  let text :=
    toLowerCase (default "undefined" (title item) +:+ " "
                 +:+ default "" (description item)) in
  let score := Fin 0 in
  let score :=
    fold_left (fun score word =>
                 if includes text word then (score + Fin 0.1)%js else score)
              positive score in
  let score :=
    fold_left (fun score word =>
                 if includes text word then (score - Fin 0.1)%js else score)
              negative score in
  JS.max (Fin (-1)) (JS.min (Fin 1) score).

Record NewsSource : Type := mkNewsSource {
  source_name : string;
  url : string;
}.

(** [sources[category] || []]: the list of the category, the empty list for
    an unknown one, and for a name inherited from [Object.prototype] a
    function or object that is no list ([None]). *)
Definition getNewsSourcesForCategory (category : string) : option (list NewsSource) :=
  if String.eqb category "crypto" then
    Some [mkNewsSource "CoinDesk" "https://coindesk.com/feed";
          mkNewsSource "TheBlock" "https://theblock.co/feed"]
  else if String.eqb category "sports" then
    Some [mkNewsSource "ESPN" "https://espn.com/espn/rss/news"]
  else if String.eqb category "politics" then
    Some [mkNewsSource "Politico" "https://politico.com/rss/politics.xml"]
  else if String.eqb category "popculture" then
    Some [mkNewsSource "Variety" "https://variety.com/feed/"]
  else if bool_decide (category ∈ objectPrototypeKeys) then None
  else Some [].

(** [fetchRSS] is a placeholder. *)
Definition fetchRSS (url : string) : list Item := [].

(** The class defines no method [filterRelevant]: the call throws. *)
Definition filterRelevant (feed : list Item) (market : Market)
  : completion (list Item) :=
  Throw (TypeError "this.filterRelevant is not a function").

(** The body of the loop of [fetchNewsSignals] for one source: the signals
    it pushes; the [catch] swallows what the [try] throws. *)
Definition newsSignalsOf (toLowerCase : string -> string) (weights : Weights)
    (market : Market) (source : NewsSource) : list Signal :=
  let feed := fetchRSS (url source) in
  match filterRelevant feed market with
  | Normal relevant =>
      map (fun item =>
             {| type := "news";
                sentiment := Some (analyzeSentiment toLowerCase item);
                change24h := None;
                weight := news weights |})
          (take 5 relevant)
  | Throw _ => []
  end.

(** [fetchNewsSignals]; the [for ... of] over something that is no list
    throws outside of the [try]. *)
Definition fetchNewsSignals (toLowerCase : string -> string) (weights : Weights)
    (market : Market) (category : string) : completion (list Signal) :=
  match getNewsSourcesForCategory category with
  | Some newsSources =>
      mret (flat_map (newsSignalsOf toLowerCase weights market) newsSources)
  | None => Throw (TypeError "newsSources is not iterable")
  end.

(** [fetchSocialSignals]; [random k] is the [k]-th value that
    [Math.random()] returns during the call (the volume, the sentiment, the
    trend). *)
Definition fetchSocialSignals (weights : Weights) (random : nat -> Q)
  : list Signal :=
  [{| type := "social";
      sentiment := Some (Fin (random 1%nat * 2 - 1));
      change24h := None;
      weight := social weights |}].

(** [fetchOnChainSignals]: the draws are the two values and the two
    changes, in the order of the code. *)
Definition fetchOnChainSignals (weights : Weights) (random : nat -> Q)
    (category : string) : list Signal :=
  if negb (String.eqb category "crypto") then [] else
  [{| type := "onchain";
      sentiment := None;
      change24h := Some (Fin (random 1%nat * 40 - 20));
      weight := onchain weights |};
   {| type := "onchain";
      sentiment := None;
      change24h := Some (Fin (random 3%nat * 50 - 25));
      weight := onchain weights |}].

(** The three sources as the collaborators of [aggregate]: [random n] is the
    sequence of draws of the [n]-th fetch issued. *)
Definition builtin (toLowerCase : string -> string) (weights : Weights)
    (random : nat -> nat -> Q) : Sources :=
  fun call n =>
    if String.eqb (source call) "news" then
      match fetchNewsSignals toLowerCase weights
              (fetch_market call) (fetch_category call) with
      | Normal signals => Some signals
      | Throw _ => None
      end
    else if String.eqb (source call) "social" then
      Some (fetchSocialSignals weights (random n))
    else if String.eqb (source call) "onchain" then
      Some (fetchOnChainSignals weights (random n) (fetch_category call))
    else None.

(** [Math.random()] returns a number of [0, 1). *)
Definition unit_draws (random : nat -> nat -> Q) : Prop :=
  forall n k, 0 <= random n k /\ random n k < 1.

(** A weight that is missing, or positive and of moderate magnitude. *)
Definition weight_ok (w : option jsnum) : bool :=
  match w with
  | Some (Fin q) => Qltb 0 q && Qle_bool q max_magnitude
  | Some _ => false
  | None => true
  end.

Definition weights_ok (weights : Weights) : bool :=
  weight_ok (news weights) && weight_ok (social weights)
  && weight_ok (onchain weights).

End BuiltinSources.

(** The object a cache miss of [aggregate] builds from the signals fetched
    (the fetches being the [n]-th and following) at the time [time]. *)
Definition missResult (config : SignalAggregationSkill.Config)
    (fetch : SignalAggregationSkill.Sources)
    (market : SignalAggregationSkill.Market) (category : string)
    (n : nat) (time : Z) : AggregateResult :=
  let signals :=
    SignalAggregationSkill.settle fetch n
      (SignalAggregationSkill.fetchCalls config market category) in
  {| signals := Some signals;
     score := Some (SignalAggregationSkill.calculateWeightedScore signals);
     timestamp := Some time;
     sourceCount := Some (length signals);
     volatility := None;
     liquidity := None |}.

(** Every object in the cache satisfies [P]. *)
Definition cache_all (P : AggregateResult -> Prop)
    (st : SignalAggregationSkill.State) : Prop :=
  forall key cached,
    SignalAggregationSkill.cache st !! key = Some cached ->
    P (SignalAggregationSkill.data cached).

(** A new skill at the time [time]: nothing cached, nothing fetched. *)
Definition freshState (time : Z) : SignalAggregationSkill.State :=
  SignalAggregationSkill.mkState ∅ time [].

(* ===================================================================== *)
(** ** BaseAgent                                                          *)
(* ===================================================================== *)

Module BaseAgent.

(** [this.config], as far as the agent and its skills read it. *)
Record Config : Type := mkConfig {
  minConfidence : jsnum;
  maxBetSize : jsnum;
  autoExecute : bool;
  bankroll : option jsnum;
}.

(** The constructor's defaults ([config.minConfidence || 0.65],
    [config.maxBetSize || 100], [config.autoExecute || false]); a property
    of the argument overrides its default through the [...config] spread. *)
Definition defaultConfig (minConfidence' maxBetSize' : option jsnum)
    (autoExecute' : option bool) (bankroll' : option jsnum) : Config :=
  {| minConfidence := default (Fin 0.65) minConfidence';
     maxBetSize := default (Fin 100) maxBetSize';
     autoExecute := default false autoExecute';
     bankroll := bankroll' |}.

(** [this.state.performance]; the three counters start at 0 and are only
    incremented. *)
Record Tally : Type := mkTally {
  perf_total : nat;
  perf_wins : nat;
  perf_losses : nat;
  perf_winRate : jsnum;
  perf_pnl : jsnum;
}.

Definition initialPerformance : Tally :=
  {| perf_total := 0; perf_wins := 0; perf_losses := 0;
     perf_winRate := Fin 0; perf_pnl := Fin 0 |}.

(** The skill registered as 'aggregation': its configuration. *)
Record Aggregation : Type := mkAggregation {
  aggregation_config : SignalAggregationSkill.Config;
  aggregation_weights : BuiltinSources.Weights;
}.

(** The agent: its category, its configuration, the skills registered under
    the three names the agent looks up, and its state. *)
Record t : Type := mk {
  category : string;
  config : Config;
  aggregation : option Aggregation;
  scoring : option ConfidenceScoringSkill.t;
  execution : option Execution.t;
  performance : Tally;
  trades : list Execution.Trade;
}.

(** [new BaseAgent(config)] *)
Definition new (category : string) (config : Config) : t :=
  mk category config None None None initialPerformance [].

(** What the execution skill reads of the agent it is attached to. *)
Definition asAgent (self : t) : ExecutionSkill.Agent :=
  ExecutionSkill.mkAgent
    (Some (ExecutionSkill.mkAgentConfig (Some (maxBetSize (config self))))).

(** [use(skill)] for the three skills: [skills.set] and [skill.attach]. *)
Definition useAggregation (skill : Aggregation) (self : t) : t :=
  mk (category self) (config self) (Some skill) (scoring self) (execution self)
     (performance self) (trades self).

Definition useScoring (skill : ConfidenceScoringSkill.t) (self : t) : t :=
  mk (category self) (config self) (aggregation self) (Some skill) (execution self)
     (performance self) (trades self).

Definition useExecution (skill : Execution.t) (self : t) : t :=
  let attached :=
    Execution.mk
      (ExecutionSkill.mk (ExecutionSkill.bankroll (Execution.sizer skill))
                         (Some (asAgent self)))
      (Execution.config skill) (Execution.clients skill) in
  mk (category self) (config self) (aggregation self) (scoring self) (Some attached)
     (performance self) (trades self).

(** [init]: the [init] of the skills (only that of the execution skill does
    something); no state is found on disk. *)
Definition init (polymarket kalshi : Execution.Client) (self : t) : t :=
  mk (category self) (config self) (aggregation self) (scoring self)
     (Execution.init polymarket kalshi <$> execution self)
     (performance self) (trades self).

(** What the agent passes to the scoring skill as [performance]: the object
    has no [recentWinRate]. *)
Definition performanceOf (p : Tally) : Performance :=
  {| total := Some (JS.of_nat (perf_total p));
     winRate := Some (perf_winRate p);
     recentWinRate := None;
     pnl := Some (perf_pnl p) |}.

(** [aggregateSignals]: the fallback object without the skill, the skill's
    [aggregate] with the agent's category otherwise.  The cache of the
    skill is the state [st]. *)
Definition aggregateSignals (toLowerCase : string -> string)
    (random : nat -> nat -> Q) (self : t)
    (market : SignalAggregationSkill.Market) (elapsed : Z)
    (st : SignalAggregationSkill.State)
  : AggregateResult * SignalAggregationSkill.State :=
  match aggregation self with
  | None =>
      ({| signals := Some []; score := Some (Fin 0.5); timestamp := None;
          sourceCount := None; volatility := None; liquidity := None |}, st)
  | Some skill =>
      SignalAggregationSkill.aggregate (aggregation_config skill)
        (BuiltinSources.builtin toLowerCase (aggregation_weights skill) random)
        market (category self) elapsed st
  end.

(** [calculateConfidence] *)
Definition calculateConfidence (self : t) (prediction : option Prediction)
    (signals' : option AggregateResult) : completion jsnum :=
  match scoring self with
  | None =>
      pr ← deref prediction;
      mret (JS.min (rawConfidence pr || Fin 0.5)%js (Fin 0.99))
  | Some scoringSkill =>
      ConfidenceScoringSkill.calculate scoringSkill prediction signals'
        (Some (performanceOf (performance self)))
  end.

(** [execute]: the trade or [null], and the agent with the trade pushed.
    Writing the state to disk is not modelled. *)
Definition execute (time stamp : Z) (self : t)
    (prediction : option Execution.TradePrediction)
  : completion (option Execution.Trade * t) :=
  pr ← deref prediction;
  if (JS.toNumber (confidence (Execution.sizing pr)) <? minConfidence (config self))%js
  then mret (None, self)
  else
    match execution self with
    | None => Throw (Error "No execution skill registered")
    | Some executionSkill =>
        trade ← Execution.execute time stamp executionSkill prediction;
        mret (Some trade,
              mk (category self) (config self) (aggregation self) (scoring self)
                 (execution self) (performance self) (trades self ++ [trade]))
    end.

(** The update of [state.performance] by [logOutcome]; [predicted] is
    [prediction.outcome].  The [pnl] is not touched. *)
Definition tally (predicted actual : option string) (p : Tally) : Tally :=
  let correct := bool_decide (predicted = actual) in
  let total := S (perf_total p) in
  let wins := if correct then S (perf_wins p) else perf_wins p in
  let losses := if correct then perf_losses p else S (perf_losses p) in
  {| perf_total := total; perf_wins := wins; perf_losses := losses;
     perf_winRate := (JS.of_nat wins / JS.of_nat total)%js;
     perf_pnl := perf_pnl p |}.

(** [logOutcome] on the agent. *)
Definition logOutcome (predicted actual : option string) (self : t) : t :=
  mk (category self) (config self) (aggregation self) (scoring self)
     (execution self) (tally predicted actual (performance self)) (trades self).

(** A history of logged outcomes: the pairs of the predicted and the actual
    outcome, oldest first. *)
Definition logAll (outcomes : list (option string * option string)) (self : t) : t :=
  fold_left (fun self o => logOutcome o.1 o.2 self) outcomes self.

(** The correct predictions of a history. *)
Definition hits (outcomes : list (option string * option string)) : nat :=
  countb (fun o => bool_decide (o.1 = o.2)) outcomes.

End BaseAgent.

(* ===================================================================== *)
(** ** PoliticsAI                                                         *)
(* ===================================================================== *)

Module PoliticsAI.

(** The constructor: [minConfidence] 0.75 and [maxBetSize] 300 unless
    given. *)
Definition new (minConfidence' maxBetSize' : option jsnum)
    (autoExecute' : option bool) (bankroll' : option jsnum) : BaseAgent.t :=
  BaseAgent.new "politics"
    (BaseAgent.defaultConfig
       (Some (default (Fin 0.75) minConfidence'))
       (Some (default (Fin 300) maxBetSize'))
       autoExecute' bankroll').

(** The three skills [init] registers. *)
Definition aggregationSkill : BaseAgent.Aggregation :=
  BaseAgent.mkAggregation
    (SignalAggregationSkill.defaultConfig (Some ["news"; "social"]) None)
    (BuiltinSources.mkWeights (Some (Fin 0.7)) (Some (Fin 0.3)) None).

Definition scoringSkill : ConfidenceScoringSkill.t :=
  ConfidenceScoringSkill.new
    (ConfidenceScoringSkill.defaultConfig
       (Some (Fin 0.2)) None (Some (Fin 0.4)) (Some true) None).

Definition executionSkill (self : BaseAgent.t) : Execution.t :=
  Execution.new (BaseAgent.bankroll (BaseAgent.config self))
    (Execution.defaultConfig (Some "kalshi")
       (Some (Execution.VBoolean
                (negb (BaseAgent.autoExecute (BaseAgent.config self)))))).

(** [init] *)
Definition init (polymarket kalshi : Execution.Client) (self : BaseAgent.t)
  : BaseAgent.t :=
  let self := BaseAgent.useAggregation aggregationSkill self in
  let self := BaseAgent.useScoring scoringSkill self in
  let self := BaseAgent.useExecution (executionSkill self) self in
  BaseAgent.init polymarket kalshi self.

(** [predictGeneric]: the outcome and the raw prediction. *)
Definition predictGeneric (signals' : AggregateResult)
  : completion (string * Prediction) :=
  let outcome :=
    if (JS.toNumber (score signals') >? Fin 0.5)%js then "yes" else "no" in
  sigs ← deref (signals signals');
  mret (outcome,
        {| rawConfidence :=
             Some (Fin 0.5 + JS.abs (JS.toNumber (score signals') - Fin 0.5) * Fin 0.8)%js;
           model := Some "signal_consensus";
           dataQuality :=
             Some (if (2 <? length sigs)%nat then Fin 0.6 else Fin 0.4);
           marketType := None;
           confidence := None;
           marketPrice := None |}).

End PoliticsAI.

(* ===================================================================== *)
(** ** Arithmetic of [jsnum] on finite values                            *)
(* ===================================================================== *)

Lemma Qltb_true (a b : Q) : Qltb a b = true <-> a < b.
Proof.
  unfold Qltb. rewrite negb_true_iff, <- not_true_iff_false, Qle_bool_iff.
  split; [apply Qnot_le_lt | apply Qlt_not_le].
Qed.

Lemma Qltb_false (a b : Q) : Qltb a b = false <-> b <= a.
Proof. unfold Qltb. rewrite negb_false_iff. apply Qle_bool_iff. Qed.

Lemma Qeq_bool_false (a b : Q) : Qeq_bool a b = false <-> ~ a == b.
Proof. rewrite <- not_true_iff_false, Qeq_bool_iff. tauto. Qed.

(** Turn the boolean tests of the model into facts [lra] can use. *)
Ltac qfacts :=
  repeat match goal with
  | H : Qltb _ _ = true |- _ => apply Qltb_true in H
  | H : Qltb _ _ = false |- _ => apply Qltb_false in H
  | H : Qeq_bool _ _ = true |- _ => apply Qeq_bool_iff in H
  | H : Qeq_bool _ _ = false |- _ => apply Qeq_bool_false in H
  | H : (_ ?= _) = Eq |- _ => apply Qeq_alt in H
  | H : (_ ?= _) = Lt |- _ => apply Qlt_alt in H
  | H : (_ ?= _) = Gt |- _ => apply Qgt_alt in H
  end.

(** Case analysis on every rational test in the goal. *)
Ltac qcases :=
  repeat match goal with
  | |- context [Qltb ?a ?b] => destruct (Qltb a b) eqn:?
  | |- context [Qeq_bool ?a ?b] => destruct (Qeq_bool a b) eqn:?
  | |- context [?a ?= ?b] => destruct (a ?= b) eqn:?
  end; qfacts.

Section FiniteArithmetic.
Variables x y : Q.

Lemma min_fin :
  exists r, JS.min (Fin x) (Fin y) = Fin r /\ r <= x /\ r <= y /\ (r = x \/ r = y).
Proof. simpl. qcases; eexists; (split; [reflexivity|]); repeat split; auto; lra. Qed.

Lemma div_fin : ~ y == 0 -> JS.div (Fin x) (Fin y) = Fin (x / y).
Proof. intros H. simpl. apply Qeq_bool_false in H. now rewrite H. Qed.
End FiniteArithmetic.

(** [Math.max(lo, Math.min(k, hi))] of any number but NaN lies in [lo, hi]. *)
Lemma clamp_range (lo hi : Q) (k : jsnum) :
  lo <= hi -> k <> NaN -> in_range lo hi (JS.max (Fin lo) (JS.min k (Fin hi))).
Proof.
  intros Hle Hk. destruct k; try congruence; simpl; qcases; simpl; qcases;
    simpl; lra.
Qed.

(** [Math.min(Math.max(k, lo), hi)], the other order of the same clamp. *)
Lemma clamp_range' (lo hi : Q) (k : jsnum) :
  lo <= hi -> k <> NaN -> in_range lo hi (JS.min (JS.max k (Fin lo)) (Fin hi)).
Proof.
  intros Hle Hk. destruct k; try congruence; simpl; qcases; simpl; qcases;
    simpl; lra.
Qed.

(* ===================================================================== *)
(** ** ExecutionSkill.calculatePositionSize                               *)
(* ===================================================================== *)

Section PositionSize.
Import ExecutionSkill.

(** With a price strictly between 0 and 1 the odds [b] are positive and the
    full Kelly fraction is the finite number [(b*c - (1-c)) / b]. *)
Lemma fullKelly_valid_price (pr : Prediction) (c mp : Q) :
  confidence pr = Some (Fin c) -> marketPrice pr = Some (Fin mp) ->
  0 < mp -> mp < 1 ->
  fullKelly pr = Fin (((1 / mp - 1) * c + - (1 + - c)) / (1 / mp - 1)).
Proof.
  intros Hc Hm H0 H1. unfold fullKelly. rewrite Hc, Hm. cbn -[Qeq_bool Qdiv].
  assert (Hmp : Qeq_bool mp 0 = false) by (apply Qeq_bool_false; lra).
  assert (Hb : 1 < 1 / mp) by (apply Qlt_shift_div_l; lra).
  assert (Hb0 : Qeq_bool (1 / mp + - (1)) 0 = false)
    by (apply Qeq_bool_false; lra).
  repeat (rewrite ?Hmp, ?Hb0; cbn -[Qeq_bool Qdiv]). reflexivity.
Qed.

(** The capped Kelly fraction is a number of [0, 0.5] unless the full Kelly
    fraction is NaN. *)
Lemma kelly_range (pr : Prediction) :
  fullKelly pr <> NaN -> in_range 0 0.5 (kelly pr).
Proof. intros H. unfold kelly. apply clamp_range; [lra | exact H]. Qed.

(** A price of 0 is falsy: [marketPrice || 0.5] is 0.5, as for a missing
    price and as for the price 0.5 itself. *)
Lemma zero_price_default (pr : Prediction) (z : Q) (v : option jsnum) :
  marketPrice pr = Some (Fin z) -> z == 0 ->
  v = None \/ v = Some (Fin 0.5) ->
  fullKelly pr = fullKelly (with_marketPrice pr v).
Proof.
  intros Hm Hz Hv. unfold fullKelly. rewrite Hm. cbn [with_marketPrice marketPrice confidence].
  apply Qeq_bool_iff in Hz.
  destruct Hv as [-> | ->]; cbn [JS.or_else JS.truthy]; rewrite Hz; reflexivity.
Qed.

(** On a prediction object the call always returns: the body has no
    [throw], and no check of its numeric inputs. *)
Lemma calculatePositionSize_returns (self : ExecutionSkill.t) (pr : Prediction) :
  calculatePositionSize self (Some pr) =
  Normal (JS.min ((bankroll self || Fin 1000) * kelly pr * Fin 0.25)
                 (agentMaxBetSize self || Fin 100))%js.
Proof. reflexivity. Qed.

(** C3 (as stated): with confidence 0.7, price 0.55, bankroll 1000 and cap
    1000 the Kelly fraction is not within 0.005 of 0.474 and the returned
    size is not within 1 of 118.5. *)
Lemma kelly_scenario_not_118 :
  let pr := priced (Some (Fin 0.7)) (Some (Fin 0.55)) in
  ~ in_range 0.469 0.479 (kelly pr)
  /\ ~ exists size,
        calculatePositionSize (skill_with (Some (Fin 1000)) (Some (Fin 1000)))
          (Some pr) = Normal (Fin size)
        /\ 117.5 <= size /\ size <= 119.5.
Proof.
  cbv zeta. split.
  - vm_compute. intros [H _]. now apply H.
  - intros (size & Heq & Hlo & Hhi). vm_compute in Heq.
    injection Heq as <-. revert Hlo. vm_compute. intros H. now apply H.
Qed.

(** C3 (amended): in that scenario b = 9/11, the Kelly fraction is
    (b*0.7 - 0.3)/b = 1/3 (below the cap 0.5, so the cap does not bind),
    and the returned size is 1000 * (1/3) * 0.25 = 250/3, about 83.33,
    which is at most 1000. *)
Theorem kelly_scenario :
  let pr := priced (Some (Fin 0.7)) (Some (Fin 0.55)) in
  num_eq (fullKelly pr) (Fin (1 # 3)) /\
  num_eq (kelly pr) (Fin (1 # 3)) /\
  exists size,
    calculatePositionSize (skill_with (Some (Fin 1000)) (Some (Fin 1000)))
      (Some pr) = Normal (Fin size)
    /\ size == 250 # 3 /\ 83.33 <= size /\ size <= 83.34 /\ size <= 1000.
Proof.
  cbv zeta. repeat split; try reflexivity.
  eexists. split; [vm_compute; reflexivity |]. repeat split; discriminate.
Qed.

(** C4 (as stated): a configured bankroll of 0 is admitted by "bankroll >= 0",
    but [this.config.bankroll || 1000] replaces it by 1000, and the size
    exceeds min(0 * 0.5 * 0.25, maxBetSize) = 0. *)
Lemma zero_bankroll_exceeds_bound :
  exists size,
    calculatePositionSize (skill_with (Some (Fin 0)) (Some (Fin 1000)))
      (Some (priced (Some (Fin 0.7)) (Some (Fin 0.55)))) = Normal (Fin size)
    /\ ~ size <= Qmin (0 * 0.5 * 0.25) 1000.
Proof.
  eexists. split; [vm_compute; reflexivity |].
  vm_compute. intros H. now apply H.
Qed.

(** C4 (amended): for a finite confidence, a price of [1e-100, 1) (a
    positive price below 1 whose reciprocal the doubles can hold: 1/price
    is at most 1e100, the odds b = 1/price - 1 lie in (0, 1e100]), a
    positive bankroll and a positive cap (each after its default: a
    bankroll that is missing or 0 counts as 1000, a cap that is missing or
    0 as 100), the Kelly fraction is clamped to [0, 0.5] and the returned
    size lies in [0, min(bankroll * 0.5 * 0.25, cap)]. *)
Theorem position_size_bounded (self : ExecutionSkill.t) (pr : Prediction)
    (c mp bk cap : Q) :
  confidence pr = Some (Fin c) ->
  marketPrice pr = Some (Fin mp) -> min_price <= mp -> mp < 1 ->
  (bankroll self || Fin 1000)%js = Fin bk -> 0 < bk ->
  (agentMaxBetSize self || Fin 100)%js = Fin cap -> 0 < cap ->
  (0 < 1 / mp - 1 /\ 1 / mp - 1 <= max_magnitude) /\
  in_range 0 0.5 (kelly pr) /\
  exists size,
    calculatePositionSize self (Some pr) = Normal (Fin size)
    /\ 0 <= size /\ size <= Qmin (bk * 0.5 * 0.25) cap.
Proof.
  intros Hc Hm Hmin H1 Hbk Hbk0 Hcap Hcap0.
  assert (Hpos : 0 < min_price) by reflexivity.
  assert (H0 : 0 < mp) by lra.
  assert (Hodds : 0 < 1 / mp - 1 /\ 1 / mp - 1 <= max_magnitude).
  { assert (Hlo : 1 < 1 / mp) by (apply Qlt_shift_div_l; lra).
    assert (Hhi : 1 / mp <= max_magnitude).
    { apply Qle_shift_div_r; [exact H0 |].
      assert (Hm1 : max_magnitude * min_price == 1) by reflexivity.
      rewrite <- Hm1. apply Qmult_le_l; [reflexivity | exact Hmin]. }
    split; lra. }
  split; [exact Hodds |].
  assert (Hk : in_range 0 0.5 (kelly pr)).
  { apply kelly_range. rewrite (fullKelly_valid_price pr c mp); auto; discriminate. }
  split; [exact Hk |].
  rewrite calculatePositionSize_returns, Hbk, Hcap.
  destruct (kelly pr) as [k | | |]; try contradiction. destruct Hk as [Hk0 Hk1].
  destruct (min_fin (bk * k * 0.25) cap) as (r & Hr & Hr1 & Hr2 & Hr3).
  exists r. split; [cbn [JS.mul]; now rewrite Hr |].
  split; [destruct Hr3; subst r; nra | apply Q.min_glb; nra].
Qed.

Lemma position_size_bounded_witness :
  (min_price <= 0.55 /\ 0.55 < 1 /\ 0 < 1000 /\ 0 < 500)
  /\ in_range 0 0.5 (kelly (priced (Some (Fin 0.7)) (Some (Fin 0.55))))
  /\ exists size,
       calculatePositionSize (skill_with (Some (Fin 1000)) (Some (Fin 500)))
         (Some (priced (Some (Fin 0.7)) (Some (Fin 0.55)))) = Normal (Fin size)
       /\ 0 <= size /\ size <= Qmin (1000 * 0.5 * 0.25) 500.
Proof.
  split; [repeat split; reflexivity || discriminate |].
  apply (position_size_bounded (skill_with (Some (Fin 1000)) (Some (Fin 500)))
           (priced (Some (Fin 0.7)) (Some (Fin 0.55))) 0.7 0.55 1000 500);
    reflexivity || discriminate.
Defined.

(** With a price of 1 the odds [b] are 0; for a confidence below 1 the
    numerator [b*p - q] is negative, the quotient is -Infinity and the cap
    turns it into 0. *)
Lemma kelly_price_one (pr : Prediction) (o c : Q) :
  marketPrice pr = Some (Fin o) -> o == 1 ->
  confidence pr = Some (Fin c) -> c < 1 ->
  fullKelly pr = NegInf /\ kelly pr = Fin 0.
Proof.
  intros Hm Ho Hc Hc1.
  assert (Hf : fullKelly pr = NegInf).
  { unfold fullKelly. rewrite Hm, Hc.
    assert (Ho0 : Qeq_bool o 0 = false) by (apply Qeq_bool_false; lra).
    assert (Hb : 1 / o + - (1) == 0) by (rewrite Ho; reflexivity).
    assert (Hb0 : Qeq_bool (1 / o + - (1)) 0 = true) by now apply Qeq_bool_iff.
    repeat (rewrite ?Ho0, ?Hb0; cbn -[Qeq_bool Qdiv Qcompare]).
    assert (Hn : (1 / o + - (1)) * c + - (1 + - c) < 0) by (rewrite Hb; lra).
    now rewrite (proj1 (Qlt_alt _ _) Hn). }
  split; [exact Hf |]. unfold kelly. now rewrite Hf.
Qed.

(** C2 (as stated): with bankroll 1000 and cap 1000, a price of 1 and a
    price of 0 are not rejected: the calls return 0 and the size for the
    default price; with price 1 and confidence 1 the call returns NaN. *)
Lemma boundary_price_not_rejected :
  let sk := skill_with (Some (Fin 1000)) (Some (Fin 1000)) in
  ~ raises (calculatePositionSize sk (Some (priced (Some (Fin 0.7)) (Some (Fin 1)))))
  /\ ~ raises (calculatePositionSize sk (Some (priced (Some (Fin 0.7)) (Some (Fin 0)))))
  /\ calculatePositionSize sk (Some (priced (Some (Fin 1)) (Some (Fin 1)))) = Normal NaN.
Proof.
  cbv zeta. repeat split; intros [e He]; discriminate He.
Qed.

(** C2 (amended): calculatePositionSize validates nothing and raises no
    error on any prediction object: it always returns a number.  A price
    of 0 is replaced by the default 0.5, as a missing price is; a price of
    1 with a confidence below 1 gives the Kelly fraction 0 and (finite
    bankroll, non-negative cap) the size 0. *)
Theorem position_size_no_validation (self : ExecutionSkill.t) (pr : Prediction) :
  (exists v, calculatePositionSize self (Some pr) = Normal v) /\
  (forall z, marketPrice pr = Some (Fin z) -> z == 0 ->
     calculatePositionSize self (Some pr) =
     calculatePositionSize self (Some (with_marketPrice pr None))) /\
  (forall o c bk cap,
     marketPrice pr = Some (Fin o) -> o == 1 ->
     confidence pr = Some (Fin c) -> c < 1 ->
     (bankroll self || Fin 1000)%js = Fin bk ->
     (agentMaxBetSize self || Fin 100)%js = Fin cap -> 0 <= cap ->
     exists size,
       calculatePositionSize self (Some pr) = Normal (Fin size) /\ size == 0).
Proof.
  split; [eexists; apply calculatePositionSize_returns |]. split.
  - intros z Hm Hz. rewrite !calculatePositionSize_returns. unfold kelly.
    now rewrite (zero_price_default pr z None Hm Hz) by auto.
  - intros o c bk cap Hm Ho Hc Hc1 Hbk Hcap Hcap0.
    rewrite calculatePositionSize_returns, Hbk, Hcap.
    destruct (kelly_price_one pr o c Hm Ho Hc Hc1) as [_ ->].
    destruct (min_fin (bk * 0 * 0.25) cap) as (r & Hr & Hr1 & Hr2 & Hr3).
    exists r. split; [cbn [JS.mul]; now rewrite Hr |].
    destruct Hr3; subst r; lra.
Qed.

Lemma position_size_no_validation_witness :
  (1 == 1 /\ 0.7 < 1 /\ 0 <= 1000)
  /\ exists size,
       calculatePositionSize (skill_with (Some (Fin 1000)) (Some (Fin 1000)))
         (Some (priced (Some (Fin 0.7)) (Some (Fin 1)))) = Normal (Fin size)
       /\ size == 0.
Proof.
  split; [repeat split; reflexivity || discriminate |].
  destruct (position_size_no_validation
              (skill_with (Some (Fin 1000)) (Some (Fin 1000)))
              (priced (Some (Fin 0.7)) (Some (Fin 1)))) as (_ & _ & H).
  apply (H 1 0.7 1000 1000); reflexivity || discriminate.
Defined.

(** C10: a price of exactly 0 is falsy, so [prediction.marketPrice || 0.5]
    substitutes 0.5 as it does for a missing price: the call returns what
    it returns for the price 0.5 (and for no price); for a finite
    confidence, a non-negative bankroll and a non-negative cap (after
    their defaults) that is a finite, non-negative size: nothing is
    raised and the result is neither NaN nor an infinity. *)
Theorem zero_price_uses_default (self : ExecutionSkill.t) (pr : Prediction)
    (z c bk cap : Q) :
  marketPrice pr = Some (Fin z) -> z == 0 ->
  confidence pr = Some (Fin c) ->
  (bankroll self || Fin 1000)%js = Fin bk -> 0 <= bk ->
  (agentMaxBetSize self || Fin 100)%js = Fin cap -> 0 <= cap ->
  calculatePositionSize self (Some pr) =
    calculatePositionSize self (Some (with_marketPrice pr (Some (Fin 0.5))))
  /\ calculatePositionSize self (Some pr) =
    calculatePositionSize self (Some (with_marketPrice pr None))
  /\ exists size,
       calculatePositionSize self (Some pr) = Normal (Fin size) /\ 0 <= size.
Proof.
  intros Hm Hz Hc Hbk Hbk0 Hcap Hcap0.
  assert (Hhalf : fullKelly pr = fullKelly (with_marketPrice pr (Some (Fin 0.5))))
    by (apply (zero_price_default pr z); auto).
  assert (Hnone : fullKelly pr = fullKelly (with_marketPrice pr None))
    by (apply (zero_price_default pr z); auto).
  rewrite !calculatePositionSize_returns. unfold kelly at 1 2 3 4.
  rewrite <- Hhalf, <- Hnone. repeat split.
  fold (kelly pr).
  assert (Hk : in_range 0 0.5 (kelly pr)).
  { apply kelly_range. rewrite Hhalf.
    rewrite (fullKelly_valid_price _ c 0.5); try reflexivity; auto; discriminate. }
  rewrite Hbk, Hcap.
  destruct (kelly pr) as [k | | |]; try contradiction. destruct Hk as [Hk0 Hk1].
  destruct (min_fin (bk * k * 0.25) cap) as (r & Hr & Hr1 & Hr2 & Hr3).
  exists r. split; [cbn [JS.mul]; now rewrite Hr |].
  destruct Hr3; subst r; nra.
Qed.

Lemma zero_price_uses_default_witness :
  (0 == 0 /\ 0 <= 1000 /\ 0 <= 100)
  /\ calculatePositionSize (skill_with (Some (Fin 1000)) None)
       (Some (priced (Some (Fin 0.7)) (Some (Fin 0)))) =
     calculatePositionSize (skill_with (Some (Fin 1000)) None)
       (Some (priced (Some (Fin 0.7)) (Some (Fin 0.5))))
  /\ calculatePositionSize (skill_with (Some (Fin 1000)) None)
       (Some (priced (Some (Fin 0.7)) (Some (Fin 0)))) =
     calculatePositionSize (skill_with (Some (Fin 1000)) None)
       (Some (priced (Some (Fin 0.7)) None))
  /\ exists size,
       calculatePositionSize (skill_with (Some (Fin 1000)) None)
         (Some (priced (Some (Fin 0.7)) (Some (Fin 0)))) = Normal (Fin size)
       /\ 0 <= size.
Proof.
  split; [repeat split; reflexivity || discriminate |].
  apply (zero_price_uses_default (skill_with (Some (Fin 1000)) None)
           (priced (Some (Fin 0.7)) (Some (Fin 0))) 0 0.7 1000 100);
    reflexivity || discriminate.
Defined.
End PositionSize.

(* ===================================================================== *)
(** ** SignalAggregationSkill.calculateWeightedScore                      *)
(* ===================================================================== *)

Section WeightedScore.
Import SignalAggregationSkill.

Lemma in_rangeb_spec (lo hi : Q) (a : jsnum) :
  in_rangeb lo hi a = true <-> in_range lo hi a.
Proof.
  destruct a; simpl; try (split; [discriminate | tauto]).
  rewrite andb_true_iff, !Qle_bool_iff. tauto.
Qed.

(** A signal of the data model has a positive effective weight. *)
Lemma data_model_weight (s : Signal) :
  data_model s = true -> exists w, (weight s || Fin 1)%js = Fin w /\ 0 < w.
Proof.
  unfold data_model. rewrite andb_true_iff. intros [_ Hw].
  destruct (weight s) as [[w | | |] |]; try discriminate; simpl.
  - apply Qltb_true in Hw. exists w. split; [| exact Hw].
    assert (H : Qeq_bool w 0 = false) by (apply Qeq_bool_false; lra).
    now rewrite H.
  - exists 1. split; [reflexivity | lra].
Qed.

(** On a signal that carries the properties of its type, [normalizeSignal]
    is a number of [0, 1]. *)
Lemma normalizeSignal_range (s : Signal) :
  data_model s = true -> has_fields s = true ->
  in_range 0 1 (normalizeSignal s).
Proof.
  unfold data_model, has_fields, normalizeSignal.
  rewrite andb_true_iff. intros [Hs _] Hf.
  destruct (String.eqb (type s) "news") eqn:Hnews;
    [| destruct (String.eqb (type s) "social") eqn:Hsocial;
       [| destruct (String.eqb (type s) "onchain") eqn:Hchain]];
    simpl in Hf.
  1, 2: apply bool_decide_eq_true in Hf; destruct Hf as [x Hx];
    rewrite Hx in Hs |- *; apply in_rangeb_spec in Hs;
    destruct x as [x | | |]; try contradiction; simpl in Hs |- *; split;
    [apply Qle_shift_div_l | apply Qle_shift_div_r]; lra.
  - destruct (change24h s) as [[c | | |] |]; try discriminate.
    cbn -[Qdiv]. unfold JS.gt. cbn -[Qdiv].
    assert (Hc : c / 100 == c * (1 # 100)) by reflexivity.
    qcases; cbn -[Qdiv]; qcases; cbn -[Qdiv]; rewrite ?Hc in *; lra.
  - simpl. lra.
Qed.

(** The loop invariant: both sums are finite, [0 <= weightedSum <=
    totalWeight], and the total weight is positive once a signal is in. *)
Lemma accumulate_invariant (sigs : list Signal) (tw ws : Q) :
  forallb data_model sigs = true -> forallb has_fields sigs = true ->
  0 <= ws -> ws <= tw ->
  exists tw' ws',
    fold_left accumulate sigs (Fin tw, Fin ws) = (Fin tw', Fin ws')
    /\ 0 <= ws' /\ ws' <= tw' /\ tw <= tw' /\ (sigs <> [] -> tw < tw').
Proof.
  revert tw ws. induction sigs as [| s sigs IH]; intros tw ws Hd Hf H0 H1.
  - exists tw, ws. simpl. repeat split; try lra. congruence.
  - simpl in Hd, Hf. apply andb_true_iff in Hd as [Hd Hds].
    apply andb_true_iff in Hf as [Hf Hfs].
    destruct (data_model_weight s Hd) as (w & Hw & Hw0).
    pose proof (normalizeSignal_range s Hd Hf) as Hn.
    destruct (normalizeSignal s) as [x | | |] eqn:Hx; try contradiction.
    destruct Hn as [Hx0 Hx1].
    assert (Hstep : accumulate (Fin tw, Fin ws) s = (Fin (tw + w), Fin (ws + x * w))).
    { unfold accumulate. now rewrite Hw, Hx. }
    cbn [fold_left]. rewrite Hstep.
    destruct (IH (tw + w) (ws + x * w) Hds Hfs) as (tw' & ws' & Heq & Ha & Hb & Hc & _);
      [nra | nra |].
    exists tw', ws'. split; [exact Heq |]. repeat split; try lra.
Qed.

(** The scenario of the specification: a news signal of sentiment 0.8 and
    weight 0.25 and an on-chain signal of change 30 and weight 0.5 score
    (0.9 * 0.25 + 0.8 * 0.5) / 0.75 = 5/6, about 0.833. *)
Example weighted_score_scenario :
  num_eq
    (calculateWeightedScore
       [mkSignal "news" (Some (Fin 0.8)) None (Some (Fin 0.25));
        mkSignal "onchain" None (Some (Fin 30)) (Some (Fin 0.5))])
    (Fin (5 # 6)).
Proof. reflexivity. Qed.

(** C5 (as stated): a news signal without a sentiment satisfies the data
    model (sentiment in [-1, 1] when present, weight 0.4 > 0), and the score
    is NaN, which is not a number of [0, 1]. *)
Lemma missing_sentiment_gives_NaN :
  let sigs := [mkSignal "news" None None (Some (Fin 0.4))] in
  forallb data_model sigs = true
  /\ calculateWeightedScore sigs = NaN
  /\ ~ in_range 0 1 (calculateWeightedScore sigs).
Proof. cbv zeta. repeat split. intros H. exact H. Qed.

(** The effective weight of a signal of the data model whose weight is of
    moderate magnitude. *)
Lemma moderate_weight_bound (s : Signal) (w : Q) :
  moderate_weight s = true -> (weight s || Fin 1)%js = Fin w ->
  w <= max_magnitude.
Proof.
  unfold moderate_weight, moderate_opt, moderate.
  assert (H1 : 1 <= max_magnitude) by discriminate.
  destruct (weight s) as [[x | | |] |]; try discriminate; cbn [JS.or_else JS.truthy].
  - intros Hx. apply Qle_bool_iff in Hx.
    pose proof (Qle_Qabs x) as Habs.
    destruct (Qeq_bool x 0); cbn [negb]; intros [= <-]; lra.
  - intros _ [= <-]. exact H1.
Qed.

(** With weights of moderate magnitude the total weight that the loop
    accumulates grows by at most [max_magnitude] per signal. *)
Lemma accumulate_moderate (sigs : list Signal) (tw ws : Q) :
  forallb data_model sigs = true -> forallb has_fields sigs = true ->
  forallb moderate_weight sigs = true ->
  0 <= ws -> ws <= tw ->
  exists tw' ws',
    fold_left accumulate sigs (Fin tw, Fin ws) = (Fin tw', Fin ws')
    /\ 0 <= ws' /\ ws' <= tw'
    /\ tw' <= tw + Qnat (length sigs) * max_magnitude.
Proof.
  revert tw ws. induction sigs as [| s sigs IH]; intros tw ws Hd Hf Hm H0 H1.
  - exists tw, ws. cbn [fold_left length]. change (Qnat 0) with 0.
    repeat split; lra.
  - cbn [forallb] in Hd, Hf, Hm. apply andb_true_iff in Hd as [Hd Hds].
    apply andb_true_iff in Hf as [Hf Hfs]. apply andb_true_iff in Hm as [Hm Hms].
    destruct (data_model_weight s Hd) as (w & Hw & Hw0).
    pose proof (moderate_weight_bound s w Hm Hw) as Hwm.
    pose proof (normalizeSignal_range s Hd Hf) as Hn.
    destruct (normalizeSignal s) as [x | | |] eqn:Hx; try contradiction.
    destruct Hn as [Hx0 Hx1].
    assert (Hstep : accumulate (Fin tw, Fin ws) s = (Fin (tw + w), Fin (ws + x * w))).
    { unfold accumulate. now rewrite Hw, Hx. }
    cbn [fold_left]. rewrite Hstep.
    destruct (IH (tw + w) (ws + x * w) Hds Hfs Hms) as (tw' & ws' & Heq & Ha & Hb & Hc);
      [nra | nra |].
    exists tw', ws'. split; [exact Heq |]. split; [exact Ha |]. split; [exact Hb |].
    assert (Hn : Qnat (length (s :: sigs)) == 1 + Qnat (length sigs)).
    { unfold Qnat. cbn [length].
      rewrite Nat2Z.inj_succ, <- Z.add_1_l, inject_Z_plus. reflexivity. }
    rewrite Hn.
    revert Hc Hwm. generalize max_magnitude (Qnat (length sigs)). intros M n Hc Hwm.
    lra.
Qed.

(** C5 (amended): for every signal list of the data model (sentiment in
    [-1, 1] when present, weight > 0) whose weights are at most 1e100 and in
    which each news or social signal carries a sentiment and each on-chain
    signal a finite [change24h], calculateWeightedScore returns a number of
    [0, 1]: the two sums of its loop are numbers with 0 <= weightedSum <=
    totalWeight <= length * 1e100.  For the empty list it returns exactly
    0.5. *)
Theorem weighted_score_range (sigs : list Signal) :
  forallb data_model sigs = true -> forallb has_fields sigs = true ->
  forallb moderate_weight sigs = true ->
  in_range 0 1 (calculateWeightedScore sigs)
  /\ (exists totalWeight weightedSum,
        fold_left accumulate sigs (Fin 0, Fin 0) = (Fin totalWeight, Fin weightedSum)
        /\ 0 <= weightedSum /\ weightedSum <= totalWeight
        /\ totalWeight <= Qnat (length sigs) * max_magnitude)
  /\ calculateWeightedScore [] = Fin 0.5.
Proof.
  intros Hd Hf Hm. split; [| split; [| reflexivity]].
  - unfold calculateWeightedScore. destruct sigs as [| s sigs]; [simpl; lra |].
    cbn [length Nat.eqb].
    destruct (accumulate_invariant (s :: sigs) 0 0 Hd Hf)
      as (tw & ws & Heq & Ha & Hb & _ & Hpos); [lra | lra |].
    rewrite Heq. specialize (Hpos ltac:(discriminate)).
    unfold JS.gt. cbn [JS.lt].
    assert (Ht : Qltb 0 tw = true) by now apply Qltb_true.
    rewrite Ht, div_fin by lra. simpl.
    split; [apply Qle_shift_div_l | apply Qle_shift_div_r]; lra.
  - destruct (accumulate_moderate sigs 0 0 Hd Hf Hm) as (tw & ws & Heq & Ha & Hb & Hc);
      [lra | lra |].
    exists tw, ws. split; [exact Heq |]. split; [exact Ha |]. split; [exact Hb |].
    lra.
Qed.

Lemma weighted_score_range_witness :
  let sigs := [mkSignal "news" (Some (Fin 0.8)) None (Some (Fin 0.25));
               mkSignal "onchain" None (Some (Fin 30)) (Some (Fin 0.5))] in
  (forallb data_model sigs = true /\ forallb has_fields sigs = true
   /\ forallb moderate_weight sigs = true)
  /\ in_range 0 1 (calculateWeightedScore sigs)
  /\ calculateWeightedScore [] = Fin 0.5.
Proof.
  cbv zeta. split; [repeat split; reflexivity |].
  destruct (weighted_score_range
              [mkSignal "news" (Some (Fin 0.8)) None (Some (Fin 0.25));
               mkSignal "onchain" None (Some (Fin 30)) (Some (Fin 0.5))]
              eq_refl eq_refl eq_refl) as (H & _ & H0).
  split; [exact H | exact H0].
Defined.
End WeightedScore.

(* ===================================================================== *)
(** ** ConfidenceScoringSkill: the base component                        *)
(* ===================================================================== *)

Section BaseConfidence.
Import ConfidenceScoringSkill.

(** [Math.min(score, 0.95)] is never above 0.95. *)
Lemma base_at_most_095 (prediction : Prediction) :
  (Fin 0.95 <? calculateBaseConfidence prediction)%js = false.
Proof.
  unfold calculateBaseConfidence.
  destruct (qualityAdjusted prediction) as [x | | |]; simpl; try reflexivity.
  qcases; simpl; qcases; first [reflexivity | exfalso; lra].
Qed.

(** Where the data quality is a number other than 0 the code multiplies by
    the factor of the specification. *)
Lemma dampening_applied (prediction : Prediction) (dq : Q) :
  dataQuality prediction = Some (Fin dq) -> ~ dq == 0 ->
  num_eq (calculateBaseConfidence prediction) (dampenedBase prediction).
Proof.
  intros Hdq Hnz. unfold calculateBaseConfidence, dampenedBase, qualityAdjusted.
  rewrite Hdq. apply Qeq_bool_false in Hnz.
  cbn [JS.truthy_opt JS.truthy JS.toNumber]. rewrite Hnz. cbn [negb JS.mul JS.add].
  assert (E : 0.5 + dq * 0.5 == 0.5 + 0.5 * dq) by ring.
  destruct (modelAdjusted prediction) as [x | | |]; cbn [JS.mul JS.scale JS.neg].
  - assert (Ex : x * (0.5 + dq * 0.5) == x * (0.5 + 0.5 * dq)) by (rewrite E; reflexivity).
    cbn [JS.min JS.lt]. unfold Qltb. rewrite Ex.
    destruct (Qle_bool _ _); cbn [negb num_eq]; [exact Ex | reflexivity].
  - rewrite E. destruct (_ ?= _); cbn; first [exact I | reflexivity].
  - rewrite E. destruct (_ ?= _); cbn; first [exact I | reflexivity].
  - exact I.
Qed.

(** C6: the dampening factor is applied under [if (prediction.dataQuality)],
    which is false for the data quality 0: with rawConfidence 0.8 and
    dataQuality 0 the base component is 0.8, where the factor
    0.5 + 0.5 * 0 of the specification gives the half, 0.4.  The worst
    quality is left undamped, while the quality 0.01 is dampened to
    0.8 * 0.505 = 0.404.  For every data quality other than 0 the code
    computes the dampened value of the specification, and the base
    component is never above 0.95. *)
Theorem zero_quality_undamped :
  let zero := mkPrediction (Some (Fin 0.8)) None (Some (Fin 0)) None None None in
  let low := mkPrediction (Some (Fin 0.8)) None (Some (Fin 0.01)) None None None in
  num_eq (calculateBaseConfidence zero) (Fin 0.8)
  /\ num_eq (dampenedBase zero) (Fin 0.4)
  /\ num_eq (calculateBaseConfidence low) (Fin 0.404)
  /\ num_eq (dampenedBase low) (Fin 0.404)
  /\ (forall prediction dq,
        dataQuality prediction = Some (Fin dq) -> ~ dq == 0 ->
        num_eq (calculateBaseConfidence prediction) (dampenedBase prediction))
  /\ (forall prediction,
        (Fin 0.95 <? calculateBaseConfidence prediction)%js = false).
Proof.
  cbv zeta. split; [reflexivity |]. split; [reflexivity |].
  split; [reflexivity |]. split; [reflexivity |].
  split; [exact dampening_applied | exact base_at_most_095].
Qed.
End BaseConfidence.

(* ===================================================================== *)
(** ** ConfidenceScoringSkill: the history component                     *)
(* ===================================================================== *)

Section HistoryConfidence.
Import ConfidenceScoringSkill.

(** With enough history, whenever the 'default' ledger has a bucket for the
    raw confidence, the history component is the 70/30 blend with the
    accuracy of the bucket, whatever the number of samples of the bucket. *)
Lemma history_blend_any_samples (self : t) (performance : Performance)
    (prediction : Prediction) (b : Bucket.t) (score : Q) :
  (JS.toNumber (total performance) <? minSamplesForHistory (config self))%js = false ->
  winRate performance = Some (Fin score) -> ~ score == 0 ->
  recentWinRate performance = None -> pnl performance = None ->
  getCalibrationForConfidence self (rawConfidence prediction) = Some b ->
  calculateHistoryConfidence self (Some performance) prediction =
    (Fin score * Fin 0.7 + JS.toNumber (Bucket.accuracy b) * Fin 0.3)%js.
Proof.
  intros Ht Hw Hnz Hr Hp Hb. unfold calculateHistoryConfidence.
  rewrite Ht, Hw, Hr, Hp, Hb. apply Qeq_bool_false in Hnz.
  cbn [JS.or_else JS.truthy JS.truthy_opt JS.toNumber JS.lt]. now rewrite Hnz.
Qed.

(** The scenario of the specification: with 5 samples, below the minimum
    of 10, the history component is exactly 0.5 whatever the win rate. *)
Example history_below_minimum (self : t) (prediction : Prediction)
    (rate recent pnl' : option jsnum) :
  minSamplesForHistory (config self) = Fin 10 ->
  calculateHistoryConfidence self
    (Some (mkPerformance (Some (Fin 5)) rate recent pnl')) prediction = Fin 0.5.
Proof. intros H. unfold calculateHistoryConfidence. cbn [total]. now rewrite H. Qed.

(** C7: after one incorrect outcome recorded at confidence 0.7 the bucket
    0.7 of the 'default' ledger has 1 sample (not more than 5); with
    performance [{total: 50, winRate: 0.6}] and rawConfidence 0.7 the
    history component is 0.6 * 0.7 + 0 * 0.3 = 0.42: the blend is applied,
    where skipping it would leave 0.6 (the value without the bucket). *)
Theorem history_blend_ignores_bucket_size :
  let fresh := new (defaultConfig None None None None None) in
  let self := recordOutcome (Fin 0.7) false None fresh in
  let performance := mkPerformance (Some (Fin 50)) (Some (Fin 0.6)) None None in
  let prediction := mkPrediction (Some (Fin 0.7)) None None None None None in
  (exists b, getCalibrationForConfidence self (rawConfidence prediction) = Some b
             /\ Bucket.samples b = 1%nat /\ (5 <? Bucket.samples b)%nat = false)
  /\ num_eq (calculateHistoryConfidence self (Some performance) prediction) (Fin 0.42)
  /\ num_eq (calculateHistoryConfidence fresh (Some performance) prediction) (Fin 0.6).
Proof.
  cbv zeta. split; [| split; vm_compute; reflexivity].
  eexists. split; [vm_compute; reflexivity |]. split; reflexivity.
Qed.
End HistoryConfidence.

(* ===================================================================== *)
(** ** ConfidenceScoringSkill.recordOutcome                               *)
(* ===================================================================== *)

Section Calibration.
Import ConfidenceScoringSkill.

Lemma Qnat_le (a b : nat) : (a <= b)%nat -> Qnat a <= Qnat b.
Proof. intros H. unfold Qnat. rewrite <- Zle_Qle. lia. Qed.

Lemma Qnat_add (a b : nat) : Qnat (a + b) == Qnat a + Qnat b.
Proof. unfold Qnat. now rewrite Nat2Z.inj_add, inject_Z_plus. Qed.

Lemma Qnat_pos (n : nat) : (1 <= n)%nat -> 1 <= Qnat n.
Proof. intros H. apply (Qnat_le 1 n H). Qed.

(** The accuracy of a consistent bucket is the number correct/samples, and
    it lies in [0, 1]. *)
Lemma consistent_accuracy (b : Bucket.t) :
  consistent b ->
  Bucket.accuracy b = Some (Fin (Qnat (Bucket.correct b) / Qnat (Bucket.samples b)))
  /\ 0 <= Qnat (Bucket.correct b) / Qnat (Bucket.samples b) <= 1.
Proof.
  intros (Hs & Hc & Ha).
  pose proof (Qnat_pos _ Hs) as Hs'. pose proof (Qnat_le _ _ Hc) as Hc'.
  pose proof (Qnat_le 0 _ (Nat.le_0_l (Bucket.correct b))) as H0.
  change (Qnat 0) with 0 in H0.
  split.
  - rewrite Ha. unfold JS.of_nat. fold (Qnat (Bucket.correct b)).
    fold (Qnat (Bucket.samples b)). now rewrite div_fin by lra.
  - split; [apply Qle_shift_div_l | apply Qle_shift_div_r]; lra.
Qed.

Lemma recalculate_consistent (b : Bucket.t) :
  (1 <= Bucket.samples b)%nat -> (Bucket.correct b <= Bucket.samples b)%nat ->
  consistent (recalculate b).
Proof. intros Hs Hc. repeat split; assumption. Qed.

Lemma countOutcome_counts (outcome : bool) (old : option Bucket.t) :
  Bucket.samples (countOutcome outcome old) = S (fst (counts old))
  /\ Bucket.correct (countOutcome outcome old) =
     (if outcome then S (snd (counts old)) else snd (counts old)).
Proof. destruct old; split; reflexivity. Qed.

(** What one call of [recordOutcome] does to each bucket of each ledger. *)
Lemma recordOutcome_bucket (self : t) (c : jsnum) (outcome : bool)
    (mt : option string) (m : string) (k : bkey) :
  bucketAt (recordOutcome c outcome mt self) m k =
    if decide (default "default" mt = m) then
      if decide (bucketOf c = k)
      then Some (recalculate (countOutcome outcome (bucketAt self m k)))
      else recalculate <$> bucketAt self m k
    else bucketAt self m k.
Proof.
  unfold bucketAt, recordOutcome. cbn [calibrationData].
  destruct (decide (default "default" mt = m)) as [<- | Hm].
  - rewrite lookup_insert_eq. cbn [mbind option_bind Ledger.buckets].
    rewrite lookup_fmap.
    destruct (decide (bucketOf c = k)) as [<- | Hk].
    + rewrite lookup_insert_eq. cbn [fmap option_fmap option_map].
      destruct (calibrationData self !! default "default" mt); reflexivity.
    + rewrite lookup_insert_ne by exact Hk.
      destruct (calibrationData self !! default "default" mt) as [cal |];
        cbn [default mbind option_bind Ledger.buckets]; [reflexivity |].
      now rewrite lookup_empty.
  - now rewrite lookup_insert_ne by exact Hm.
Qed.

Lemma calibrated_new (config : Config) : calibrated (new config).
Proof. intros m k b H. unfold bucketAt, new in H. cbn in H. now rewrite lookup_empty in H. Qed.

Lemma calibrated_recordOutcome (self : t) (c : jsnum) (outcome : bool)
    (mt : option string) :
  calibrated self -> calibrated (recordOutcome c outcome mt self).
Proof.
  intros Hself m k b. rewrite recordOutcome_bucket.
  destruct (decide _) as [Hm |]; [| apply Hself].
  destruct (decide _) as [Hk |].
  - intros [= <-]. destruct (countOutcome_counts outcome (bucketAt self m k)) as [Hs Hc].
    apply recalculate_consistent; rewrite ?Hs, ?Hc; [lia |].
    destruct (bucketAt self m k) as [b |] eqn:Hb; cbn [counts fst snd].
    + destruct (Hself _ _ _ Hb) as (_ & Hle & _). destruct outcome; lia.
    + destruct outcome; lia.
  - destruct (bucketAt self m k) as [b' |] eqn:Hb; [| discriminate].
    intros [= <-]. destruct (Hself _ _ _ Hb) as (H1 & H2 & _).
    now apply recalculate_consistent.
Qed.

(** A property kept by every call is kept by a history of calls. *)
Lemma recordAll_preserves (P : t -> Prop) (calls : list Outcome) :
  (forall self o, o ∈ calls -> P self -> P (record self o)) ->
  forall self, P self -> P (recordAll calls self).
Proof.
  unfold recordAll. induction calls as [| o calls IH]; intros Hstep self HP; [exact HP |].
  cbn [fold_left]. apply IH.
  - intros s o' Ho'. apply Hstep. now right.
  - apply Hstep; [now left | exact HP].
Qed.

Lemma calibrated_recordAll (calls : list Outcome) (self : t) :
  calibrated self -> calibrated (recordAll calls self).
Proof.
  apply recordAll_preserves. intros s o _. apply calibrated_recordOutcome.
Qed.

(** After [S N] correct outcomes both counters of the bucket have grown by
    [S N]. *)
Lemma successes_counts (self : t) (c : jsnum) (mt : option string) (N : nat) :
  let old := counts (bucketAt self (default "default" mt) (bucketOf c)) in
  exists b,
    bucketAt (successes (S N) c mt self) (default "default" mt) (bucketOf c) = Some b
    /\ Bucket.samples b = (fst old + S N)%nat
    /\ Bucket.correct b = (snd old + S N)%nat.
Proof.
  cbv zeta. induction N as [| N (b & Hb & Hs & Hc)].
  - cbn [successes]. rewrite recordOutcome_bucket.
    rewrite !decide_True by reflexivity. eexists. split; [reflexivity |].
    destruct (countOutcome_counts true
      (bucketAt self (default "default" mt) (bucketOf c))) as [Hs Hc].
    cbn [recalculate Bucket.samples Bucket.correct]. rewrite Hs, Hc. lia.
  - change (successes (S (S N)) c mt self)
      with (recordOutcome c true mt (successes (S N) c mt self)).
    rewrite recordOutcome_bucket, !decide_True by reflexivity.
    rewrite Hb. eexists. split; [reflexivity |].
    cbn [recalculate countOutcome default Bucket.samples Bucket.correct]. change (id b) with b. lia.
Qed.

(** A history without an incorrect outcome in a bucket leaves its two
    counters equal. *)
Lemma no_opposing_counts (config : Config) (calls : list Outcome)
    (m : string) (k : bkey) :
  no_opposing m k calls = true ->
  snd (counts (bucketAt (recordAll calls (new config)) m k)) =
  fst (counts (bucketAt (recordAll calls (new config)) m k)).
Proof.
  intros Hno.
  apply (recordAll_preserves
           (fun self => snd (counts (bucketAt self m k)) = fst (counts (bucketAt self m k)))).
  - intros self o Ho Heq. unfold record. rewrite recordOutcome_bucket.
    unfold no_opposing in Hno. rewrite forallb_forall in Hno.
    specialize (Hno o (proj1 (list_elem_of_In _ _) Ho)).
    unfold lands_in in Hno.
    destruct (decide _) as [Hm |]; [| exact Heq].
    destruct (decide _) as [Hk |].
    + rewrite !bool_decide_eq_true_2 in Hno by assumption. cbn in Hno. rewrite Hno.
      destruct (bucketAt self m k); cbn in *; congruence.
    + destruct (bucketAt self m k); cbn in *; congruence.
  - unfold bucketAt, new. cbn. now rewrite lookup_empty.
Qed.

Lemma Qdiv_le_cross (a b c d : Q) :
  0 < b -> 0 < d -> a * d <= c * b -> a / b <= c / d.
Proof.
  intros Hb Hd H. apply Qle_shift_div_l; [exact Hd |].
  assert (E : a / b * d == a * d / b) by (field; lra).
  rewrite E. apply Qle_shift_div_r; assumption.
Qed.

(** The ratio (c0 + n) / (s0 + n) for c0 <= s0: at most 1, growing with n,
    equal to 1 when c0 = s0, and as close to 1 as wanted for n large. *)
Lemma ratio_grows (s0 c0 n : nat) :
  (c0 <= s0)%nat -> (1 <= n)%nat ->
  Qnat (c0 + n) / Qnat (s0 + n) <= Qnat (c0 + S n) / Qnat (s0 + S n).
Proof.
  intros Hc Hn.
  pose proof (Qnat_pos (s0 + n) ltac:(lia)). pose proof (Qnat_pos (s0 + S n) ltac:(lia)).
  apply Qdiv_le_cross; try lra.
  replace (c0 + S n)%nat with (c0 + n + 1)%nat by lia.
  replace (s0 + S n)%nat with (s0 + n + 1)%nat by lia.
  rewrite (Qnat_add (c0 + n) 1), (Qnat_add (s0 + n) 1).
  pose proof (Qnat_le (c0 + n) (s0 + n) ltac:(lia)). change (Qnat 1) with 1. nra.
Qed.

Lemma ratio_one (s : nat) : (1 <= s)%nat -> Qnat s / Qnat s == 1.
Proof. intros Hs. pose proof (Qnat_pos s Hs). field. lra. Qed.

Lemma ratio_limit (s0 c0 : nat) (eps : Q) :
  (c0 <= s0)%nat -> 0 < eps ->
  exists N0, forall n, (N0 <= n)%nat ->
    1 - eps < Qnat (c0 + S n) / Qnat (s0 + S n).
Proof.
  intros Hc Heps. set (d := Qnat s0 - Qnat c0).
  exists (Z.to_nat (Qceiling (d / eps))). intros n Hn.
  pose proof (Qnat_pos (s0 + S n) ltac:(lia)) as Hpos.
  apply Qlt_shift_div_l; [lra |].
  rewrite (Qnat_add c0 (S n)), (Qnat_add s0 (S n)).
  assert (Hx : d / eps < Qnat (S n)).
  { eapply Qle_lt_trans; [apply Qle_ceiling |].
    unfold Qnat. rewrite <- Zlt_Qlt. lia. }
  assert (Hd : d < Qnat (S n) * eps).
  { assert (E : d == d / eps * eps) by (field; lra).
    rewrite E at 1. apply Qmult_lt_r; assumption. }
  pose proof (Qnat_le 0 s0 ltac:(lia)) as Hs0. change (Qnat 0) with 0 in Hs0.
  unfold d in Hd. nra.
Qed.

Lemma calibrated_successes (n : nat) (c : jsnum) (mt : option string) (self : t) :
  calibrated self -> calibrated (successes n c mt self).
Proof.
  intros H. induction n; [exact H |]. cbn [successes].
  now apply calibrated_recordOutcome.
Qed.

Lemma calibrated_counts (self : t) (m : string) (k : bkey) :
  calibrated self ->
  (snd (counts (bucketAt self m k)) <= fst (counts (bucketAt self m k)))%nat.
Proof.
  intros H. destruct (bucketAt self m k) as [b |] eqn:Hb; cbn; [| lia].
  now destruct (H _ _ _ Hb) as (_ & Hle & _).
Qed.

(** The accuracy of the bucket after [S N] correct outcomes, from the
    counters (s0, c0) it had before: (c0 + S N) / (s0 + S N). *)
Lemma successes_accuracy (self : t) (c : jsnum) (mt : option string) (N : nat) :
  calibrated self ->
  let old := counts (bucketAt self (default "default" mt) (bucketOf c)) in
  accuracyAt (successes (S N) c mt self) (default "default" mt) (bucketOf c) =
    Some (Fin (Qnat (snd old + S N) / Qnat (fst old + S N))).
Proof.
  intros Hself old. destruct (successes_counts self c mt N) as (b & Hb & Hs & Hc).
  fold old in Hs, Hc. unfold accuracyAt. rewrite Hb. cbn [mbind option_bind].
  assert (Hcons : consistent b).
  { eapply calibrated_successes; [exact Hself | exact Hb]. }
  destruct (consistent_accuracy b Hcons) as [-> _]. now rewrite Hs, Hc.
Qed.

(** C9: in every ledger reached by calls of recordOutcome, each bucket has
    correct <= samples and its accuracy is the number correct/samples, in
    [0, 1], and exactly 1 when no incorrect outcome was recorded in the
    bucket.  After N >= 1 further calls recordOutcome(c, true, t) the bucket
    of c has both counters increased by N; its accuracy never exceeds 1,
    does not decrease from one call to the next, comes as close to 1 as
    wanted for N large, and is exactly 1 when the history recorded no
    incorrect outcome in that bucket. *)
Theorem calibration_accuracy (config : Config) (calls : list Outcome)
    (c : jsnum) (mt : option string) :
  let self := recordAll calls (new config) in
  let m := default "default" mt in
  let k := bucketOf c in
  let after N := successes N c mt self in
  (forall m' k' b, bucketAt self m' k' = Some b ->
     (Bucket.correct b <= Bucket.samples b)%nat
     /\ Bucket.accuracy b =
        Some (Fin (Qnat (Bucket.correct b) / Qnat (Bucket.samples b)))
     /\ 0 <= Qnat (Bucket.correct b) / Qnat (Bucket.samples b) <= 1
     /\ (no_opposing m' k' calls = true ->
         Qnat (Bucket.correct b) / Qnat (Bucket.samples b) == 1))
  /\ (forall N, exists b,
        bucketAt (after (S N)) m k = Some b
        /\ Bucket.samples b = (fst (counts (bucketAt self m k)) + S N)%nat
        /\ Bucket.correct b = (snd (counts (bucketAt self m k)) + S N)%nat
        /\ (Bucket.correct b <= Bucket.samples b)%nat
        /\ Bucket.accuracy b =
           Some (Fin (Qnat (Bucket.correct b) / Qnat (Bucket.samples b)))
        /\ 0 <= Qnat (Bucket.correct b) / Qnat (Bucket.samples b) <= 1
        /\ (no_opposing m k calls = true ->
            Qnat (Bucket.correct b) / Qnat (Bucket.samples b) == 1))
  /\ (forall N a a',
        accuracyAt (after (S N)) m k = Some (Fin a) ->
        accuracyAt (after (S (S N))) m k = Some (Fin a') -> a <= a')
  /\ (forall eps, 0 < eps ->
        exists N0, forall N a, (N0 <= N)%nat ->
          accuracyAt (after (S N)) m k = Some (Fin a) -> 1 - eps < a).
Proof.
  cbv zeta.
  assert (Hself : calibrated (recordAll calls (new config)))
    by apply calibrated_recordAll, calibrated_new.
  pose proof (calibrated_counts _ (default "default" mt) (bucketOf c) Hself) as Hle.
  split; [| split; [| split]].
  - intros m' k' b Hb. pose proof (Hself _ _ _ Hb) as Hcons.
    destruct (consistent_accuracy b Hcons) as (Ha & H0 & H1).
    destruct Hcons as (Hs & Hcs & _). repeat split; try assumption.
    intros Hno. pose proof (no_opposing_counts config calls m' k' Hno) as Heq.
    rewrite Hb in Heq. cbn in Heq. rewrite Heq. now apply ratio_one.
  - intros N.
    destruct (successes_counts (recordAll calls (new config)) c mt N)
      as (b & Hb & Hs & Hc).
    assert (Hcons : consistent b)
      by (eapply calibrated_successes; [exact Hself | exact Hb]).
    destruct (consistent_accuracy b Hcons) as (Ha & H0 & H1).
    exists b. repeat split; try assumption.
    + now destruct Hcons as (_ & Hcs & _).
    + intros Hno. rewrite Hs, Hc.
      rewrite (no_opposing_counts config calls _ _ Hno).
      apply ratio_one. lia.
  - intros N a a'. rewrite !successes_accuracy by exact Hself.
    intros [= <-] [= <-]. apply ratio_grows; [exact Hle | lia].
  - intros eps Heps.
    destruct (ratio_limit _ _ eps Hle Heps) as (N0 & HN0).
    exists N0. intros N a HN. rewrite successes_accuracy by exact Hself.
    intros [= <-]. now apply HN0.
Qed.

Lemma calibration_accuracy_witness :
  0 < 0.1
  /\ exists N0, forall N a, (N0 <= N)%nat ->
       accuracyAt
         (successes (S N) (Fin 0.7) None
            (recordAll [mkOutcome (Fin 0.75) false None]
               (new (defaultConfig None None None None None))))
         "default" (BTenths 7) = Some (Fin a) ->
       1 - 0.1 < a.
Proof.
  split; [reflexivity |].
  destruct (calibration_accuracy (defaultConfig None None None None None)
              [mkOutcome (Fin 0.75) false None] (Fin 0.7) None)
    as (_ & _ & _ & H).
  apply (H 0.1). reflexivity.
Defined.
End Calibration.

(* ===================================================================== *)
(** ** ConfidenceScoringSkill.calculate                                   *)
(* ===================================================================== *)

(** Finite numbers are closed under the arithmetic of the code. *)
Section FiniteClosure.
Variables a b : jsnum.
Hypothesis Ha : JS.isFinite a = true.
Hypothesis Hb : JS.isFinite b = true.

Lemma fin_add : JS.isFinite (a + b)%js = true.
Proof. now destruct a, b. Qed.

Lemma fin_sub : JS.isFinite (a - b)%js = true.
Proof. now destruct a, b. Qed.

Lemma fin_mul : JS.isFinite (a * b)%js = true.
Proof. now destruct a, b. Qed.

Lemma fin_min : JS.isFinite (JS.min a b) = true.
Proof. destruct a, b; try discriminate. simpl. now destruct (Qltb _ _). Qed.

Lemma fin_max : JS.isFinite (JS.max a b) = true.
Proof. destruct a, b; try discriminate. simpl. now destruct (Qltb _ _). Qed.

Lemma fin_abs : JS.isFinite (JS.abs a) = true.
Proof. now destruct a. Qed.

Lemma fin_div (y : Q) : Qeq_bool y 0 = false -> JS.isFinite (a / Fin y)%js = true.
Proof. intros Hy. destruct a; try discriminate. simpl. now rewrite Hy. Qed.

Lemma fin_div_count (n : nat) : (1 <= n)%nat -> JS.isFinite (a / JS.of_nat n)%js = true.
Proof.
  intros Hn. apply fin_div. apply Qeq_bool_false.
  pose proof (Qnat_pos n Hn). unfold Qnat in *. lra.
Qed.

Lemma fin_or_else (o : option jsnum) :
  finite_opt o = true -> JS.isFinite (o || b)%js = true.
Proof.
  intros Ho. destruct o as [x |]; simpl; [| exact Hb].
  now destruct (JS.truthy x).
Qed.
End FiniteClosure.

Lemma fin_lit (q : Q) : JS.isFinite (Fin q) = true.
Proof. reflexivity. Qed.

Lemma fin_truthy (o : option jsnum) :
  finite_opt o = true -> JS.truthy_opt o = true -> JS.isFinite (JS.toNumber o) = true.
Proof. destruct o; [trivial | discriminate]. Qed.

Create HintDb jsfin.
#[local] Hint Resolve fin_add fin_sub fin_mul fin_min fin_max fin_abs fin_or_else
  fin_lit fin_truthy : jsfin.

Lemma fin_fold_add (f : Signal -> jsnum) (sigs : list Signal) (acc : jsnum) :
  (forall s, s ∈ sigs -> JS.isFinite (f s) = true) -> JS.isFinite acc = true ->
  JS.isFinite (fold_left (fun sum s => (sum + f s)%js) sigs acc) = true.
Proof.
  revert acc. induction sigs as [| s sigs IH]; intros acc Hf Hacc; [exact Hacc |].
  cbn [fold_left]. apply IH.
  - intros s' Hs'. apply Hf. now right.
  - apply fin_add; [exact Hacc | apply Hf; now left].
Qed.

Lemma fin_sum (values : list jsnum) :
  Forall (fun v => JS.isFinite v = true) values ->
  JS.isFinite (ConfidenceScoringSkill.sum values) = true.
Proof.
  unfold ConfidenceScoringSkill.sum. generalize (fin_lit 0). generalize (Fin 0).
  induction values as [| v values IH]; intros acc Hacc Hv; [exact Hacc |].
  inversion Hv; subst. cbn [fold_left]. apply IH; auto with jsfin.
Qed.

Section Calculate.
Import ConfidenceScoringSkill.

Lemma fin_base (prediction : Prediction) :
  finite_prediction prediction = true ->
  JS.isFinite (calculateBaseConfidence prediction) = true.
Proof.
  unfold finite_prediction. rewrite andb_true_iff. intros [Hr Hq].
  assert (Hm : JS.isFinite (modelAdjusted prediction) = true).
  { unfold modelAdjusted. destruct (model prediction) as [m |]; auto with jsfin.
    destruct (String.eqb m "ensemble"); auto with jsfin.
    destruct (String.eqb m "naive"); auto with jsfin. }
  unfold calculateBaseConfidence, qualityAdjusted.
  destruct (JS.truthy_opt (dataQuality prediction)) eqn:Ht; auto 6 with jsfin.
Qed.

Lemma fin_variance (values : list jsnum) :
  Forall (fun v => JS.isFinite v = true) values -> (1 <= length values)%nat ->
  JS.isFinite (calculateVariance values) = true.
Proof.
  intros Hv Hlen. unfold calculateVariance.
  assert (Hmean : JS.isFinite (sum values / JS.of_nat (length values))%js = true)
    by (apply fin_div_count; [now apply fin_sum | exact Hlen]).
  apply fin_div_count; [| exact Hlen]. apply fin_sum.
  apply Forall_map. eapply Forall_impl; [exact Hv |].
  intros v Hfin. cbn beta. auto with jsfin.
Qed.

Lemma fin_consensus (sigs : list Signal) :
  forallb (fun s => finite_opt (sentiment s)) sigs = true ->
  JS.isFinite (consensusScore sigs) = true.
Proof.
  intros Hs. unfold consensusScore.
  set (sentimentSignals := filter (fun s => is_Some (sentiment s)) sigs).
  destruct (1 <? length sentimentSignals)%nat eqn:Hlen; [| reflexivity].
  apply Nat.ltb_lt in Hlen.
  apply fin_max; [reflexivity |]. apply fin_sub; [reflexivity |].
  apply fin_variance; [| rewrite length_map; lia].
  apply Forall_map, Forall_forall. intros s Hin.
  unfold sentimentSignals in Hin.
  apply list_elem_of_filter in Hin as [[x Hx] Hin].
  rewrite forallb_forall in Hs.
  specialize (Hs s (proj1 (list_elem_of_In _ _) Hin)).
  cbn beta. now rewrite Hx in Hs |- *.
Qed.

Lemma fin_diversity (sigs : list Signal) :
  JS.isFinite (diversityScore sigs) = true.
Proof.
  unfold diversityScore. apply fin_min; [| reflexivity].
  now apply fin_div.
Qed.

Lemma fin_strength (sigs : list Signal) :
  forallb (fun s => finite_opt (sentiment s)) sigs = true ->
  (1 <= length sigs)%nat ->
  JS.isFinite (avgSignalStrength sigs) = true.
Proof.
  intros Hs Hlen. unfold avgSignalStrength.
  apply fin_div_count; [| exact Hlen].
  apply (fin_fold_add (fun s => JS.abs (sentiment s || Fin 0.5)%js)); [| reflexivity].
  intros s Hin. rewrite forallb_forall in Hs.
  specialize (Hs s (proj1 (list_elem_of_In _ _) Hin)). auto with jsfin.
Qed.

Lemma fin_signal (o : AggregateResult) :
  finite_signals o = true ->
  JS.isFinite (calculateSignalConfidence (Some o)) = true.
Proof.
  unfold finite_signals, calculateSignalConfidence.
  destruct (signals o) as [[| s sigs] |]; try reflexivity. intros Hs.
  repeat apply fin_add; apply fin_mul; try reflexivity.
  - now apply fin_consensus.
  - apply fin_diversity.
  - apply fin_strength; [exact Hs | cbn; lia].
Qed.

(** The accuracy of every bucket of a calibrated skill is finite. *)
Lemma fin_accuracy (self : t) (cal : Ledger.t) (m : string) (k : bkey) (b : Bucket.t) :
  calibrated self -> calibrationData self !! m = Some cal ->
  Ledger.buckets cal !! k = Some b ->
  JS.isFinite (JS.toNumber (Bucket.accuracy b)) = true.
Proof.
  intros Hself Hcal Hb.
  assert (Hat : bucketAt self m k = Some b) by (unfold bucketAt; now rewrite Hcal).
  now destruct (consistent_accuracy b (Hself _ _ _ Hat)) as [-> _].
Qed.

Lemma fin_history (self : t) (performance : option Performance)
    (prediction : Prediction) :
  calibrated self -> finite_performance performance = true ->
  JS.isFinite (calculateHistoryConfidence self performance prediction) = true.
Proof.
  intros Hself Hp. unfold calculateHistoryConfidence.
  destruct performance as [p |]; [| reflexivity].
  cbn in Hp. apply andb_true_iff in Hp as [Hw Hr].
  destruct (_ <? _)%js; [reflexivity |].
  set (s1 := (winRate p || Fin 0.5)%js).
  assert (H1 : JS.isFinite s1 = true) by (unfold s1; auto with jsfin).
  set (s2 := if JS.truthy_opt (recentWinRate p) then _ else s1).
  assert (H2 : JS.isFinite s2 = true).
  { unfold s2. destruct (JS.truthy_opt (recentWinRate p)) eqn:Ht; auto 6 with jsfin. }
  set (s3 := match getCalibrationForConfidence self (rawConfidence prediction) with
             | Some calibration => _ | None => s2 end).
  assert (H3 : JS.isFinite s3 = true).
  { unfold s3, getCalibrationForConfidence.
    destruct (calibrationData self !! "default") as [cal |] eqn:Hcal; [| exact H2].
    destruct (Ledger.buckets cal !! _) as [b |] eqn:Hb; [| exact H2].
    pose proof (fin_accuracy self cal _ _ b Hself Hcal Hb). auto with jsfin. }
  destruct (_ <? _)%js; auto with jsfin.
Qed.

Lemma fin_applyCalibration (self : t) (confidence : jsnum) (mt : option string) :
  calibrated self -> JS.isFinite confidence = true ->
  JS.isFinite (applyCalibration self confidence mt) = true.
Proof.
  intros Hself Hc. unfold applyCalibration.
  destruct (ledgerFor self mt) as [cal |] eqn:Hcal; [| exact Hc].
  destruct (_ <? _)%nat; [exact Hc |].
  destruct (Ledger.buckets cal !! _) as [b |] eqn:Hb; [| exact Hc].
  destruct (_ <? _)%nat; [| exact Hc].
  assert (Hacc : JS.isFinite (JS.toNumber (Bucket.accuracy b)) = true).
  { unfold ledgerFor in Hcal.
    destruct mt as [m |];
      [destruct (calibrationData self !! m) as [cal' |] eqn:Hm;
       [injection Hcal as ->; eapply fin_accuracy; eauto |] |];
      eapply fin_accuracy; eauto. }
  auto with jsfin.
Qed.

Lemma fin_applyMarketAdjustments (confidence : jsnum) (o : AggregateResult) :
  JS.isFinite confidence = true ->
  exists adjusted, applyMarketAdjustments confidence (Some o) = Normal adjusted
                   /\ JS.isFinite adjusted = true.
Proof.
  intros Hc. unfold applyMarketAdjustments. cbn [deref mbind completion_bind mret completion_ret].
  eexists. split; [reflexivity |].
  destruct (JS.truthy_opt (volatility o)); repeat destruct (_ >? _)%js;
    destruct (_ <? _)%js; auto with jsfin.
Qed.

Lemma config_recordAll (calls : list Outcome) (self : t) :
  config (recordAll calls self) = config self.
Proof.
  apply (recordAll_preserves (fun s => config s = config self)); [| reflexivity].
  intros s o _ H. exact H.
Qed.

(** On a skill whose buckets are consistent, finite inputs give a result
    between 0.01 and 0.99. *)
Lemma calculate_range (self : t) (prediction : Prediction)
    (signals' : AggregateResult) (performance : option Performance) :
  calibrated self -> finite_config (config self) = true ->
  finite_prediction prediction = true -> finite_signals signals' = true ->
  finite_performance performance = true ->
  exists confidence,
    calculate self (Some prediction) (Some signals') performance
      = Normal (Fin confidence)
    /\ 0.01 <= confidence /\ confidence <= 0.99.
Proof.
  intros Hself Hcfg Hp Hs Hperf.
  unfold finite_config in Hcfg. rewrite !andb_true_iff in Hcfg.
  destruct Hcfg as [[Hwb Hws] Hwh].
  assert (Hcomb : JS.isFinite (combined self prediction (Some signals') performance) = true).
  { unfold combined. repeat apply fin_add; apply fin_mul; try assumption.
    - now apply fin_base.
    - now apply fin_signal.
    - now apply fin_history. }
  unfold calculate. cbn [deref mbind completion_bind].
  set (c1 := if calibrationEnabled (config self) then _ else _).
  assert (Hc1 : JS.isFinite c1 = true).
  { unfold c1. destruct (calibrationEnabled (config self)); [| exact Hcomb].
    now apply fin_applyCalibration. }
  destruct (fin_applyMarketAdjustments c1 signals' Hc1) as (adjusted & -> & Hadj).
  pose proof (clamp_range' 0.01 0.99 adjusted ltac:(lra)) as Hclamp.
  destruct adjusted as [x | | |]; try discriminate.
  specialize (Hclamp ltac:(discriminate)).
  unfold mbind, mret. cbn [completion_bind completion_ret].
  destruct (JS.min _ _) as [r | | |]; try contradiction.
  exists r. split; [reflexivity | exact Hclamp].
Qed.

(** Whatever the inputs, a result that is a number at all lies between 0.01
    and 0.99: the final clamp lets only NaN through. *)
Lemma calculate_clamp_or_NaN (self : t) (prediction : option Prediction)
    (signals' : option AggregateResult) (performance : option Performance)
    (r : jsnum) :
  calculate self prediction signals' performance = Normal r ->
  r = NaN \/ in_range 0.01 0.99 r.
Proof.
  unfold calculate. destruct prediction as [pr |]; [| discriminate].
  cbn [deref mbind completion_bind].
  destruct (applyMarketAdjustments _ _) as [adjusted |]; [| discriminate].
  unfold mbind, mret. cbn [completion_bind completion_ret]. intros [= <-].
  destruct adjusted as [x | | |]; [right | right | right | left; reflexivity];
    apply clamp_range'; (lra || discriminate).
Qed.

(** A number of moderate magnitude is finite. *)
Lemma moderate_finite (o : option jsnum) :
  moderate_opt o = true -> finite_opt o = true.
Proof. destruct o as [[q | | |] |]; cbn; congruence. Qed.

Lemma moderate_inputs_finite (config : Config) (prediction : Prediction)
    (signals' : AggregateResult) (performance : option Performance) :
  moderate_config config = true ->
  moderate_prediction prediction = true ->
  moderate_signals signals' = true ->
  moderate_performance performance = true ->
  finite_config config = true /\ finite_prediction prediction = true
  /\ finite_signals signals' = true /\ finite_performance performance = true.
Proof.
  unfold moderate_config, moderate_prediction, moderate_signals,
    moderate_performance, finite_config, finite_prediction, finite_signals,
    finite_performance.
  rewrite !andb_true_iff. intros [[Hb Hs] Hh] [Hr Hq] Hsig Hperf.
  split.
  { destruct (baseWeight config), (signalWeight config), (historyWeight config);
      try discriminate; auto. }
  split; [split; now apply moderate_finite |]. split.
  - destruct (signals signals') as [sigs |]; [| reflexivity].
    rewrite forallb_forall in Hsig |- *. intros s Hin.
    apply moderate_finite, Hsig, Hin.
  - destruct performance as [p |]; [| reflexivity].
    apply andb_true_iff in Hperf as [Hw Hrw].
    apply andb_true_iff. split; now apply moderate_finite.
Qed.

(** C1 (as stated): calculate does not return a value of [0.01, 0.99] for
    every input.  NaN passes the final clamp: it is the result for two
    sentiments of which one is NaN (the variance is NaN), and for a raw
    confidence -Infinity with a sentiment Infinity (the weighted sum is
    -Infinity + Infinity).  Without a signals object the call throws. *)
Lemma calculate_not_clamped :
  let skill := new (defaultConfig None None None None None) in
  let prediction := mkPrediction (Some (Fin 0.7)) None None None None None in
  let mixed :=
    mkAggregateResult
      (Some [mkSignal "news" (Some NaN) None (Some (Fin 0.4));
             mkSignal "social" (Some (Fin 0.5)) None (Some (Fin 0.3))])
      (Some (Fin 0.5)) None None None None in
  let extreme :=
    mkAggregateResult (Some [mkSignal "news" (Some PosInf) None (Some (Fin 0.4))])
      (Some (Fin 0.5)) None None None None in
  calculate skill (Some prediction) (Some mixed) None = Normal NaN
  /\ calculate skill (Some (mkPrediction (Some NegInf) None None None None None))
       (Some extreme) None = Normal NaN
  /\ raises (calculate skill (Some prediction) None None)
  /\ ~ in_range 0.01 0.99 NaN.
Proof.
  cbv zeta. split; [vm_compute; reflexivity |]. split; [vm_compute; reflexivity |].
  split; [eexists; reflexivity | intros H; exact H].
Qed.

(** C1 (amended): given a prediction object and a signals object, for
    numbers of magnitude at most 1e100 (the raw confidence and the data
    quality of the prediction, the sentiments of the signals, the win rates
    of the performance, the three weights of the configuration; what is
    missing is unrestricted), on a skill in any state reached by
    recordOutcome from a new skill, calculate returns a number of the
    closed interval [0.01, 0.99]. *)
Theorem calculate_clamped (config : Config) (calls : list Outcome)
    (prediction : Prediction) (signals' : AggregateResult)
    (performance : option Performance) :
  moderate_config config = true ->
  moderate_prediction prediction = true ->
  moderate_signals signals' = true ->
  moderate_performance performance = true ->
  exists confidence,
    calculate (recordAll calls (new config)) (Some prediction) (Some signals')
      performance = Normal (Fin confidence)
    /\ 0.01 <= confidence /\ confidence <= 0.99.
Proof.
  intros Hcfg Hp Hs Hperf.
  destruct (moderate_inputs_finite config prediction signals' performance
              Hcfg Hp Hs Hperf) as (Hcfg' & Hp' & Hs' & Hperf').
  apply calculate_range; try assumption.
  - apply calibrated_recordAll, calibrated_new.
  - now rewrite config_recordAll.
Qed.

Lemma calculate_clamped_witness :
  let config := defaultConfig None None None None None in
  let prediction := mkPrediction (Some (Fin 0.7)) (Some "test") None None None None in
  let signals' := mkAggregateResult (Some []) (Some (Fin 0.6)) None None None None in
  let performance := Some (mkPerformance (Some (Fin 50)) (Some (Fin 0.6)) None None) in
  (moderate_config config = true /\ moderate_prediction prediction = true
   /\ moderate_signals signals' = true /\ moderate_performance performance = true)
  /\ exists confidence,
       calculate (recordAll [mkOutcome (Fin 0.7) true None] (new config))
         (Some prediction) (Some signals') performance = Normal (Fin confidence)
       /\ 0.01 <= confidence /\ confidence <= 0.99.
Proof.
  cbv zeta. split; [repeat split |].
  apply calculate_clamped; reflexivity.
Defined.
End Calculate.

(* ===================================================================== *)
(** ** SignalAggregationSkill.aggregate                                   *)
(* ===================================================================== *)

Section AggregateCache.
Import SignalAggregationSkill.
Variable config : Config.
Variable fetch : Sources.

(** A cache hit returns the cached object and changes nothing: no fetch is
    issued, the cache and the clock are as before. *)
Lemma aggregate_hit (market : Market) (category : string) (elapsed : Z)
    (st : State) (cached : CacheEntry) :
  cache st !! cacheKey market category = Some cached ->
  (now st - entry_timestamp cached < cacheDuration config)%Z ->
  aggregate config fetch market category elapsed st = (data cached, st).
Proof.
  intros Hc Ht. unfold aggregate. rewrite Hc.
  apply Z.ltb_lt in Ht. now rewrite Ht.
Qed.

(** After a call the cache holds the returned object under the key. *)
Lemma aggregate_cached (market : Market) (category : string) (elapsed : Z)
    (st : State) :
  exists cached,
    cache (snd (aggregate config fetch market category elapsed st))
      !! cacheKey market category = Some cached
    /\ data cached = fst (aggregate config fetch market category elapsed st).
Proof.
  unfold aggregate.
  destruct (cache st !! cacheKey market category) as [cached |] eqn:Hc.
  - destruct (_ <? _)%Z.
    + exists cached. now split.
    + eexists. cbn [snd fst cache]. rewrite lookup_insert_eq. now split.
  - eexists. cbn [snd fst cache]. rewrite lookup_insert_eq. now split.
Qed.

(** One operation keeps an entry that is still fresh, and does not turn the
    clock back. *)
Lemma runOp_keeps (o : CacheOp) (st : State) (key : string) (cached : CacheEntry) :
  forward o = true ->
  cache st !! key = Some cached ->
  (now st - entry_timestamp cached < cacheDuration config)%Z ->
  cache (runOp config fetch st o) !! key = Some cached
  /\ (now st <= now (runOp config fetch st o))%Z.
Proof.
  intros Hf Hc Ht. destruct o as [market category elapsed | d]; cbn in Hf |- *.
  - apply Z.leb_le in Hf. unfold aggregate.
    destruct (decide (cacheKey market category = key)) as [-> | Hne].
    + rewrite Hc. apply Z.ltb_lt in Ht. rewrite Ht. cbn. split; [exact Hc | lia].
    + destruct (cache st !! cacheKey market category) as [other |];
        [destruct (_ <? _)%Z |]; cbn [snd cache now];
        rewrite ?lookup_insert_ne by exact Hne; split; (exact Hc || lia).
  - apply Z.leb_le in Hf. split; [exact Hc | lia].
Qed.

Lemma runOps_forward (ops : list CacheOp) (st : State) :
  forallb forward ops = true -> (now st <= now (runOps config fetch ops st))%Z.
Proof.
  unfold runOps. revert st.
  induction ops as [| o ops IH]; intros st Hf; cbn [fold_left]; [lia |].
  cbn in Hf. apply andb_true_iff in Hf as [Ho Hf].
  specialize (IH (runOp config fetch st o) Hf).
  assert (now st <= now (runOp config fetch st o))%Z; [| lia].
  destruct o as [market category elapsed | d]; cbn in Ho |- *;
    apply Z.leb_le in Ho; [| lia].
  unfold aggregate. destruct (cache st !! _) as [cached |];
    [destruct (_ <? _)%Z |]; cbn; lia.
Qed.

(** An entry that is still fresh at the end of a history was kept all the
    way through it. *)
Lemma runOps_keeps (ops : list CacheOp) (st : State) (key : string)
    (cached : CacheEntry) :
  forallb forward ops = true ->
  cache st !! key = Some cached ->
  (now (runOps config fetch ops st) - entry_timestamp cached < cacheDuration config)%Z ->
  cache (runOps config fetch ops st) !! key = Some cached.
Proof.
  revert st. induction ops as [| o ops IH]; intros st Hf Hc Ht; [exact Hc |].
  cbn in Hf. apply andb_true_iff in Hf as [Ho Hf].
  unfold runOps in *. cbn [fold_left] in *.
  pose proof (runOps_forward ops (runOp config fetch st o) Hf) as Hlate.
  unfold runOps in Hlate.
  destruct (runOp_keeps o st key cached Ho Hc) as [Hkept Hnow].
  - assert (now st <= now (runOp config fetch st o))%Z; [| lia].
    apply (runOps_forward [o] st). cbn. now rewrite Ho.
  - now apply IH.
Qed.

(** After [clearCache] the next call misses: it issues the fetches of the
    configured sources again. *)
Lemma clearCache_refetches (market : Market) (category : string)
    (elapsed : Z) (st : State) :
  issued (snd (aggregate config fetch market category elapsed (clearCache st)))
  = issued st ++ fetchCalls config market category.
Proof. unfold aggregate, clearCache. cbn [cache]. now rewrite lookup_empty. Qed.

(** C8: a second call of aggregate with the same market and category, made
    after any calls of aggregate and any passing of time but no clearCache,
    at a time when the entry the first call left under the key is younger
    than the cache duration, returns the very result of the first call and
    leaves the state as it is: no fetch is issued. *)
Theorem aggregate_idempotent (market : Market) (category : string)
    (elapsed elapsed' : Z) (ops : list CacheOp) (st : State) :
  let first := aggregate config fetch market category elapsed st in
  let st' := runOps config fetch ops (snd first) in
  forallb forward ops = true ->
  within_ttl config (snd first) (cacheKey market category) (now st') = true ->
  aggregate config fetch market category elapsed' st' = (fst first, st')
  /\ issued (snd (aggregate config fetch market category elapsed' st')) = issued st'.
Proof.
  cbv zeta. intros Hf Hw.
  destruct (aggregate_cached market category elapsed st) as (cached & Hc & Hd).
  unfold within_ttl in Hw. rewrite Hc in Hw. apply Z.ltb_lt in Hw.
  pose proof (runOps_keeps ops _ _ cached Hf Hc Hw) as Hkept.
  rewrite (aggregate_hit market category elapsed' _ cached Hkept Hw).
  now rewrite Hd.
Qed.
End AggregateCache.

(** With the default duration of 5 minutes: a first call on an empty cache
    at time 0, then 299999 ms later the second call. *)
Lemma aggregate_idempotent_witness :
  let config := SignalAggregationSkill.defaultConfig None None in
  let fetch : SignalAggregationSkill.Sources :=
    fun call n => Some [mkSignal (SignalAggregationSkill.source call)
                          (Some (Fin 0.5)) None (Some (Fin 0.4))] in
  let market := SignalAggregationSkill.MarketName "eth-5k" in
  let st := SignalAggregationSkill.mkState ∅ 0 [] in
  let first := SignalAggregationSkill.aggregate config fetch market "crypto" 10 st in
  let ops := [Advance 299999] in
  let st' := runOps config fetch ops (snd first) in
  (forallb forward ops = true
   /\ within_ttl config (snd first)
        (SignalAggregationSkill.cacheKey market "crypto")
        (SignalAggregationSkill.now st') = true)
  /\ SignalAggregationSkill.aggregate config fetch market "crypto" 10 st' = (fst first, st')
  /\ SignalAggregationSkill.issued
       (snd (SignalAggregationSkill.aggregate config fetch market "crypto" 10 st'))
     = SignalAggregationSkill.issued st'.
Proof.
  cbv zeta. split; [split; reflexivity |].
  apply aggregate_idempotent; reflexivity.
Defined.

(* ===================================================================== *)
(** ** ConfidenceScoringSkill: the signal component                      *)
(* ===================================================================== *)

Section SignalConfidence.
Import ConfidenceScoringSkill.

Lemma fold_add_fin (qs : list Q) (a : Q) :
  fold_left JS.add (map Fin qs) (Fin a) = Fin (fold_left Qplus qs a).
Proof. revert a. induction qs as [| q qs IH]; intros a; [reflexivity | apply IH]. Qed.

Lemma fold_plus_shift (qs : list Q) (a : Q) :
  fold_left Qplus qs a == a + fold_left Qplus qs 0.
Proof.
  revert a. induction qs as [| q qs IH]; intros a; cbn [fold_left]; [ring |].
  rewrite (IH (a + q)), (IH (0 + q)). ring.
Qed.

Lemma qsum_cons (q : Q) (qs : list Q) : qsum (q :: qs) == q + qsum qs.
Proof. unfold qsum. cbn [fold_left]. rewrite fold_plus_shift. ring. Qed.

Lemma qsum_nonneg (qs : list Q) : Forall (fun q => 0 <= q) qs -> 0 <= qsum qs.
Proof.
  induction 1 as [| q qs Hq _ IH]; [unfold qsum; simpl; lra |].
  rewrite qsum_cons. lra.
Qed.

Lemma qsum_le (qs : list Q) (hi : Q) :
  Forall (fun q => q <= hi) qs -> qsum qs <= Qnat (length qs) * hi.
Proof.
  induction 1 as [| q qs Hq _ IH];
    [unfold qsum; cbn [fold_left length]; change (Qnat 0) with 0; lra |].
  rewrite qsum_cons. change (length (q :: qs)) with (1 + length qs)%nat.
  rewrite Qnat_add. change (Qnat 1) with 1. lra.
Qed.

Lemma qsum_zero (qs : list Q) : Forall (fun q => q == 0) qs -> qsum qs == 0.
Proof.
  induction 1 as [| q qs Hq _ IH]; [reflexivity |].
  rewrite qsum_cons, Hq, IH. ring.
Qed.

Lemma qsum_const (qs : list Q) (a : Q) :
  Forall (fun q => q == a) qs -> qsum qs == Qnat (length qs) * a.
Proof.
  induction 1 as [| q qs Hq _ IH];
    [unfold qsum; cbn [fold_left length]; change (Qnat 0) with 0; ring |].
  change (length (q :: qs)) with (1 + length qs)%nat.
  rewrite Qnat_add, qsum_cons, IH, Hq. change (Qnat 1) with 1. ring.
Qed.

(** On finite numbers [calculateVariance] is the population variance. *)
Lemma calculateVariance_fin (qs : list Q) :
  (1 <= length qs)%nat ->
  calculateVariance (map Fin qs) = Fin (qvariance qs).
Proof.
  intros Hlen. pose proof (Qnat_pos _ Hlen) as Hpos.
  unfold calculateVariance, sum, qvariance, qsum. rewrite length_map.
  change (JS.of_nat (length qs)) with (Fin (Qnat (length qs))).
  rewrite fold_add_fin, div_fin by lra.
  rewrite map_map. cbn [JS.sub JS.neg JS.add JS.mul].
  rewrite <- (map_map (fun q => (q + - (fold_left Qplus qs 0 / Qnat (length qs)))
                                * (q + - (fold_left Qplus qs 0 / Qnat (length qs)))) Fin).
  rewrite fold_add_fin, div_fin by lra. reflexivity.
Qed.

Lemma qvariance_nonneg (qs : list Q) : (1 <= length qs)%nat -> 0 <= qvariance qs.
Proof.
  intros Hlen. pose proof (Qnat_pos _ Hlen) as Hpos. unfold qvariance.
  apply Qle_shift_div_l; [lra |]. rewrite Qmult_0_l.
  apply qsum_nonneg, Forall_map, Forall_forall. intros q _. cbn beta.
  generalize (q + - (qsum qs / Qnat (length qs))). intros d. nra.
Qed.

Lemma qvariance_const (qs : list Q) (a : Q) :
  (1 <= length qs)%nat -> Forall (fun q => q == a) qs -> qvariance qs == 0.
Proof.
  intros Hlen Hall. pose proof (Qnat_pos _ Hlen) as Hpos. unfold qvariance.
  assert (Hmean : qsum qs / Qnat (length qs) == a).
  { rewrite (qsum_const qs a Hall). field. lra. }
  rewrite qsum_zero; [field; lra |].
  apply Forall_map. eapply Forall_impl; [exact Hall |].
  intros q Hq. cbn beta. rewrite Hmean, Hq. ring.
Qed.

(** The sentiments [calculateSignalConfidence] collects, as rationals. *)
Lemma sentiments_fin (sigs : list Signal) (lo hi : Q) :
  forallb (sentiment_in lo hi) sigs = true ->
  exists qs,
    map (fun s => JS.toNumber (sentiment s))
        (filter (fun s => is_Some (sentiment s)) sigs) = map Fin qs
    /\ length qs = sentimentCount sigs
    /\ Forall (fun q => lo <= q <= hi) qs.
Proof.
  unfold sentimentCount, countb.
  induction sigs as [| s sigs IH]; intros Hall.
  - exists []. repeat split. constructor.
  - cbn in Hall. apply andb_true_iff in Hall as [Hs Hall].
    destruct (IH Hall) as (qs & Hqs & Hlen & Hin). unfold sentiment_in in Hs.
    rewrite filter_cons. cbn [List.filter].
    destruct (sentiment s) as [x |] eqn:Hx.
    + rewrite decide_True by eauto. rewrite bool_decide_eq_true_2 by eauto.
      apply in_rangeb_spec in Hs. destruct x as [x | | |]; try contradiction.
      exists (x :: qs). cbn [map length]. rewrite Hx, Hqs, Hlen.
      repeat split. now constructor.
    + rewrite decide_False by (intros [? ?]; discriminate).
      rewrite bool_decide_eq_false_2 by (intros [? ?]; discriminate).
      exists qs. now repeat split.
Qed.

(** The consensus score is a number of [0, 1]. *)
Lemma consensus_range (sigs : list Signal) (lo hi : Q) :
  forallb (sentiment_in lo hi) sigs = true ->
  in_range 0 1 (consensusScore sigs).
Proof.
  intros Hall. destruct (sentiments_fin sigs lo hi Hall) as (qs & Hqs & Hlen & _).
  unfold consensusScore. rewrite Hqs.
  replace (length (filter (fun s => is_Some (sentiment s)) sigs)) with (length qs)
    by (rewrite <- (length_map Fin qs), <- Hqs; apply length_map).
  destruct (1 <? length qs)%nat eqn:Hn; [| simpl; lra].
  apply Nat.ltb_lt in Hn. rewrite calculateVariance_fin by lia.
  pose proof (qvariance_nonneg qs ltac:(lia)) as Hv.
  cbn [JS.sub JS.neg JS.add JS.max JS.lt]. qcases; simpl; lra.
Qed.

(** X7: when at least two signals carry a sentiment and all sentiments
    are the same number of [-1, 1], the variance is 0 and the consensus
    score of calculateSignalConfidence is 1.  (The doubles of the code
    round the mean of the sentiments, which moves the score by less than
    1e-12 for a common value of that range.) *)
Lemma consensus_of_agreement (sigs : list Signal) (a : Q) :
  -1 <= a -> a <= 1 ->
  forallb (sentiment_is a) sigs = true -> (2 <= sentimentCount sigs)%nat ->
  num_eq (consensusScore sigs) (Fin 1)
  /\ forallb (sentiment_in (-1) 1) sigs = true.
Proof.
  intros Hlo Hhi Hall Hcount.
  assert (Hrange : forallb (sentiment_in (-1) 1) sigs = true).
  { rewrite forallb_forall in Hall |- *. intros s Hs. specialize (Hall s Hs).
    unfold sentiment_is, sentiment_in in *.
    destruct (sentiment s) as [[x | | |] |]; try discriminate; [| reflexivity].
    apply Qeq_bool_iff in Hall. apply in_rangeb_spec. simpl. lra. }
  split; [| exact Hrange].
  assert (Hin : forallb (sentiment_in a a) sigs = true).
  { rewrite forallb_forall in Hall |- *. intros s Hs. specialize (Hall s Hs).
    unfold sentiment_is, sentiment_in in *.
    destruct (sentiment s) as [[x | | |] |]; try discriminate; [| reflexivity].
    apply Qeq_bool_iff in Hall. apply in_rangeb_spec. simpl. lra. }
  destruct (sentiments_fin sigs a a Hin) as (qs & Hqs & Hlen & Hqa).
  unfold consensusScore. rewrite Hqs.
  replace (length (filter (fun s => is_Some (sentiment s)) sigs)) with (length qs)
    by (rewrite <- (length_map Fin qs), <- Hqs; apply length_map).
  assert (Hn : (1 <? length qs)%nat = true) by (apply Nat.ltb_lt; lia).
  rewrite Hn, calculateVariance_fin by lia.
  assert (Hv : qvariance qs == 0).
  { apply (qvariance_const qs a); [lia |].
    eapply Forall_impl; [exact Hqa |]. intros q Hq. cbn beta in *. lra. }
  cbn [JS.sub JS.neg JS.add JS.max JS.lt]. qcases; simpl; lra.
Qed.

Lemma consensus_of_agreement_witness :
  num_eq
    (consensusScore
       [mkSignal "news" (Some (Fin (-0.4))) None (Some (Fin 0.4));
        mkSignal "onchain" None (Some (Fin 12)) (Some (Fin 0.3));
        mkSignal "social" (Some (Fin (-0.4))) None (Some (Fin 0.3))])
    (Fin 1).
Proof.
  refine (proj1 (consensus_of_agreement
                   [mkSignal "news" (Some (Fin (-0.4))) None (Some (Fin 0.4));
                    mkSignal "onchain" None (Some (Fin 12)) (Some (Fin 0.3));
                    mkSignal "social" (Some (Fin (-0.4))) None (Some (Fin 0.3))]
                   (-0.4) _ _ eq_refl _));
    [discriminate | discriminate | cbn; lia].
Defined.

(** The diversity score of a non-empty list is a number of [1/3, 1]. *)
Lemma diversity_range (sigs : list Signal) :
  sigs <> [] -> in_range (1 # 3) 1 (diversityScore sigs).
Proof.
  intros Hne. unfold diversityScore.
  set (n := size (list_to_set (map type sigs) : gset string)).
  assert (Hn : (1 <= n)%nat).
  { destruct sigs as [| s sigs]; [congruence |].
    assert (Hs : type s ∈ (list_to_set (map type (s :: sigs)) : gset string))
      by (apply elem_of_list_to_set; cbn [map]; left).
    enough (n <> 0%nat) by lia. unfold n. intros Hz.
    apply size_empty_inv in Hz. rewrite Hz in Hs. now apply elem_of_empty in Hs. }
  pose proof (Qnat_pos n Hn) as Hq.
  change (JS.of_nat n) with (Fin (Qnat n)). rewrite div_fin by lra.
  assert (E : Qnat n / 3 == Qnat n * (1 # 3)) by (field; lra).
  cbn [JS.min JS.lt]. qcases; simpl; rewrite ?E in *; lra.
Qed.

(** The strength of one signal: its sentiment in absolute value, 0.5 for a
    sentiment that is missing or 0. *)
Lemma strength_term (s : Signal) :
  sentiment_in (-1) 1 s = true ->
  exists x, JS.abs (sentiment s || Fin 0.5)%js = Fin x /\ 0 <= x <= 1.
Proof.
  unfold sentiment_in. destruct (sentiment s) as [x |]; cbn [JS.or_else].
  - intros Hx. apply in_rangeb_spec in Hx. destruct x as [x | | |]; try contradiction.
    cbn [JS.truthy]. destruct (Qeq_bool x 0); cbn [negb JS.abs].
    + exists (Qabs 0.5). split; [reflexivity |]. split; [apply Qabs_nonneg |].
      apply Qabs_Qle_condition. lra.
    + exists (Qabs x). split; [reflexivity |]. split; [apply Qabs_nonneg |].
      apply Qabs_Qle_condition. simpl in Hx. lra.
  - intros _. exists (Qabs 0.5). split; [reflexivity |].
    split; [apply Qabs_nonneg | apply Qabs_Qle_condition; lra].
Qed.

Lemma strength_sum (sigs : list Signal) (a : Q) :
  forallb (sentiment_in (-1) 1) sigs = true ->
  exists r,
    fold_left (fun sum s => (sum + JS.abs (sentiment s || Fin 0.5))%js) sigs (Fin a)
      = Fin r
    /\ a <= r <= a + Qnat (length sigs).
Proof.
  revert a. induction sigs as [| s sigs IH]; intros a Hall.
  - exists a. cbn [fold_left length]. change (Qnat 0) with 0. split; [reflexivity | lra].
  - cbn in Hall. apply andb_true_iff in Hall as [Hs Hall].
    destruct (strength_term s Hs) as (x & Hx & Hx01).
    cbn [fold_left]. rewrite Hx. cbn [JS.add].
    destruct (IH (a + x) Hall) as (r & Hr & Hbound). exists r. split; [exact Hr |].
    change (length (s :: sigs)) with (1 + length sigs)%nat.
    rewrite Qnat_add. change (Qnat 1) with 1. lra.
Qed.

(** The average strength of a non-empty list is a number of [0, 1]. *)
Lemma strength_range (sigs : list Signal) :
  sigs <> [] -> forallb (sentiment_in (-1) 1) sigs = true ->
  in_range 0 1 (avgSignalStrength sigs).
Proof.
  intros Hne Hall. unfold avgSignalStrength.
  destruct (strength_sum sigs 0 Hall) as (r & -> & Hr).
  assert (Hlen : (1 <= length sigs)%nat) by (destruct sigs; [congruence | cbn; lia]).
  pose proof (Qnat_pos _ Hlen) as Hq.
  change (JS.of_nat (length sigs)) with (Fin (Qnat (length sigs))).
  rewrite div_fin by lra. simpl.
  split; [apply Qle_shift_div_l | apply Qle_shift_div_r]; lra.
Qed.

(** X1: for a signal list whose sentiments, when present, lie in [-1, 1],
    the signal component of calculate is a number of [0.1, 1]: each of the
    three sub-scores is a number of [0, 1], the diversity of a non-empty
    list being at least 1/3; for the empty list the component is 0.5. *)
Theorem signal_confidence_range (o : AggregateResult) (sigs : list Signal) :
  signals o = Some sigs ->
  forallb (sentiment_in (-1) 1) sigs = true ->
  in_range 0.1 1 (calculateSignalConfidence (Some o))
  /\ in_range 0 1 (consensusScore sigs)
  /\ (sigs <> [] -> in_range (1 # 3) 1 (diversityScore sigs)
                   /\ in_range 0 1 (avgSignalStrength sigs))
  /\ (sigs = [] -> calculateSignalConfidence (Some o) = Fin 0.5).
Proof.
  intros Ho Hall. pose proof (consensus_range sigs _ _ Hall) as Hc.
  split; [| split; [exact Hc | split]].
  - unfold calculateSignalConfidence. rewrite Ho.
    destruct sigs as [| s sigs]; [simpl; lra |].
    pose proof (diversity_range (s :: sigs) ltac:(discriminate)) as Hd.
    pose proof (strength_range (s :: sigs) ltac:(discriminate) Hall) as Hs.
    destruct (consensusScore _) as [c | | |]; try contradiction.
    destruct (diversityScore _) as [d | | |]; try contradiction.
    destruct (avgSignalStrength _) as [t | | |]; try contradiction.
    simpl in *. lra.
  - intros Hne. split; [now apply diversity_range | now apply strength_range].
  - intros ->. unfold calculateSignalConfidence. now rewrite Ho.
Qed.

Lemma signal_confidence_range_witness :
  let sigs := [mkSignal "news" (Some (Fin 0.8)) None (Some (Fin 0.25));
               mkSignal "social" (Some (Fin (-0.4))) None None;
               mkSignal "onchain" None (Some (Fin 30)) (Some (Fin 0.5))] in
  forallb (sentiment_in (-1) 1) sigs = true
  /\ in_range 0.1 1
       (calculateSignalConfidence
          (Some (mkAggregateResult (Some sigs) None None None None None))).
Proof.
  cbv zeta. split; [reflexivity |].
  exact (proj1 (signal_confidence_range
           (mkAggregateResult
              (Some [mkSignal "news" (Some (Fin 0.8)) None (Some (Fin 0.25));
                     mkSignal "social" (Some (Fin (-0.4))) None None;
                     mkSignal "onchain" None (Some (Fin 30)) (Some (Fin 0.5))])
              None None None None None) _ eq_refl eq_refl)).
Defined.
End SignalConfidence.

(* ===================================================================== *)
(** ** ConfidenceScoringSkill: the calibration ledger and its use        *)
(* ===================================================================== *)

Section LedgerCounts.
Import ConfidenceScoringSkill.

Lemma countb_cons {A} (p : A -> bool) (x : A) (l : list A) :
  countb p (x :: l) = ((if p x then 1 else 0) + countb p l)%nat.
Proof. unfold countb. cbn [List.filter]. now destruct (p x). Qed.

Lemma countb_le_length {A} (p : A -> bool) (l : list A) :
  (countb p l <= length l)%nat.
Proof. apply List.filter_length_le. Qed.

(** What one call of [recordOutcome] does to the sample count of each
    ledger. *)
Lemma ledgerSamples_recordOutcome (self : t) (c : jsnum) (outcome : bool)
    (mt : option string) (m : string) :
  ledgerSamples (recordOutcome c outcome mt self) m =
    if decide (default "default" mt = m)
    then S (ledgerSamples self m) else ledgerSamples self m.
Proof.
  unfold ledgerSamples, recordOutcome. cbn [calibrationData].
  destruct (decide (default "default" mt = m)) as [<- | Hm].
  - rewrite lookup_insert_eq. cbn [Ledger.samples].
    now destruct (calibrationData self !! default "default" mt).
  - now rewrite lookup_insert_ne by exact Hm.
Qed.

Lemma counts_recordOutcome (self : t) (o : Outcome) (m : string) (k : bkey) :
  counts (bucketAt (record self o) m k) =
    ((fst (counts (bucketAt self m k)) + (if lands_in m k o then 1 else 0))%nat,
     (snd (counts (bucketAt self m k))
      + (if lands_in m k o && actualOutcome o then 1 else 0))%nat).
Proof.
  unfold record, lands_in. rewrite recordOutcome_bucket.
  destruct (decide (default "default" (outcomeMarketType o) = m)) as [Hm | Hm].
  - rewrite (bool_decide_eq_true_2 _ Hm).
    destruct (decide (bucketOf (predictedConfidence o) = k)) as [Hk | Hk].
    + rewrite (bool_decide_eq_true_2 _ Hk). cbn [andb].
      destruct (bucketAt self m k) as [b |], (actualOutcome o); cbn;
        f_equal; lia.
    + rewrite (bool_decide_eq_false_2 _ Hk). cbn [andb].
      destruct (bucketAt self m k) as [b |]; cbn; f_equal; lia.
  - rewrite (bool_decide_eq_false_2 _ Hm). cbn [andb].
    destruct (counts (bucketAt self m k)). cbn. f_equal; lia.
Qed.

Lemma ledgerSamples_recordAll (calls : list Outcome) (self : t) (m : string) :
  ledgerSamples (recordAll calls self) m =
    (ledgerSamples self m + countb (of_type m) calls)%nat.
Proof.
  unfold recordAll. revert self.
  induction calls as [| o calls IH]; intros self; cbn [fold_left].
  - unfold countb. cbn. lia.
  - rewrite IH, countb_cons. unfold record, of_type.
    rewrite ledgerSamples_recordOutcome.
    destruct (decide _) as [H | H];
      [rewrite (bool_decide_eq_true_2 _ H) | rewrite (bool_decide_eq_false_2 _ H)];
      lia.
Qed.

Lemma counts_recordAll (calls : list Outcome) (self : t) (m : string) (k : bkey) :
  counts (bucketAt (recordAll calls self) m k) =
    ((fst (counts (bucketAt self m k)) + countb (lands_in m k) calls)%nat,
     (snd (counts (bucketAt self m k))
      + countb (fun o => lands_in m k o && actualOutcome o) calls)%nat).
Proof.
  unfold recordAll. revert self.
  induction calls as [| o calls IH]; intros self; cbn [fold_left].
  - unfold countb. cbn. destruct (counts _). cbn. f_equal; lia.
  - rewrite IH, counts_recordOutcome, !countb_cons. cbn [fst snd]. f_equal; lia.
Qed.

(** X2: after any history of recordOutcome calls on a new skill, the
    sample count of the ledger of a market type is the number of calls for
    that type (a call without a type counting for 'default'), and the two
    counters of a bucket are the number of calls that fell into the bucket
    and the number of those whose outcome was correct; the bucket exists
    exactly when a call fell into it. *)
Theorem outcome_counters (config : Config) (calls : list Outcome)
    (m : string) (k : bkey) :
  let self := recordAll calls (new config) in
  ledgerSamples self m = countb (of_type m) calls
  /\ counts (bucketAt self m k) =
       (countb (lands_in m k) calls,
        countb (fun o => lands_in m k o && actualOutcome o) calls)
  /\ (is_Some (bucketAt self m k) <-> (1 <= countb (lands_in m k) calls)%nat).
Proof.
  cbv zeta.
  assert (Hnew : bucketAt (new config) m k = None)
    by (unfold bucketAt, new; cbn; now rewrite lookup_empty).
  assert (Hcounts := counts_recordAll calls (new config) m k).
  rewrite Hnew in Hcounts. cbn [counts fst snd Nat.add] in Hcounts.
  split; [| split; [exact Hcounts |]].
  - rewrite ledgerSamples_recordAll. unfold ledgerSamples, new. cbn.
    now rewrite lookup_empty.
  - pose proof (calibrated_recordAll calls (new config) (calibrated_new config)) as Hcal.
    destruct (bucketAt (recordAll calls (new config)) m k) as [b |] eqn:Hb.
    + destruct (Hcal _ _ _ Hb) as (Hs & _). cbn [counts] in Hcounts.
      injection Hcounts as Hs' _. split; [intros _; lia | eauto].
    + cbn [counts] in Hcounts. injection Hcounts as Hs' _.
      split; [intros [? ?]; discriminate | lia].
Qed.
End LedgerCounts.

Section CalibrationUse.
Import ConfidenceScoringSkill.

(** The ledger [applyCalibration] picks is the one of the market type or,
    when the type has none, the one of 'default'. *)
Lemma ledgerFor_picks (self : t) (mt : option string) (cal : Ledger.t) :
  ledgerFor self mt = Some cal ->
  (calibrationData self !! default "default" mt = Some cal)
  \/ (calibrationData self !! "default" = Some cal).
Proof.
  unfold ledgerFor. destruct mt as [m |]; cbn [default]; [| now right].
  destruct (calibrationData self !! m) as [cal' |] eqn:Hm; [| now right].
  intros [= <-]. now left.
Qed.

(** The adjustment of a confidence of [0, 1]: none, or 30% of the way to the
    accuracy of a bucket of more than 5 samples. *)
Lemma applyCalibration_cases (self : t) (c : Q) (mt : option string) :
  calibrated self ->
  applyCalibration self (Fin c) mt = Fin c
  \/ exists cal b,
       ledgerFor self mt = Some cal
       /\ (20 <= Ledger.samples cal)%nat
       /\ Ledger.buckets cal !! bucketOf (Fin c) = Some b
       /\ (5 < Bucket.samples b)%nat
       /\ applyCalibration self (Fin c) mt =
          Fin (c + (Qnat (Bucket.correct b) / Qnat (Bucket.samples b) + - c) * 0.3)
       /\ 0 <= Qnat (Bucket.correct b) / Qnat (Bucket.samples b) <= 1.
Proof.
  intros Hself. unfold applyCalibration.
  destruct (ledgerFor self mt) as [cal |] eqn:Hcal; [| now left].
  destruct (Ledger.samples cal <? 20)%nat eqn:H20; [now left |].
  destruct (Ledger.buckets cal !! bucketOf (Fin c)) as [b |] eqn:Hb; [| now left].
  destruct (5 <? Bucket.samples b)%nat eqn:H5; [| now left].
  right. exists cal, b. apply Nat.ltb_ge in H20. apply Nat.ltb_lt in H5.
  assert (Hcons : consistent b).
  { destruct (ledgerFor_picks self mt cal Hcal) as [Hm | Hm];
      eapply Hself; unfold bucketAt; rewrite Hm; exact Hb. }
  destruct (consistent_accuracy b Hcons) as [Hacc Hrange].
  repeat split; try assumption; try tauto. now rewrite Hacc.
Qed.

(** X3: on a skill in any state reached by recordOutcome, applyCalibration
    maps a confidence of [0, 1] to a number of [0, 1] that differs from it
    by at most 0.3: either the confidence itself, or the confidence moved
    30% of the way to the accuracy correct/samples of its bucket. *)
Theorem calibration_adjustment_bounded (config : Config) (calls : list Outcome)
    (c : Q) (mt : option string) :
  0 <= c -> c <= 1 ->
  exists r,
    applyCalibration (recordAll calls (new config)) (Fin c) mt = Fin r
    /\ 0 <= r /\ r <= 1 /\ c - 0.3 <= r /\ r <= c + 0.3.
Proof.
  intros H0 H1.
  destruct (applyCalibration_cases (recordAll calls (new config)) c mt)
    as [-> | (cal & b & _ & _ & _ & _ & -> & Hacc)];
    [apply calibrated_recordAll, calibrated_new | |];
    eexists; (split; [reflexivity |]); lra.
Qed.

Lemma calibration_adjustment_bounded_witness :
  (0 <= 0.72 /\ 0.72 <= 1)
  /\ exists r,
       applyCalibration
         (recordAll (repeat (mkOutcome (Fin 0.75) true None) 25)
            (new (defaultConfig None None None None None)))
         (Fin 0.72) None = Fin r
       /\ 0 <= r /\ r <= 1 /\ 0.72 - 0.3 <= r /\ r <= 0.72 + 0.3.
Proof.
  split; [split; discriminate |].
  apply calibration_adjustment_bounded; discriminate.
Defined.

(** X4: calibration is inert until 20 outcomes are recorded: when fewer
    than 20 calls of recordOutcome were made for the market type of the
    prediction and fewer than 20 for 'default', applyCalibration returns the
    confidence unchanged, whatever the buckets hold. *)
Theorem calibration_inert_below_20 (config : Config) (calls : list Outcome)
    (confidence : jsnum) (mt : option string) :
  (countb (of_type (default "default" mt)) calls < 20)%nat ->
  (countb (of_type "default") calls < 20)%nat ->
  applyCalibration (recordAll calls (new config)) confidence mt = confidence.
Proof.
  intros Hm Hd. unfold applyCalibration.
  destruct (ledgerFor _ mt) as [cal |] eqn:Hcal; [| reflexivity].
  assert (Hs : (Ledger.samples cal < 20)%nat).
  { pose proof (ledgerSamples_recordAll calls (new config)) as Hcount.
    assert (Hnew : forall m, ledgerSamples (new config) m = 0%nat)
      by (intros m; unfold ledgerSamples, new; cbn; now rewrite lookup_empty).
    destruct (ledgerFor_picks _ mt cal Hcal) as [Hl | Hl].
    - specialize (Hcount (default "default" mt)). unfold ledgerSamples in Hcount at 1.
      rewrite Hl, Hnew in Hcount. lia.
    - specialize (Hcount "default"). unfold ledgerSamples in Hcount at 1.
      rewrite Hl, Hnew in Hcount. lia. }
  apply Nat.ltb_lt in Hs. now rewrite Hs.
Qed.

Lemma calibration_inert_below_20_witness :
  let calls := repeat (mkOutcome (Fin 0.75) false None) 19 in
  ((countb (of_type "default") calls < 20)%nat)
  /\ applyCalibration (recordAll calls (new (defaultConfig None None None None None)))
       (Fin 0.72) None = Fin 0.72.
Proof.
  cbv zeta. split; [vm_compute; lia |].
  apply calibration_inert_below_20; vm_compute; lia.
Defined.

(** X5: applyMarketAdjustments only lowers a non-negative confidence, and to
    no less than 0.85 * 0.9 = 0.765 of it (the two volatility penalties
    exclude each other); on an object without volatility and liquidity it
    returns the confidence unchanged; without an object it throws. *)
Theorem market_adjustment_bounds (c : Q) (o : AggregateResult) :
  0 <= c ->
  (exists r, applyMarketAdjustments (Fin c) (Some o) = Normal (Fin r)
             /\ 0.765 * c <= r /\ r <= c)
  /\ (volatility o = None -> liquidity o = None ->
      forall x, applyMarketAdjustments x (Some o) = Normal x)
  /\ (forall x, raises (applyMarketAdjustments x None)).
Proof.
  intros Hc. split; [| split].
  - unfold applyMarketAdjustments. cbn [deref]. unfold mbind, mret.
    cbn [completion_bind completion_ret].
    destruct (JS.truthy_opt (volatility o)); repeat destruct (_ >? _)%js;
      destruct (_ <? _)%js; cbn [JS.mul]; eexists; (split; [reflexivity |]); lra.
  - intros Hv Hl x. unfold applyMarketAdjustments. cbn [deref]. unfold mbind, mret.
    cbn [completion_bind completion_ret]. now rewrite Hv, Hl.
  - intros x. eexists. reflexivity.
Qed.

Lemma market_adjustment_bounds_witness :
  0 <= 0.8
  /\ exists r,
       applyMarketAdjustments (Fin 0.8)
         (Some (mkAggregateResult None None None None (Some (Fin 0.9)) (Some (Fin 500))))
       = Normal (Fin r)
       /\ 0.765 * 0.8 <= r /\ r <= 0.8.
Proof.
  split; [discriminate |].
  exact (proj1 (market_adjustment_bounds 0.8
                  (mkAggregateResult None None None None (Some (Fin 0.9)) (Some (Fin 500)))
                  ltac:(discriminate))).
Defined.

(** X6: calculate returns exactly when it is given a prediction object and
    a signals object; with [null] or [undefined] for either it throws a
    TypeError (also for missing signals, which calculateSignalConfidence
    itself accepts: applyMarketAdjustments reads them unguarded). *)
Theorem calculate_returns_iff (self : t) (prediction : option Prediction)
    (signals' : option AggregateResult) (performance : option Performance) :
  ((exists v, calculate self prediction signals' performance = Normal v)
   <-> is_Some prediction /\ is_Some signals')
  /\ (prediction = None \/ signals' = None ->
      exists msg, calculate self prediction signals' performance
                  = Throw (TypeError msg))
  /\ calculateSignalConfidence None = Fin 0.5.
Proof.
  split; [| split; [| reflexivity]].
  - split.
    + intros [v Hv]. destruct prediction as [pr |], signals' as [o |];
        try discriminate Hv; split; eauto.
    + intros [[pr ->] [o ->]]. unfold calculate, applyMarketAdjustments.
      cbn [deref]. unfold mbind, mret. cbn [completion_bind completion_ret]. eauto.
  - intros [-> | ->]; [eexists; reflexivity |].
    destruct prediction as [pr |]; eexists; reflexivity.
Qed.
End CalibrationUse.

(* ===================================================================== *)
(** ** ExecutionSkill: routing and execution                             *)
(* ===================================================================== *)

Section ExecutionRouting.
Import Execution.

(** With a prediction object [selectPlatform] returns: the configured
    platform, or one of the two venues when the platform is 'both'. *)
Lemma selectPlatform_returns (self : t) (pr : TradePrediction) :
  exists p,
    selectPlatform self (Some pr) = Normal p
    /\ (platform (config self) <> "both" -> p = platform (config self))
    /\ (platform (config self) = "both" -> p = "polymarket" \/ p = "kalshi").
Proof.
  unfold selectPlatform.
  destruct (String.eqb (platform (config self)) "both") eqn:Hb; cbn [negb].
  - apply String.eqb_eq in Hb. cbn [deref]. unfold mbind, mret.
    cbn [completion_bind completion_ret].
    destruct (bool_decide (category pr = Some "crypto"));
      [| destruct (bool_decide (category pr = Some "politics")
                   || bool_decide (category pr = Some "sports"))];
      eexists; (split; [reflexivity | split; [congruence | auto]]).
  - apply String.eqb_neq in Hb. eexists. split; [reflexivity |].
    split; [auto | congruence].
Qed.

(** After [init] with one of the three documented platforms, the venue
    that [selectPlatform] picks has a client. *)
Lemma init_provides (polymarket kalshi : Client) (self : t) (p : string) :
  platform (config self) ∈ ["polymarket"; "kalshi"; "both"] ->
  (platform (config self) <> "both" -> p = platform (config self)) ->
  (platform (config self) = "both" -> p = "polymarket" \/ p = "kalshi") ->
  exists client, clientFor (init polymarket kalshi self) p = Own client.
Proof.
  intros Hin Hne Hboth. unfold clientFor, init. cbn [clients config].
  rewrite !elem_of_cons in Hin.
  destruct Hin as [Hp | [Hp | [Hp | Hp]]]; [| | | now apply elem_of_nil in Hp].
  - rewrite Hp in *. cbn. rewrite (Hne ltac:(discriminate)).
    rewrite lookup_insert_eq. eauto.
  - rewrite Hp in *. cbn. rewrite (Hne ltac:(discriminate)).
    rewrite lookup_insert_eq. eauto.
  - rewrite Hp in *. cbn. destruct (Hboth eq_refl) as [-> | ->].
    + rewrite lookup_insert_ne by discriminate. rewrite lookup_insert_eq. eauto.
    + rewrite lookup_insert_eq. eauto.
Qed.

(** The three states a trade can be in. *)
Lemma execute_with_client (time stamp : Z) (self : t) (pr : TradePrediction)
    (p : string) (client : Client) :
  selectPlatform self (Some pr) = Normal p ->
  clientFor self p = Own client ->
  exists trade,
    execute time stamp self (Some pr) = Normal trade
    /\ ExecutionSkill.calculatePositionSize (sizer self) (Some (sizing pr))
       = Normal (trade_size trade)
    /\ trade_platform trade = p
    /\ trade_predictionId trade = id pr
    /\ (if dryRun (config self)
        then trade_status trade = "dry_run"
        else trade_status trade = "executed" \/ trade_status trade = "failed").
Proof.
  intros Hp Hc. unfold execute. rewrite Hp.
  unfold mbind, mret. cbn [completion_bind completion_ret]. rewrite Hc.
  cbn [fmap option_fmap option_map].
  assert (Hv : exists v, ExecutionSkill.calculatePositionSize (sizer self)
                           (Some (sizing pr)) = Normal v)
    by (eexists; reflexivity).
  destruct Hv as [v Hv]. rewrite Hv. cbn [completion_bind deref].
  destruct (dryRun (config self)).
  - eexists. repeat split; reflexivity.
  - cbn [callPlaceOrder]. destruct (placeOrder client _) as [[receipt |] | err];
      eexists; (split; [reflexivity |]); cbn; auto.
Qed.

(** X8: once init has run with one of the three documented platforms,
    execute never throws on a prediction object: it returns a trade on
    polymarket or kalshi (the configured venue unless the platform is
    'both'), whose size is the value of calculatePositionSize and whose
    status is 'dry_run' in dry-run mode and 'executed' or 'failed'
    otherwise, whatever the client does. *)
Theorem execute_after_init (polymarket kalshi : Client) (self : t)
    (time stamp : Z) (pr : TradePrediction) :
  platform (config self) ∈ ["polymarket"; "kalshi"; "both"] ->
  exists trade,
    execute time stamp (init polymarket kalshi self) (Some pr) = Normal trade
    /\ ExecutionSkill.calculatePositionSize (sizer self) (Some (sizing pr))
       = Normal (trade_size trade)
    /\ (trade_platform trade = "polymarket" \/ trade_platform trade = "kalshi")
    /\ (platform (config self) <> "both" ->
        trade_platform trade = platform (config self))
    /\ (if dryRun (config self)
        then trade_status trade = "dry_run"
        else trade_status trade = "executed" \/ trade_status trade = "failed").
Proof.
  intros Hin.
  destruct (selectPlatform_returns (init polymarket kalshi self) pr)
    as (p & Hp & Hne & Hboth).
  change (config (init polymarket kalshi self)) with (config self) in Hne, Hboth.
  destruct (init_provides polymarket kalshi self p Hin Hne Hboth) as [client Hc].
  destruct (execute_with_client time stamp _ pr p client Hp Hc)
    as (trade & He & Hs & Hpl & _ & Hst).
  exists trade. split; [exact He |]. split; [exact Hs |].
  split; [| split; [| exact Hst]].
  - rewrite Hpl. rewrite !elem_of_cons in Hin.
    destruct Hin as [Hq | [Hq | [Hq | Hq]]]; [| | | now apply elem_of_nil in Hq].
    + left. rewrite Hne; [exact Hq | rewrite Hq; discriminate].
    + right. rewrite Hne; [exact Hq | rewrite Hq; discriminate].
    + exact (Hboth Hq).
  - intros Hn. rewrite Hpl. exact (Hne Hn).
Qed.

Lemma execute_after_init_witness :
  exists trade,
    execute 1000 1001
      (init (mkClient (fun _ => Throw (Error "down")) (fun _ => Throw (Error "down")))
            (mkClient (fun _ => Throw (Error "down")) (fun _ => Throw (Error "down")))
            (new None (mkConfig "both" false)))
      (Some (mkTradePrediction
               (mkPrediction None None None None (Some (Fin 0.7)) (Some (Fin 0.55)))
               (Some "politics") (Some "p1") (Some "m1") (Some "yes") None None))
    = Normal trade
    /\ trade_platform trade = "kalshi"
    /\ trade_status trade = "failed"
    /\ num_eq (trade_size trade) (Fin (250 / 3)).
Proof.
  destruct (execute_after_init
              (mkClient (fun _ => Throw (Error "down")) (fun _ => Throw (Error "down")))
              (mkClient (fun _ => Throw (Error "down")) (fun _ => Throw (Error "down")))
              (new None (mkConfig "both" false)) 1000 1001
              (mkTradePrediction
                 (mkPrediction None None None None (Some (Fin 0.7)) (Some (Fin 0.55)))
                 (Some "politics") (Some "p1") (Some "m1") (Some "yes") None None))
    as (trade & He & _).
  - rewrite !elem_of_cons. auto.
  - exists trade. split; [exact He |].
    vm_compute in He. injection He as <-. cbn. repeat split; reflexivity.
Defined.

(** The lookup of a client in an object without own properties. *)
Lemma clientFor_empty (self : t) (p : string) :
  clients self = ∅ -> p ∉ objectPrototypeKeys -> clientFor self p = Absent.
Proof.
  intros Hc Hp. unfold clientFor. rewrite Hc, lookup_empty.
  now rewrite bool_decide_eq_false_2.
Qed.

(** X9: without a client for the venue, execute throws the Error
    'No client configured for <venue>' before it sizes anything, in
    dry-run mode too: so does every call on a prediction object before
    init, and every call at all (also closePosition, with its own message)
    after init when the configured platform is none of the three documented
    ones.  Names of Object.prototype, which a lookup in this.clients finds,
    are set aside. *)
Theorem execute_without_client (bankroll : option jsnum) (cfg : Config)
    (polymarket kalshi : Client) (time stamp : Z) :
  platform cfg ∉ objectPrototypeKeys ->
  (forall pr, exists p,
      selectPlatform (new bankroll cfg) (Some pr) = Normal p
      /\ execute time stamp (new bankroll cfg) (Some pr)
         = Throw (Error ("No client configured for " +:+ p)))
  /\ (platform cfg ∉ ["polymarket"; "kalshi"; "both"] ->
      forall prediction positionId,
        execute time stamp (init polymarket kalshi (new bankroll cfg)) prediction
        = Throw (Error ("No client configured for " +:+ platform cfg))
        /\ closePosition (init polymarket kalshi (new bankroll cfg))
             positionId (platform cfg)
           = Throw (Error ("No client for " +:+ platform cfg))).
Proof.
  intros Hproto. split.
  - intros pr.
    destruct (selectPlatform_returns (new bankroll cfg) pr) as (p & Hp & Hne & Hboth).
    exists p. split; [exact Hp |]. unfold execute. rewrite Hp.
    unfold mbind. cbn [completion_bind].
    rewrite clientFor_empty; [reflexivity | reflexivity |].
    cbn [new config] in Hne, Hboth.
    destruct (decide (platform cfg = "both")) as [Hb | Hb].
    + destruct (Hboth Hb) as [-> | ->]; intros Hin;
        unfold objectPrototypeKeys in Hin;
        rewrite !elem_of_cons, elem_of_nil in Hin; intuition discriminate.
    + now rewrite (Hne Hb).
  - intros Hnot prediction positionId.
    assert (Hb : String.eqb (platform cfg) "both" = false).
    { apply String.eqb_neq. intros Hb. apply Hnot. rewrite Hb.
      rewrite !elem_of_cons. auto. }
    assert (Hpm : String.eqb (platform cfg) "polymarket" = false).
    { apply String.eqb_neq. intros Hb'. apply Hnot. rewrite Hb'.
      rewrite !elem_of_cons. auto. }
    assert (Hk : String.eqb (platform cfg) "kalshi" = false).
    { apply String.eqb_neq. intros Hb'. apply Hnot. rewrite Hb'.
      rewrite !elem_of_cons. auto. }
    assert (Hc : clientFor (init polymarket kalshi (new bankroll cfg)) (platform cfg)
                 = Absent).
    { apply clientFor_empty; [| exact Hproto].
      unfold init. cbn [new config clients]. now rewrite Hb, Hpm, Hk. }
    split.
    + unfold execute, selectPlatform. cbn [init new config]. rewrite Hb.
      cbn [negb]. unfold mbind, mret. cbn [completion_bind completion_ret].
      now rewrite Hc.
    + unfold closePosition. now rewrite Hc.
Qed.

Lemma execute_without_client_witness :
  execute 0 0 (new None (defaultConfig None None))
    (Some (mkTradePrediction
             (mkPrediction None None None None (Some (Fin 0.7)) (Some (Fin 0.55)))
             None None None None None None))
  = Throw (Error "No client configured for polymarket").
Proof.
  destruct (execute_without_client None (defaultConfig None None)
              (mkClient (fun _ => Normal None) (fun _ => Throw (Error "down")))
              (mkClient (fun _ => Normal None) (fun _ => Throw (Error "down")))
              0 0) as [H _].
  - intros Hin. unfold objectPrototypeKeys in Hin.
    rewrite !elem_of_cons, elem_of_nil in Hin. cbn in Hin. intuition discriminate.
  - destruct (H (mkTradePrediction
                   (mkPrediction None None None None (Some (Fin 0.7)) (Some (Fin 0.55)))
                   None None None None None None)) as (p & Hp & He).
    cbn in Hp. injection Hp as <-. exact He.
Defined.

(** The lookup finds a client, whatever its behaviour, for the same names. *)
Lemma clientFor_same_names (self self' : t) (p : string) :
  dom (clients self) = dom (clients self') ->
  match clientFor self p, clientFor self' p with
  | Own _, Own _ | Inherited, Inherited | Absent, Absent => True
  | _, _ => False
  end.
Proof.
  intros Hd. unfold clientFor.
  destruct (clients self !! p) as [c |] eqn:H1,
           (clients self' !! p) as [c' |] eqn:H2.
  - exact I.
  - apply not_elem_of_dom in H2. rewrite <- Hd in H2.
    apply not_elem_of_dom in H2. congruence.
  - apply not_elem_of_dom in H1. rewrite Hd in H1.
    apply not_elem_of_dom in H1. congruence.
  - destruct (bool_decide _); exact I.
Qed.

(** X10: in dry-run mode (this.config.dryRun is truthy) no client is ever
    called: execute and closePosition give the same results whatever the
    clients registered under the same names do. *)
Theorem dry_run_never_calls_client (self self' : t) (time stamp : Z)
    (prediction : option TradePrediction) (positionId p : string) :
  dryRun (config self) = true ->
  config self' = config self ->
  sizer self' = sizer self ->
  dom (clients self') = dom (clients self) ->
  execute time stamp self' prediction = execute time stamp self prediction
  /\ closePosition self' positionId p = closePosition self positionId p.
Proof.
  intros Hdry Hcfg Hsz Hdom. split.
  - assert (Hsel : selectPlatform self' prediction = selectPlatform self prediction)
      by (unfold selectPlatform; now rewrite Hcfg).
    unfold execute. rewrite Hsel, Hcfg, Hsz, Hdry.
    destruct (selectPlatform self prediction) as [p' | e]; [| reflexivity].
    unfold mbind. cbn [completion_bind].
    pose proof (clientFor_same_names self' self p' Hdom) as H.
    destruct (clientFor self' _), (clientFor self _); try contradiction; reflexivity.
  - unfold closePosition. rewrite Hcfg, Hdry.
    pose proof (clientFor_same_names self' self p Hdom) as H.
    destruct (clientFor self' _), (clientFor self _); try contradiction; reflexivity.
Qed.

Lemma dry_run_never_calls_client_witness :
  let down := mkClient (fun _ => Throw (Error "down")) (fun _ => Throw (Error "down")) in
  let up := mkClient (fun _ => Normal None) (fun id => Normal (mkClosed "closed" id)) in
  let pr :=
    mkTradePrediction
      (mkPrediction None None None None (Some (Fin 0.7)) (Some (Fin 0.55)))
      (Some "crypto") (Some "p1") (Some "m1") (Some "yes") None None in
  execute 5 6 (init down down (new None (defaultConfig None None))) (Some pr)
  = execute 5 6 (init up up (new None (defaultConfig None None))) (Some pr)
  /\ exists trade,
       execute 5 6 (init up up (new None (defaultConfig None None))) (Some pr)
       = Normal trade
       /\ trade_status trade = "dry_run".
Proof.
  cbv zeta. split.
  - exact (proj1 (dry_run_never_calls_client
                    (init (mkClient (fun _ => Normal None)
                                    (fun id => Normal (mkClosed "closed" id)))
                          (mkClient (fun _ => Normal None)
                                    (fun id => Normal (mkClosed "closed" id)))
                          (new None (defaultConfig None None)))
                    (init (mkClient (fun _ => Throw (Error "down"))
                                    (fun _ => Throw (Error "down")))
                          (mkClient (fun _ => Throw (Error "down"))
                                    (fun _ => Throw (Error "down")))
                          (new None (defaultConfig None None)))
                    5 6 _ "p" "polymarket" eq_refl eq_refl eq_refl eq_refl)).
  - eexists. split; [vm_compute; reflexivity | reflexivity].
Defined.
End ExecutionRouting.

(* ===================================================================== *)
(** ** BaseAgent: the performance record and the threshold                *)
(* ===================================================================== *)

Section AgentState.
Import BaseAgent.

Lemma logAll_performance (outcomes : list (option string * option string))
    (self : t) :
  performance (logAll outcomes self)
  = fold_left (fun p o => tally o.1 o.2 p) outcomes (performance self).
Proof.
  unfold logAll. revert self.
  induction outcomes as [| o outcomes IH]; intros self; [reflexivity |].
  cbn [fold_left]. now rewrite IH.
Qed.

(** The counters after a history of logged outcomes. *)
Lemma tally_counts (outcomes : list (option string * option string)) (p : Tally) :
  let p' := fold_left (fun p o => tally o.1 o.2 p) outcomes p in
  perf_total p' = (perf_total p + length outcomes)%nat
  /\ perf_wins p' = (perf_wins p + hits outcomes)%nat
  /\ (perf_losses p' + hits outcomes = perf_losses p + length outcomes)%nat
  /\ perf_pnl p' = perf_pnl p
  /\ (outcomes <> [] ->
      perf_winRate p' = (JS.of_nat (perf_wins p') / JS.of_nat (perf_total p'))%js).
Proof.
  revert p. induction outcomes as [| o outcomes IH]; intros p; cbn zeta.
  - cbn [fold_left length]. unfold hits, countb. cbn.
    repeat split; try lia. congruence.
  - cbn [fold_left length]. specialize (IH (tally o.1 o.2 p)). cbn zeta in IH.
    destruct IH as (Ht & Hw & Hl & Hp & Hr).
    unfold hits in *. rewrite countb_cons.
    assert (Hc : perf_total (tally o.1 o.2 p) = S (perf_total p)
                 /\ perf_wins (tally o.1 o.2 p)
                    = ((if bool_decide (o.1 = o.2) then 1 else 0) + perf_wins p)%nat
                 /\ (perf_losses (tally o.1 o.2 p)
                     + (if bool_decide (o.1 = o.2) then 1 else 0)
                     = S (perf_losses p))%nat
                 /\ perf_pnl (tally o.1 o.2 p) = perf_pnl p).
    { unfold tally. cbn. destruct (bool_decide _); repeat split; lia. }
    destruct Hc as (Hc1 & Hc2 & Hc3 & Hc4).
    split; [lia |]. split; [lia |]. split; [lia |]. split; [congruence |].
    intros _. destruct outcomes as [| o' outcomes]; [reflexivity |].
    apply Hr. discriminate.
Qed.

Lemma Qnat_nonzero (n : nat) : (1 <= n)%nat -> ~ Qnat n == 0.
Proof. intros H. pose proof (Qnat_pos n H). lra. Qed.

Lemma ratio_range (a b : nat) :
  (a <= b)%nat -> (1 <= b)%nat -> 0 <= Qnat a / Qnat b /\ Qnat a / Qnat b <= 1.
Proof.
  intros Hab Hb. pose proof (Qnat_pos b Hb) as Hb'.
  pose proof (Qnat_le a b Hab) as Hab'.
  pose proof (Qnat_le 0 a (Nat.le_0_l a)) as Ha. change (Qnat 0) with 0 in Ha.
  split.
  - apply Qle_shift_div_l; lra.
  - apply Qle_shift_div_r; lra.
Qed.

(** The win rate after a history of logged outcomes on a new record. *)
Lemma logged_winRate (outcomes : list (option string * option string)) (self : t) :
  performance self = initialPerformance ->
  let p := performance (logAll outcomes self) in
  perf_total p = length outcomes
  /\ perf_wins p = hits outcomes
  /\ perf_pnl p = Fin 0
  /\ perf_winRate p
     = match outcomes with
       | [] => Fin 0
       | _ => Fin (Qnat (hits outcomes) / Qnat (length outcomes))
       end.
Proof.
  intros Hinit. cbn zeta. rewrite logAll_performance, Hinit.
  destruct (tally_counts outcomes initialPerformance) as (Ht & Hw & _ & Hp & Hr).
  cbn zeta in Ht, Hw, Hp, Hr. cbn [initialPerformance perf_total perf_wins perf_pnl
                                   Nat.add] in Ht, Hw, Hp.
  repeat split; try assumption.
  destruct outcomes as [| o outcomes]; [reflexivity |].
  rewrite Hr by discriminate. rewrite Ht, Hw.
  apply div_fin. apply Qnat_nonzero. cbn [length]. lia.
Qed.

(** X11: after any history of logOutcome calls on an agent whose
    performance record is the one of the constructor, total is the number
    of calls, wins the number of calls whose predicted outcome equals the
    actual one, wins + losses = total, winRate is wins/total (0 before the
    first call) and lies in [0, 1], and pnl is still 0: logOutcome never
    updates it. *)
Theorem logOutcome_performance
    (outcomes : list (option string * option string)) (self : t) :
  performance self = initialPerformance ->
  let p := performance (logAll outcomes self) in
  perf_total p = length outcomes
  /\ perf_wins p = hits outcomes
  /\ (perf_wins p + perf_losses p = perf_total p)%nat
  /\ perf_pnl p = Fin 0
  /\ num_eq (perf_winRate p)
       (Fin (if (length outcomes =? 0)%nat then 0
             else Qnat (perf_wins p) / Qnat (perf_total p)))
  /\ in_range 0 1 (perf_winRate p).
Proof.
  intros Hinit. cbn zeta.
  destruct (logged_winRate outcomes self Hinit) as (Ht & Hw & Hp & Hr).
  cbn zeta in Ht, Hw, Hp, Hr.
  pose proof (countb_le_length (fun o => bool_decide (o.1 = o.2)) outcomes) as Hle.
  fold (hits outcomes) in Hle.
  split; [exact Ht |]. split; [exact Hw |]. split.
  { rewrite logAll_performance, Hinit.
    destruct (tally_counts outcomes initialPerformance) as (Ht' & Hw' & Hl' & _).
    cbn zeta in Ht', Hw', Hl'.
    cbn [initialPerformance perf_total perf_wins perf_losses Nat.add] in Ht', Hw', Hl'.
    lia. }
  split; [exact Hp |]. rewrite Hr, Ht, Hw.
  destruct outcomes as [| o outcomes]; cbn [length Nat.eqb num_eq in_range].
  - split; [reflexivity | lra].
  - split; [reflexivity |]. apply ratio_range; [exact Hle | cbn [length]; lia].
Qed.

Lemma logOutcome_performance_witness :
  let p := performance
             (logAll [(Some "yes", Some "yes"); (Some "yes", Some "no");
                      (None, Some "no")]
                     (PoliticsAI.new None None None None)) in
  perf_total p = 3%nat /\ perf_wins p = 1%nat /\ perf_losses p = 2%nat
  /\ num_eq (perf_winRate p) (Fin (1 / 3)).
Proof.
  cbn zeta.
  destruct (logOutcome_performance
              [(Some "yes", Some "yes"); (Some "yes", Some "no"); (None, Some "no")]
              (PoliticsAI.new None None None None) eq_refl)
    as (Ht & Hw & Hl & _ & Hr & _).
  cbn zeta in Ht, Hw, Hl, Hr. rewrite Ht, Hw in Hl, Hr.
  split; [exact Ht |]. split; [exact Hw |].
  split; [vm_compute in Hl; vm_compute; lia |].
  destruct (perf_winRate _); try contradiction. cbn in Hr |- *. rewrite Hr.
  reflexivity.
Defined.

(** X12: the history component that a skill without calibration data
    gives to an agent's own record.  With fewer logged outcomes than
    minSamplesForHistory it is the neutral 0.5; with enough of them it is
    the win rate wins/total, except that a record without a single win is
    scored 0.5 as well, the win rate 0 being falsy in winRate || 0.5. *)
Theorem history_of_logged_outcomes (skill : ConfidenceScoringSkill.t) (m : Q)
    (outcomes : list (option string * option string)) (self : t)
    (prediction : Prediction) :
  ConfidenceScoringSkill.calibrationData skill !! "default" = None ->
  ConfidenceScoringSkill.minSamplesForHistory (ConfidenceScoringSkill.config skill)
  = Fin m ->
  performance self = initialPerformance ->
  num_eq
    (ConfidenceScoringSkill.calculateHistoryConfidence skill
       (Some (performanceOf (performance (logAll outcomes self)))) prediction)
    (if Qltb (Qnat (length outcomes)) m || (hits outcomes =? 0)%nat
     then Fin 0.5
     else Fin (Qnat (hits outcomes) / Qnat (length outcomes))).
Proof.
  intros Hcal Hm Hinit.
  destruct (logged_winRate outcomes self Hinit) as (Ht & Hw & Hp & Hr).
  cbn zeta in Ht, Hw, Hp, Hr.
  pose proof (countb_le_length (fun o => bool_decide (o.1 = o.2)) outcomes) as Hle.
  fold (hits outcomes) in Hle.
  unfold ConfidenceScoringSkill.calculateHistoryConfidence, performanceOf.
  cbn [total winRate recentWinRate pnl JS.toNumber JS.truthy_opt].
  rewrite Hm, Ht, Hp, Hr.
  unfold ConfidenceScoringSkill.getCalibrationForConfidence. rewrite Hcal.
  change (JS.of_nat (length outcomes) <? Fin m)%js
    with (Qltb (Qnat (length outcomes)) m).
  destruct (Qltb (Qnat (length outcomes)) m); cbn [orb]; [reflexivity |].
  change (Fin 0 <? Fin 0)%js with false. cbn iota.
  destruct outcomes as [| o outcomes].
  - reflexivity.
  - cbn [JS.or_else JS.truthy].
    destruct (hits (o :: outcomes) =? 0)%nat eqn:Hh.
    + apply Nat.eqb_eq in Hh. rewrite Hh. change (Qnat 0) with 0.
      destruct (Qeq_bool (0 / _) 0) eqn:Hz; cbn [negb]; [reflexivity |].
      apply Qeq_bool_false in Hz. exfalso. apply Hz. unfold Qdiv. ring.
    + apply Nat.eqb_neq in Hh.
      destruct (Qeq_bool _ 0) eqn:Hz; cbn [negb]; [| reflexivity].
      apply Qeq_bool_iff in Hz. exfalso.
      pose proof (Qnat_pos (hits (o :: outcomes)) ltac:(lia)) as Hpos.
      pose proof (Qnat_pos (length (o :: outcomes)) ltac:(cbn [length]; lia)) as Hlen.
      assert (Hq : Qnat (hits (o :: outcomes))
                   == Qnat (hits (o :: outcomes)) / Qnat (length (o :: outcomes))
                      * Qnat (length (o :: outcomes))) by (field; lra).
      rewrite Hz in Hq. lra.
Qed.

Lemma history_of_logged_outcomes_witness :
  num_eq
    (ConfidenceScoringSkill.calculateHistoryConfidence PoliticsAI.scoringSkill
       (Some (performanceOf
                (performance
                   (logAll (repeat (Some "yes", Some "no") 12)
                           (PoliticsAI.new None None None None)))))
       (mkPrediction (Some (Fin 0.8)) None None None None None))
    (Fin 0.5).
Proof.
  exact (history_of_logged_outcomes PoliticsAI.scoringSkill 10
           (repeat (Some "yes", Some "no") 12)
           (PoliticsAI.new None None None None)
           (mkPrediction (Some (Fin 0.8)) None None None None None)
           eq_refl eq_refl eq_refl).
Defined.

(** The size that [calculatePositionSize] gives to a prediction without a
    usable confidence. *)
Lemma size_without_confidence (sizer : ExecutionSkill.t) (pr : Prediction) :
  JS.toNumber (confidence pr) = NaN ->
  ExecutionSkill.calculatePositionSize sizer (Some pr) = Normal NaN.
Proof.
  intros Hc. unfold ExecutionSkill.calculatePositionSize. cbn [deref].
  unfold mbind. cbn [completion_bind]. f_equal.
  assert (Hk : ExecutionSkill.kelly pr = NaN).
  { unfold ExecutionSkill.kelly, ExecutionSkill.fullKelly. rewrite Hc.
    destruct (JS.div (Fin 1) _ - Fin 1)%js; reflexivity. }
  rewrite Hk.
  destruct (ExecutionSkill.bankroll sizer || Fin 1000)%js; cbn;
    destruct (ExecutionSkill.agentMaxBetSize sizer || Fin 100)%js; reflexivity.
Qed.

(** X13: the threshold of BaseAgent.execute.  A prediction whose
    confidence is a number below minConfidence returns null and leaves the
    agent as it is, whatever skills are registered.  A prediction whose
    confidence is missing or NaN is not below the threshold: without an
    execution skill the call throws, and with a skill initialised for one
    of the three documented platforms it returns a trade of size NaN, which
    is pushed on state.trades. *)
Theorem execute_threshold (time stamp : Z) (self : t) (pr : Execution.TradePrediction) :
  ((JS.toNumber (confidence (Execution.sizing pr)) <? minConfidence (config self))%js
   = true ->
   execute time stamp self (Some pr) = Normal (None, self))
  /\ (JS.toNumber (confidence (Execution.sizing pr)) = NaN ->
      (execution self = None ->
       execute time stamp self (Some pr)
       = Throw (Error "No execution skill registered"))
      /\ forall polymarket kalshi skill,
           execution self = Some (Execution.init polymarket kalshi skill) ->
           Execution.platform (Execution.config skill)
             ∈ ["polymarket"; "kalshi"; "both"] ->
           exists trade,
             execute time stamp self (Some pr)
             = Normal (Some trade,
                       mk (category self) (config self) (aggregation self)
                          (scoring self) (execution self) (performance self)
                          (trades self ++ [trade]))
             /\ Execution.trade_size trade = NaN).
Proof.
  split.
  - intros Hlt. unfold execute. cbn [deref]. unfold mbind, mret.
    cbn [completion_bind completion_ret]. now rewrite Hlt.
  - intros Hnan. unfold execute. cbn [deref]. unfold mbind, mret.
    cbn [completion_bind completion_ret]. rewrite Hnan. cbn [JS.lt]. split.
    + now intros ->.
    + intros polymarket kalshi skill Hs Hin. rewrite Hs.
      destruct (selectPlatform_returns (Execution.init polymarket kalshi skill) pr)
        as (p & Hp & Hne & Hboth).
      change (Execution.config (Execution.init polymarket kalshi skill))
        with (Execution.config skill) in Hne, Hboth.
      destruct (init_provides polymarket kalshi skill p Hin Hne Hboth) as [client Hc].
      destruct (execute_with_client time stamp _ pr p client Hp Hc)
        as (trade & He & Hsz & _).
      rewrite He. exists trade. split; [reflexivity |].
      rewrite size_without_confidence in Hsz by exact Hnan. congruence.
Qed.

Lemma execute_threshold_witness :
  let agent :=
    PoliticsAI.init
      (Execution.mkClient (fun _ => Normal None) (fun _ => Throw (Error "down")))
      (Execution.mkClient (fun _ => Normal None) (fun _ => Throw (Error "down")))
      (PoliticsAI.new None None None None) in
  let pr :=
    Execution.mkTradePrediction
      (mkPrediction (Some (Fin 0.9)) None None None None (Some (Fin 0.4)))
      (Some "politics") (Some "p1") (Some "m1") (Some "yes") None None in
  exists trade agent',
    execute 7 8 agent (Some pr) = Normal (Some trade, agent')
    /\ Execution.trade_size trade = NaN.
Proof.
  cbv zeta.
  destruct (execute_threshold 7 8
              (PoliticsAI.init
                 (Execution.mkClient (fun _ => Normal None)
                                     (fun _ => Throw (Error "down")))
                 (Execution.mkClient (fun _ => Normal None)
                                     (fun _ => Throw (Error "down")))
                 (PoliticsAI.new None None None None))
              (Execution.mkTradePrediction
                 (mkPrediction (Some (Fin 0.9)) None None None None (Some (Fin 0.4)))
                 (Some "politics") (Some "p1") (Some "m1") (Some "yes") None None))
    as [_ H].
  destruct (H eq_refl) as [_ H'].
  destruct (H' _ _ _ eq_refl) as (trade & He & Hs).
  - rewrite !elem_of_cons. auto.
  - eauto.
Defined.

(** X14: without a scoring skill calculateConfidence returns
    Math.min(rawConfidence || 0.5, 0.99) for every prediction object: the
    result is never NaN and never above 0.99, it is the raw confidence
    itself when that is a number other than 0 and at most 0.99, and 0.5
    when the raw confidence is missing, 0 or NaN; there is no lower bound,
    a negative raw confidence is returned as it is. *)
Theorem fallback_confidence (self : t) (pr : Prediction)
    (signals' : option AggregateResult) :
  scoring self = None ->
  exists v,
    calculateConfidence self (Some pr) signals' = Normal v
    /\ ((exists q, v = Fin q /\ q <= 0.99) \/ v = NegInf)
    /\ (forall q, rawConfidence pr = Some (Fin q) -> ~ q == 0 -> q <= 0.99 ->
        v = Fin q)
    /\ (JS.truthy_opt (rawConfidence pr) = false -> v = Fin 0.5).
Proof.
  intros Hs. unfold calculateConfidence. rewrite Hs. cbn [deref].
  unfold mbind, mret. cbn [completion_bind completion_ret].
  eexists. split; [reflexivity |].
  destruct (rawConfidence pr) as [[q | | |] |]; cbn [JS.or_else JS.truthy JS.truthy_opt].
  - destruct (Qeq_bool q 0) eqn:Hq; cbn [negb].
    + apply Qeq_bool_iff in Hq. split; [left; eexists; split; [reflexivity | lra] |].
      split; [| reflexivity]. intros q' [= <-] Hne. contradiction.
    + cbn [JS.min JS.lt]. destruct (Qltb 0.99 q) eqn:Hlt.
      * apply Qltb_true in Hlt. split; [left; eexists; split; [reflexivity | lra] |].
        split; [| discriminate]. intros q' [= <-] _ Hle. lra.
      * apply Qltb_false in Hlt. split; [left; eexists; split; [reflexivity | lra] |].
        split; [now intros q' [= <-] | discriminate].
  - split; [left; eexists; split; [reflexivity | lra] |].
    split; [discriminate | discriminate].
  - split; [now right |]. split; discriminate.
  - split; [left; eexists; split; [reflexivity | lra] |].
    split; [discriminate | reflexivity].
  - split; [left; eexists; split; [reflexivity | lra] |].
    split; [discriminate | reflexivity].
Qed.

Lemma fallback_confidence_witness :
  calculateConfidence (PoliticsAI.new None None None None)
    (Some (mkPrediction (Some (Fin (-2))) None None None None None)) None
  = Normal (Fin (-2)).
Proof.
  destruct (fallback_confidence (PoliticsAI.new None None None None)
              (mkPrediction (Some (Fin (-2))) None None None None None) None eq_refl)
    as (v & Hv & _ & Hq & _).
  rewrite Hv. f_equal. apply Hq; [reflexivity | discriminate | discriminate].
Defined.
End AgentState.

(* ===================================================================== *)
(** ** SignalAggregationSkill: the built-in sources                       *)
(* ===================================================================== *)

Section BuiltinFeeds.
Import SignalAggregationSkill BuiltinSources.

(** The loops of [analyzeSentiment] add or remove a tenth for each word of
    the list that the test accepts. *)
Lemma fold_words_up (f : string -> bool) (words : list string) (q : Q) :
  exists q',
    fold_left (fun score word => if f word then (score + Fin 0.1)%js else score)
              words (Fin q) = Fin q'
    /\ q' == q + Qnat (countb f words) / 10.
Proof.
  revert q. induction words as [| w words IH]; intros q.
  - exists q. split; [reflexivity |]. unfold countb. cbn. change (Qnat 0) with 0.
    field.
  - cbn [fold_left]. rewrite countb_cons.
    destruct (f w).
    + destruct (IH (q + 0.1)) as (q' & Hq' & He). exists q'.
      split; [exact Hq' |]. rewrite He, Qnat_add. change (Qnat 1) with 1. field.
    + destruct (IH q) as (q' & Hq' & He). exists q'.
      split; [exact Hq' |]. rewrite He, Qnat_add. change (Qnat 0) with 0. field.
Qed.

Lemma fold_words_down (f : string -> bool) (words : list string) (q : Q) :
  exists q',
    fold_left (fun score word => if f word then (score - Fin 0.1)%js else score)
              words (Fin q) = Fin q'
    /\ q' == q - Qnat (countb f words) / 10.
Proof.
  revert q. induction words as [| w words IH]; intros q.
  - exists q. split; [reflexivity |]. unfold countb. cbn. change (Qnat 0) with 0.
    field.
  - cbn [fold_left]. rewrite countb_cons.
    destruct (f w).
    + destruct (IH (q + - 0.1)) as (q' & Hq' & He). exists q'.
      split; [exact Hq' |]. rewrite He, Qnat_add. change (Qnat 1) with 1. field.
    + destruct (IH q) as (q' & Hq' & He). exists q'.
      split; [exact Hq' |]. rewrite He, Qnat_add. change (Qnat 0) with 0. field.
Qed.

(** X15: analyzeSentiment returns (p - n)/10, where p and n are the numbers
    of the six positive and of the six negative words that occur in the
    lower-cased title and description: a number of [-0.6, 0.6], so the final
    clamp to [-1, 1] never changes it. *)
Theorem analyzeSentiment_counts (toLowerCase : string -> string) (item : Item) :
  let text :=
    toLowerCase (default "undefined" (title item) +:+ " "
                 +:+ default "" (description item)) in
  let p := countb (includes text) positive in
  let n := countb (includes text) negative in
  num_eq (analyzeSentiment toLowerCase item) (Fin ((Qnat p - Qnat n) / 10))
  /\ in_range (-0.6) 0.6 (analyzeSentiment toLowerCase item).
Proof.
  cbn zeta. unfold analyzeSentiment.
  set (text := toLowerCase _).
  destruct (fold_words_up (includes text) positive 0) as (q1 & -> & H1).
  destruct (fold_words_down (includes text) negative q1) as (q2 & -> & H2).
  pose proof (countb_le_length (includes text) positive) as Hp.
  pose proof (countb_le_length (includes text) negative) as Hn.
  change (length positive) with 6%nat in Hp.
  change (length negative) with 6%nat in Hn.
  apply Qnat_le in Hp, Hn. change (Qnat 6) with 6 in Hp, Hn.
  pose proof (Qnat_le 0 _ (Nat.le_0_l (countb (includes text) positive))) as Hp0.
  pose proof (Qnat_le 0 _ (Nat.le_0_l (countb (includes text) negative))) as Hn0.
  change (Qnat 0) with 0 in Hp0, Hn0.
  set (p := Qnat (countb (includes text) positive)) in *.
  set (n := Qnat (countb (includes text) negative)) in *.
  assert (Hq : q2 == (p - n) / 10) by (rewrite H2, H1; field).
  assert (Hlo : -0.6 <= q2) by (rewrite Hq; apply Qle_shift_div_l; lra).
  assert (Hhi : q2 <= 0.6) by (rewrite Hq; apply Qle_shift_div_r; lra).
  cbn [JS.min JS.lt].
  assert (Hlt : Qltb q2 1 = true) by (apply Qltb_true; lra).
  rewrite Hlt. cbn [JS.max JS.lt].
  assert (Hgt : Qltb (-1) q2 = true) by (apply Qltb_true; lra).
  rewrite Hgt. cbn [num_eq in_range]. split; [exact Hq | split; assumption].
Qed.

(** What [fetchNewsSignals] returns: each source of the category is
    dropped by the [catch]. *)
Lemma fetchNewsSignals_result (toLowerCase : string -> string) (weights : Weights)
    (market : Market) (category : string) :
  fetchNewsSignals toLowerCase weights market category
  = (if bool_decide (category ∈ objectPrototypeKeys)
     then Throw (TypeError "newsSources is not iterable")
     else Normal []).
Proof.
  unfold fetchNewsSignals, getNewsSourcesForCategory.
  destruct (String.eqb category "crypto") eqn:H1;
    [apply String.eqb_eq in H1; now subst |].
  destruct (String.eqb category "sports") eqn:H2;
    [apply String.eqb_eq in H2; now subst |].
  destruct (String.eqb category "politics") eqn:H3;
    [apply String.eqb_eq in H3; now subst |].
  destruct (String.eqb category "popculture") eqn:H4;
    [apply String.eqb_eq in H4; now subst |].
  now destruct (bool_decide _).
Qed.

(** X16: the news source never yields a signal.  For each source of the
    category the call of the missing method filterRelevant throws inside the
    try, and the catch drops the source: fetchNewsSignals returns the empty
    list for every market, category and configuration of the weights (for a
    category named like a property of Object.prototype it throws), and the
    collaborator that aggregate sees settles to no signal. *)
Theorem news_source_is_empty (toLowerCase : string -> string) (weights : Weights)
    (market : Market) (category : string) (n : nat) (random : nat -> nat -> Q) :
  fetchNewsSignals toLowerCase weights market category
  = (if bool_decide (category ∈ objectPrototypeKeys)
     then Throw (TypeError "newsSources is not iterable")
     else Normal [])
  /\ settle (builtin toLowerCase weights random) n
       [mkFetchCall "news" market category] = [].
Proof.
  split; [apply fetchNewsSignals_result |].
  unfold settle, builtin. cbn [imap omap source fetch_market fetch_category].
  change (String.eqb "news" "news") with true. cbn iota.
  rewrite fetchNewsSignals_result.
  now destruct (bool_decide _).
Qed.

(** What a built-in source settles to is made of signals of the data model
    that carry the property their type needs, with finite sentiments. *)
Lemma weight_ok_model (w : option jsnum) :
  weight_ok w = true ->
  match w with
  | Some (Fin q) => Qltb 0 q
  | Some _ => false
  | None => true
  end = true
  /\ moderate_opt w = true.
Proof.
  unfold weight_ok, moderate_opt, moderate.
  destruct w as [[q | | |] |]; try discriminate; [| now split].
  rewrite andb_true_iff. intros [Hpos Hle]. split; [exact Hpos |].
  apply Qltb_true in Hpos. apply Qle_bool_iff in Hle. apply Qle_bool_iff.
  rewrite Qabs_pos; lra.
Qed.

Lemma builtin_signals (toLowerCase : string -> string) (weights : Weights)
    (random : nat -> nat -> Q) (call : FetchCall) (n : nat) (sigs : list Signal) :
  unit_draws random -> weights_ok weights = true ->
  builtin toLowerCase weights random call n = Some sigs ->
  forallb data_model sigs = true /\ forallb has_fields sigs = true
  /\ forallb moderate_weight sigs = true.
Proof.
  intros Hr Hw. unfold weights_ok in Hw.
  apply andb_true_iff in Hw as [Hw Hwo]. apply andb_true_iff in Hw as [Hwn Hws].
  apply weight_ok_model in Hws as [Hws Hwsm], Hwo as [Hwo Hwom].
  unfold builtin.
  destruct (String.eqb (source call) "news").
  { rewrite fetchNewsSignals_result.
    destruct (bool_decide _); [discriminate |]. now intros [= <-]. }
  destruct (String.eqb (source call) "social").
  { intros [= <-]. unfold fetchSocialSignals.
    cbn [forallb andb]. unfold data_model, has_fields, moderate_weight.
    cbn [type sentiment weight change24h String.eqb Ascii.eqb Bool.eqb orb andb].
    destruct (Hr n 1%nat) as [H0 H1].
    assert (Hin : in_rangeb (-1) 1 (Fin (random n 1%nat * 2 - 1)) = true).
    { cbn [in_rangeb]. apply andb_true_iff. split; apply Qle_bool_iff; lra. }
    rewrite Hin, Hws, Hwsm. cbn [andb].
    split; [reflexivity |]. rewrite bool_decide_eq_true_2 by eauto. now split. }
  destruct (String.eqb (source call) "onchain"); [| discriminate].
  intros [= <-]. unfold fetchOnChainSignals.
  destruct (negb _); [now repeat split |].
  cbn [forallb andb]. unfold data_model, has_fields, moderate_weight.
  cbn [type sentiment weight change24h String.eqb Ascii.eqb Bool.eqb orb andb].
  rewrite Hwo, Hwom. now repeat split.
Qed.

Lemma imap_settled (P : Signal -> bool) (calls : list FetchCall)
    (g : nat -> FetchCall -> option (list Signal)) :
  (forall i call sigs, g i call = Some sigs -> forallb P sigs = true) ->
  forallb P (concat (omap id (imap g calls))) = true.
Proof.
  revert g. induction calls as [| call calls IH]; intros g Hg; [reflexivity |].
  cbn [imap]. destruct (g 0%nat call) as [sigs |] eqn:Hc;
    cbn [omap list_omap id concat].
  - rewrite forallb_app. rewrite (Hg _ _ _ Hc). cbn [andb].
    apply IH. intros i call' sigs'. apply Hg.
  - apply IH. intros i call' sigs'. apply Hg.
Qed.

Lemma settle_all (P : Signal -> bool) (fetch : Sources) (first : nat)
    (calls : list FetchCall) :
  (forall call n sigs, fetch call n = Some sigs -> forallb P sigs = true) ->
  forallb P (settle fetch first calls) = true.
Proof.
  intros H. unfold settle. apply imap_settled. intros i call sigs. apply H.
Qed.

(** The weighted score of signals of the data model that carry the
    properties of their type. *)
Lemma score_of_model_signals (sigs : list Signal) :
  forallb data_model sigs = true -> forallb has_fields sigs = true ->
  in_range 0 1 (calculateWeightedScore sigs).
Proof.
  intros Hd Hf.
  unfold calculateWeightedScore. destruct sigs as [| s sigs]; [simpl; lra |].
  cbn [length Nat.eqb].
  destruct (accumulate_invariant (s :: sigs) 0 0 Hd Hf)
    as (tw & ws & Heq & Ha & Hb & _ & Hpos); [lra | lra |].
  rewrite Heq. specialize (Hpos ltac:(discriminate)).
  unfold JS.gt. cbn [JS.lt].
  assert (Ht : Qltb 0 tw = true) by now apply Qltb_true.
  rewrite Ht, div_fin by lra. simpl.
  split; [apply Qle_shift_div_l | apply Qle_shift_div_r]; lra.
Qed.
End BuiltinFeeds.

(* ===================================================================== *)
(** ** SignalAggregationSkill: what the cache holds                       *)
(* ===================================================================== *)

Section CacheContents.
Import SignalAggregationSkill.
Variable config : Config.
Variable fetch : Sources.

(** A call either returns a fresh entry of the cache and changes nothing,
    or builds the object of a miss, stores it and issues the fetches. *)
Lemma aggregate_cases (market : Market) (category : string) (elapsed : Z)
    (st : State) :
  let r := aggregate config fetch market category elapsed st in
  (exists cached,
      cache st !! cacheKey market category = Some cached
      /\ (now st - entry_timestamp cached < cacheDuration config)%Z
      /\ r = (data cached, st))
  \/ (within_ttl config st (cacheKey market category) (now st) = false
      /\ r.1 = missResult config fetch market category (length (issued st))
                 (now st + elapsed)
      /\ cache r.2 = <[cacheKey market category :=
                        mkCacheEntry r.1 (now st + elapsed)%Z]> (cache st)
      /\ now r.2 = (now st + elapsed)%Z
      /\ issued r.2 = issued st ++ fetchCalls config market category).
Proof.
  cbn zeta. unfold aggregate, within_ttl.
  destruct (cache st !! cacheKey market category) as [cached |] eqn:Hc.
  - destruct (_ <? _)%Z eqn:Ht.
    + left. exists cached. apply Z.ltb_lt in Ht. auto.
    + right. repeat split.
  - right. repeat split.
Qed.

(** A property of every object a miss builds holds of everything the cache
    holds and of everything [aggregate] returns. *)
Lemma aggregate_keeps_all (P : AggregateResult -> Prop)
    (market : Market) (category : string) (elapsed : Z) (st : State) :
  (forall market category n time, P (missResult config fetch market category n time)) ->
  cache_all P st ->
  P (aggregate config fetch market category elapsed st).1
  /\ cache_all P (aggregate config fetch market category elapsed st).2.
Proof.
  intros Hmiss Hst.
  destruct (aggregate_cases market category elapsed st)
    as [(cached & Hc & _ & ->) | (_ & Hr & Hcache & _)].
  - split; [exact (Hst _ _ Hc) | exact Hst].
  - assert (HP : P (aggregate config fetch market category elapsed st).1)
      by (rewrite Hr; apply Hmiss).
    split; [exact HP |]. intros key cached. rewrite Hcache.
    destruct (decide (cacheKey market category = key)) as [-> | Hne].
    + rewrite lookup_insert_eq. now intros [= <-].
    + rewrite lookup_insert_ne by exact Hne. apply Hst.
Qed.

Lemma runOps_keeps_all (P : AggregateResult -> Prop) (ops : list CacheOp)
    (st : State) :
  (forall market category n time, P (missResult config fetch market category n time)) ->
  cache_all P st -> cache_all P (runOps config fetch ops st).
Proof.
  intros Hmiss. unfold runOps. revert st.
  induction ops as [| o ops IH]; intros st Hst; [exact Hst |].
  cbn [fold_left]. apply IH. destruct o as [market category elapsed | d].
  - exact (proj2 (aggregate_keeps_all P market category elapsed st Hmiss Hst)).
  - exact Hst.
Qed.

Lemma fresh_cache_all (P : AggregateResult -> Prop) (time : Z) :
  cache_all P (freshState time).
Proof. intros key cached. cbn. now rewrite lookup_empty. Qed.

(** X18: whatever the sources return, and after any history of calls and
    of time passing on a new skill, the object aggregate returns has a
    signals array, its length as sourceCount and its weighted score as
    score, and neither volatility nor liquidity: applyMarketAdjustments
    leaves every confidence unchanged on it. *)
Theorem aggregate_result_shape (ops : list CacheOp) (market : Market)
    (category : string) (elapsed time : Z) (confidence : jsnum) :
  let r := (aggregate config fetch market category elapsed
              (runOps config fetch ops (freshState time))).1 in
  (exists sigs,
      signals r = Some sigs
      /\ sourceCount r = Some (length sigs)
      /\ score r = Some (calculateWeightedScore sigs))
  /\ volatility r = None
  /\ liquidity r = None
  /\ ConfidenceScoringSkill.applyMarketAdjustments confidence (Some r)
     = Normal confidence.
Proof.
  cbn zeta.
  set (P := fun r : AggregateResult =>
              (exists sigs,
                  signals r = Some sigs
                  /\ sourceCount r = Some (length sigs)
                  /\ score r = Some (calculateWeightedScore sigs))
              /\ volatility r = None /\ liquidity r = None).
  assert (Hmiss : forall market category n time,
             P (missResult config fetch market category n time)).
  { intros m c n t. split; [| split; reflexivity]. eexists. repeat split. }
  pose proof (runOps_keeps_all P ops (freshState time) Hmiss
                (fresh_cache_all P time)) as Hall.
  destruct (aggregate_keeps_all P market category elapsed _ Hmiss Hall)
    as [(Hs & Hv & Hl) _].
  split; [exact Hs |]. split; [exact Hv |]. split; [exact Hl |].
  unfold ConfidenceScoringSkill.applyMarketAdjustments. cbn [deref].
  unfold mbind, mret. cbn [completion_bind completion_ret].
  now rewrite Hv, Hl.
Qed.
End CacheContents.

Section CacheBehaviour.
Import SignalAggregationSkill BuiltinSources.

(** With the built-in sources every object [aggregate] returns holds
    signals of the data model and their weighted score. *)
Lemma builtin_results (toLowerCase : string -> string) (weights : Weights)
    (random : nat -> nat -> Q) (config : Config) (ops : list CacheOp)
    (market : Market) (category : string) (elapsed time : Z) :
  unit_draws random -> weights_ok weights = true ->
  let fetch := builtin toLowerCase weights random in
  let r := (aggregate config fetch market category elapsed
              (runOps config fetch ops (freshState time))).1 in
  exists sigs,
    signals r = Some sigs
    /\ score r = Some (calculateWeightedScore sigs)
    /\ forallb data_model sigs = true /\ forallb has_fields sigs = true
    /\ forallb moderate_weight sigs = true.
Proof.
  intros Hr Hw. cbn zeta.
  set (fetch := builtin toLowerCase weights random).
  set (P := fun r : AggregateResult =>
              exists sigs,
                signals r = Some sigs
                /\ score r = Some (calculateWeightedScore sigs)
                /\ forallb data_model sigs = true
                /\ forallb has_fields sigs = true
                /\ forallb moderate_weight sigs = true).
  assert (Hmiss : forall market category n time,
             P (missResult config fetch market category n time)).
  { intros m c n t. eexists. split; [reflexivity |]. split; [reflexivity |].
    repeat split; apply settle_all; intros call k sigs Hs;
      destruct (builtin_signals toLowerCase weights random call k sigs Hr Hw Hs)
        as (? & ? & ?); assumption. }
  pose proof (runOps_keeps_all config fetch P ops (freshState time) Hmiss
                (fresh_cache_all P time)) as Hall.
  exact (proj1 (aggregate_keeps_all config fetch P market category elapsed _ Hmiss Hall)).
Qed.

(** X17: with the built-in sources, draws of Math.random in [0, 1) and
    configured weights that are missing or positive and at most 1e100,
    every object aggregate returns, after any history of calls and of time
    passing on a new skill, holds signals of the data model, with weights
    of at most 1e100, and a score in [0, 1]. *)
Theorem builtin_score_range (toLowerCase : string -> string) (weights : Weights)
    (random : nat -> nat -> Q) (config : Config) (ops : list CacheOp)
    (market : Market) (category : string) (elapsed time : Z) :
  unit_draws random -> weights_ok weights = true ->
  let fetch := builtin toLowerCase weights random in
  let r := (aggregate config fetch market category elapsed
              (runOps config fetch ops (freshState time))).1 in
  in_range 0 1 (JS.toNumber (score r))
  /\ exists sigs,
       signals r = Some sigs
       /\ forallb data_model sigs = true /\ forallb has_fields sigs = true
       /\ forallb moderate_weight sigs = true.
Proof.
  intros Hr Hw. cbn zeta.
  destruct (builtin_results toLowerCase weights random config ops market category
              elapsed time Hr Hw) as (sigs & Hs & Hsc & Hd & Hf & Hm).
  cbn zeta in Hs, Hsc. split; [| eauto 6]. rewrite Hsc. cbn [JS.toNumber].
  now apply score_of_model_signals.
Qed.

Lemma builtin_score_range_witness :
  in_range 0 1
    (JS.toNumber
       (score (aggregate (defaultConfig None None)
                 (builtin (fun s => s) defaultWeights (fun _ _ => 0.75))
                 (MarketName "btc") "crypto" 10
                 (freshState 0)).1)).
Proof.
  refine (proj1 (builtin_score_range (fun s => s) defaultWeights (fun _ _ => 0.75)
                   (defaultConfig None None) [] (MarketName "btc") "crypto" 10 0
                   _ eq_refl)).
  intros n k. split; [discriminate | reflexivity].
Defined.

(** X19: the cache key is the text category-id, so two calls whose
    category and market print the same text share one entry: right after a
    call, a call for the other market returns the object of the first and
    issues no fetch, although it names another market or category. *)
Theorem aggregate_key_collision (config : Config) (fetch : Sources)
    (market market' : Market) (category category' : string)
    (elapsed elapsed' : Z) (st : State) :
  cacheKey market category = cacheKey market' category' ->
  (0 < cacheDuration config)%Z ->
  let first := aggregate config fetch market category elapsed st in
  aggregate config fetch market' category' elapsed' first.2 = (first.1, first.2).
Proof.
  intros Hkey Hdur. cbn zeta.
  destruct (aggregate_cases config fetch market category elapsed st)
    as [(cached & Hc & Ht & ->) | (_ & Hr & Hcache & Hnow & _)].
  - cbn [fst snd]. apply aggregate_hit; [now rewrite <- Hkey | exact Ht].
  - set (first := aggregate config fetch market category elapsed st) in *.
    change (first.1) with (data (mkCacheEntry first.1 (now st + elapsed)%Z)) at 1.
    apply aggregate_hit.
    + rewrite Hcache, <- Hkey. apply lookup_insert_eq.
    + rewrite Hnow. cbn [entry_timestamp]. lia.
Qed.

Lemma aggregate_key_collision_witness :
  let fetch : Sources := fun call _ =>
    Some [mkSignal "social" (Some (Fin 0.5)) None (Some (Fin 0.3))] in
  let first := aggregate (defaultConfig None None) fetch
                 (MarketObject (Some "fed-cut")) "politics" 5 (freshState 0) in
  aggregate (defaultConfig None None) fetch (MarketName "cut") "politics-fed" 5 first.2
  = (first.1, first.2).
Proof.
  cbv zeta.
  exact (aggregate_key_collision (defaultConfig None None)
           (fun call _ => Some [mkSignal "social" (Some (Fin 0.5)) None (Some (Fin 0.3))])
           (MarketObject (Some "fed-cut")) (MarketName "cut")
           "politics" "politics-fed" 5 5 (freshState 0) eq_refl eq_refl).
Defined.

Lemma imap_nothing (calls : list FetchCall)
    (g : nat -> FetchCall -> option (list Signal)) :
  (forall i call, g i call = None \/ g i call = Some []) ->
  concat (omap id (imap g calls)) = [].
Proof.
  revert g. induction calls as [| call calls IH]; intros g Hg; [reflexivity |].
  cbn [imap]. destruct (Hg 0%nat call) as [-> | ->];
    cbn [omap list_omap id concat app]; apply IH; intros i call'; apply Hg.
Qed.

(** X20: a failure of the sources is cached.  When every fetch of a miss
    is rejected or yields no signal, aggregate returns the neutral score 0.5
    with no signal, and for the whole cache duration every further call for
    the key returns that object without fetching, whatever the sources
    would return by then. *)
Theorem failed_fetch_is_cached (config : Config) (fetch fetch' : Sources)
    (market : Market) (category : string) (elapsed elapsed' d : Z) (st : State) :
  within_ttl config st (cacheKey market category) (now st) = false ->
  (forall call n, fetch call n = None \/ fetch call n = Some []) ->
  (0 <= d < cacheDuration config)%Z ->
  let first := aggregate config fetch market category elapsed st in
  signals first.1 = Some []
  /\ score first.1 = Some (Fin 0.5)
  /\ sourceCount first.1 = Some 0%nat
  /\ aggregate config fetch' market category elapsed' (advance d first.2)
     = (first.1, advance d first.2).
Proof.
  intros Hold Hfail Hd. cbn zeta.
  destruct (aggregate_cases config fetch market category elapsed st)
    as [(cached & Hc & Ht & _) | (_ & Hr & Hcache & Hnow & _)].
  - unfold within_ttl in Hold. rewrite Hc in Hold.
    apply Z.ltb_ge in Hold. lia.
  - set (first := aggregate config fetch market category elapsed st) in *.
    assert (Hs : settle fetch (length (issued st))
                   (fetchCalls config market category) = []).
    { unfold settle. apply imap_nothing. intros i call. apply Hfail. }
    assert (Hfirst : first.1
                     = {| signals := Some []; score := Some (Fin 0.5);
                          timestamp := Some (now st + elapsed)%Z;
                          sourceCount := Some 0%nat;
                          volatility := None; liquidity := None |})
      by (rewrite Hr; unfold missResult; now rewrite Hs).
    split; [now rewrite Hfirst |]. split; [now rewrite Hfirst |].
    split; [now rewrite Hfirst |].
    change (first.1) with (data (mkCacheEntry first.1 (now st + elapsed)%Z)) at 1.
    apply aggregate_hit.
    + cbn [advance cache]. rewrite Hcache. apply lookup_insert_eq.
    + cbn [advance now entry_timestamp]. rewrite Hnow. lia.
Qed.

Lemma failed_fetch_is_cached_witness :
  let down : Sources := fun _ _ => None in
  let up : Sources := fun _ _ =>
    Some [mkSignal "social" (Some (Fin 0.9)) None (Some (Fin 0.3))] in
  let first := aggregate (defaultConfig None None) down (MarketName "btc") "crypto"
                 20 (freshState 0) in
  score first.1 = Some (Fin 0.5)
  /\ aggregate (defaultConfig None None) up (MarketName "btc") "crypto" 20
       (advance 299000 first.2)
     = (first.1, advance 299000 first.2).
Proof.
  cbv zeta.
  destruct (failed_fetch_is_cached (defaultConfig None None) (fun _ _ => None)
              (fun _ _ => Some [mkSignal "social" (Some (Fin 0.9)) None (Some (Fin 0.3))])
              (MarketName "btc") "crypto" 20 20 299000 (freshState 0))
    as (_ & Hs & _ & Hc).
  - reflexivity.
  - intros call n. now left.
  - cbn. lia.
  - split; [exact Hs | exact Hc].
Defined.
End CacheBehaviour.

(* ===================================================================== *)
(** ** PoliticsAI: from the signals to the threshold                      *)
(* ===================================================================== *)

Section PoliticsPipeline.
Import SignalAggregationSkill BuiltinSources.

(** X21: predictGeneric on what aggregate returns with the built-in
    sources (draws of Math.random in [0, 1), configured weights that are
    missing or positive and at most 1e100) never throws, and its raw
    confidence 0.5 + |score - 0.5| * 0.8 is a number of [0.5, 0.9]; the
    outcome is 'yes' or 'no'. *)
Theorem generic_prediction_range (toLowerCase : string -> string)
    (weights : Weights) (random : nat -> nat -> Q) (config : Config)
    (ops : list CacheOp) (market : Market) (category : string) (elapsed time : Z) :
  unit_draws random -> weights_ok weights = true ->
  let fetch := builtin toLowerCase weights random in
  let r := (aggregate config fetch market category elapsed
              (runOps config fetch ops (freshState time))).1 in
  exists outcome pr q,
    PoliticsAI.predictGeneric r = Normal (outcome, pr)
    /\ (outcome = "yes" \/ outcome = "no")
    /\ rawConfidence pr = Some (Fin q) /\ 0.5 <= q /\ q <= 0.9
    /\ model pr = Some "signal_consensus".
Proof.
  intros Hr Hw. cbn zeta.
  destruct (builtin_results toLowerCase weights random config ops market category
              elapsed time Hr Hw) as (sigs & Hs & Hsc & Hd & Hf & _).
  cbn zeta in Hs, Hsc.
  pose proof (score_of_model_signals sigs Hd Hf) as Hrange.
  unfold PoliticsAI.predictGeneric. rewrite Hs, Hsc. cbn [deref JS.toNumber].
  unfold mbind, mret. cbn [completion_bind completion_ret].
  destruct (calculateWeightedScore sigs) as [x | | |]; try contradiction.
  cbn in Hrange. cbn [JS.sub JS.neg JS.add JS.abs JS.mul].
  eexists _, _, _. split; [reflexivity |]. split.
  { destruct (_ >? _)%js; auto. }
  cbn [rawConfidence model]. split; [reflexivity |].
  match goal with
  | |- context [Qabs ?e] =>
      assert (Ha : 0 <= Qabs e <= 0.5)
        by (split; [apply Qabs_nonneg | apply Qabs_Qle_condition; lra])
  end.
  repeat split; lra.
Qed.

Lemma generic_prediction_range_witness :
  exists outcome pr,
    PoliticsAI.predictGeneric
      (aggregate (defaultConfig None None)
         (builtin (fun s => s) defaultWeights (fun _ _ => 0.75))
         (MarketName "btc") "crypto" 10 (freshState 0)).1
    = Normal (outcome, pr).
Proof.
  destruct (generic_prediction_range (fun s => s) defaultWeights (fun _ _ => 0.75)
              (defaultConfig None None) [] (MarketName "btc") "crypto" 10 0)
    as (outcome & pr & q & H & _).
  - intros n k. split; [discriminate | reflexivity].
  - reflexivity.
  - exists outcome, pr. exact H.
Defined.

(** [logOutcome] touches nothing but the performance record. *)
Lemma logAll_skills (outcomes : list (option string * option string))
    (self : BaseAgent.t) :
  BaseAgent.scoring (BaseAgent.logAll outcomes self) = BaseAgent.scoring self
  /\ BaseAgent.aggregation (BaseAgent.logAll outcomes self)
     = BaseAgent.aggregation self
  /\ BaseAgent.category (BaseAgent.logAll outcomes self) = BaseAgent.category self.
Proof.
  unfold BaseAgent.logAll. revert self.
  induction outcomes as [| o outcomes IH]; intros self; [now repeat split |].
  cbn [fold_left]. destruct (IH (BaseAgent.logOutcome o.1 o.2 self)) as (-> & -> & ->).
  now repeat split.
Qed.

(** The base component is NaN, -Infinity or a number that is at most
    0.95. *)
Lemma base_cases (prediction : Prediction) :
  let base := ConfidenceScoringSkill.calculateBaseConfidence prediction in
  base = NaN \/ base = NegInf \/ exists q, base = Fin q /\ q <= 0.95.
Proof.
  cbn zeta. unfold ConfidenceScoringSkill.calculateBaseConfidence.
  destruct (ConfidenceScoringSkill.qualityAdjusted prediction) as [q | | |];
    cbn [JS.min JS.lt]; auto.
  - right. right. destruct (Qltb 0.95 q) eqn:Hq.
    + eexists. split; [reflexivity | lra].
    + apply Qltb_false in Hq. eauto.
  - right. right. eexists. split; [reflexivity | lra].
Qed.

(** The signal component of a single social signal. *)
Lemma single_social_confidence (o : AggregateResult) (x : Q) (w : option jsnum) :
  signals o = Some [mkSignal "social" (Some (Fin x)) None w] ->
  -1 <= x -> x <= 1 ->
  exists g,
    ConfidenceScoringSkill.calculateSignalConfidence (Some o) = Fin g
    /\ 0.3 <= g /\ g <= 0.6.
Proof.
  intros Ho Hlo Hhi. unfold ConfidenceScoringSkill.calculateSignalConfidence.
  rewrite Ho.
  assert (Hc : ConfidenceScoringSkill.consensusScore
                 [mkSignal "social" (Some (Fin x)) None w] = Fin 0.5).
  { unfold ConfidenceScoringSkill.consensusScore. rewrite filter_cons.
    cbn [sentiment]. rewrite decide_True by eauto. rewrite filter_nil.
    reflexivity. }
  assert (Hd : ConfidenceScoringSkill.diversityScore
                 [mkSignal "social" (Some (Fin x)) None w] = Fin (1 / 3)).
  { unfold ConfidenceScoringSkill.diversityScore. cbn [map type list_to_set].
    rewrite (right_id_L ∅ (∪)), size_singleton. reflexivity. }
  destruct (strength_term (mkSignal "social" (Some (Fin x)) None w))
    as (a & Ha & Ha01).
  { unfold sentiment_in. cbn [sentiment in_rangeb]. apply andb_true_iff.
    split; apply Qle_bool_iff; lra. }
  assert (Hs : ConfidenceScoringSkill.avgSignalStrength
                 [mkSignal "social" (Some (Fin x)) None w] = Fin ((0 + a) / 1)).
  { unfold ConfidenceScoringSkill.avgSignalStrength. cbn [fold_left length].
    rewrite Ha. reflexivity. }
  rewrite Hc, Hd, Hs. cbn [JS.mul JS.add]. eexists. split; [reflexivity |].
  assert (E : (0 + a) / 1 == a) by (field; lra).
  assert (E3 : 1 / 3 * 0.3 == 0.1) by reflexivity.
  rewrite E. split; lra.
Qed.

(** What a miss builds for the aggregation skill of PoliticsAI: the news
    source yields nothing, the social source one signal. *)
Lemma politics_miss (toLowerCase : string -> string) (random : nat -> nat -> Q)
    (market : Market) (category : string) (n : nat) (time : Z) :
  unit_draws random ->
  let skill := PoliticsAI.aggregationSkill in
  let r := missResult (BaseAgent.aggregation_config skill)
             (builtin toLowerCase (BaseAgent.aggregation_weights skill) random)
             market category n time in
  volatility r = None /\ liquidity r = None
  /\ exists x,
       signals r = Some [mkSignal "social" (Some (Fin x)) None (Some (Fin 0.3))]
       /\ -1 <= x /\ x <= 1.
Proof.
  intros Hr. cbn zeta. split; [reflexivity |]. split; [reflexivity |].
  unfold missResult. cbn [signals].
  assert (Hcalls : fetchCalls
                     (BaseAgent.aggregation_config PoliticsAI.aggregationSkill)
                     market category
                   = [mkFetchCall "news" market category;
                      mkFetchCall "social" market category]) by reflexivity.
  rewrite Hcalls. unfold settle. cbn [imap omap list_omap compose].
  set (weights := BaseAgent.aggregation_weights PoliticsAI.aggregationSkill).
  assert (Hnews : exists l,
             builtin toLowerCase weights random
               (mkFetchCall "news" market category) (n + 0)%nat = l
             /\ (l = None \/ l = Some [])).
  { eexists. split; [reflexivity |]. unfold builtin. cbn [source fetch_market
      fetch_category]. change (String.eqb "news" "news") with true. cbn iota.
    rewrite fetchNewsSignals_result.
    destruct (bool_decide _); auto. }
  destruct Hnews as (l & -> & Hl).
  exists (random (n + 1)%nat 1%nat * 2 - 1).
  destruct (Hr (n + 1)%nat 1%nat) as [H0 H1].
  split; [| split; lra].
  destruct Hl as [-> | ->]; reflexivity.
Qed.

(** X22: a PoliticsAI agent with fewer than ten logged outcomes never
    scores a prediction above 0.63, so never reaches its default threshold
    0.75.  Whatever raw prediction the predictor returns, on what its
    aggregation skill returns with the built-in sources (one social signal;
    the news source yields nothing) the confidence of calculateConfidence
    is NaN or a number of [0.01, 0.63]: the base component is at most 0.95
    (weight 0.2), the signal component at most 0.6 (weight 0.4) and the
    history component the neutral 0.5 (weight 0.4). *)
Theorem politics_below_threshold (toLowerCase : string -> string)
    (random : nat -> nat -> Q) (polymarket kalshi : Execution.Client)
    (minConfidence' maxBetSize' : option jsnum) (autoExecute' : option bool)
    (bankroll' : option jsnum)
    (outcomes : list (option string * option string)) (ops : list CacheOp)
    (market : Market) (elapsed time : Z) (prediction : Prediction) :
  unit_draws random -> (length outcomes < 10)%nat ->
  let agent :=
    BaseAgent.logAll outcomes
      (PoliticsAI.init polymarket kalshi
         (PoliticsAI.new minConfidence' maxBetSize' autoExecute' bankroll')) in
  let skill := PoliticsAI.aggregationSkill in
  let st :=
    runOps (BaseAgent.aggregation_config skill)
      (builtin toLowerCase (BaseAgent.aggregation_weights skill) random)
      ops (freshState time) in
  let signals' :=
    (BaseAgent.aggregateSignals toLowerCase random agent market elapsed st).1 in
  exists v,
    BaseAgent.calculateConfidence agent (Some prediction) (Some signals') = Normal v
    /\ (v = NaN \/ in_range 0.01 0.63 v).
Proof.
  intros Hr Hlen. cbn zeta.
  set (agent0 := PoliticsAI.init polymarket kalshi _).
  destruct (logAll_skills outcomes agent0) as (Hsc & Hag & Hcat).
  unfold BaseAgent.aggregateSignals, BaseAgent.calculateConfidence.
  rewrite Hsc, Hag, Hcat.
  change (BaseAgent.scoring agent0) with (Some PoliticsAI.scoringSkill).
  change (BaseAgent.aggregation agent0) with (Some PoliticsAI.aggregationSkill).
  cbv beta iota.
  set (skill := PoliticsAI.aggregationSkill).
  set (fetch := builtin toLowerCase (BaseAgent.aggregation_weights skill) random).
  set (P := fun r : AggregateResult =>
              volatility r = None /\ liquidity r = None
              /\ exists x,
                   signals r = Some [mkSignal "social" (Some (Fin x)) None
                                       (Some (Fin 0.3))]
                   /\ -1 <= x /\ x <= 1).
  assert (Hmiss : forall market category n time,
             P (missResult (BaseAgent.aggregation_config skill) fetch
                  market category n time)).
  { intros m c n t. exact (politics_miss toLowerCase random m c n t Hr). }
  pose proof (runOps_keeps_all _ fetch P ops (freshState time) Hmiss
                (fresh_cache_all P time)) as Hall.
  destruct (aggregate_keeps_all _ fetch P market (BaseAgent.category agent0)
              elapsed _ Hmiss Hall) as [(Hv & Hl & x & Hs & Hlo & Hhi) _].
  set (r := (aggregate _ fetch market _ elapsed _).1) in *.
  destruct (single_social_confidence r x _ Hs Hlo Hhi) as (g & Hg & Hg0 & Hg1).
  (* the history component *)
  destruct (logged_winRate outcomes agent0 eq_refl) as (Ht & _).
  cbn zeta in Ht.
  assert (Hh : ConfidenceScoringSkill.calculateHistoryConfidence
                 PoliticsAI.scoringSkill
                 (Some (BaseAgent.performanceOf
                          (BaseAgent.performance (BaseAgent.logAll outcomes agent0))))
                 prediction = Fin 0.5).
  { unfold ConfidenceScoringSkill.calculateHistoryConfidence, BaseAgent.performanceOf.
    cbn [total JS.toNumber]. rewrite Ht.
    change (JS.of_nat (length outcomes)
            <? ConfidenceScoringSkill.minSamplesForHistory
                 (ConfidenceScoringSkill.config PoliticsAI.scoringSkill))%js
      with (Qltb (Qnat (length outcomes)) 10).
    assert (Hq : Qltb (Qnat (length outcomes)) 10 = true).
    { apply Qltb_true. pose proof (Qnat_le (length outcomes) 9 ltac:(lia)) as H9.
      change (Qnat 9) with 9 in H9. lra. }
    now rewrite Hq. }
  unfold ConfidenceScoringSkill.calculate. cbn [deref].
  unfold mbind, mret. cbn [completion_bind completion_ret].
  unfold ConfidenceScoringSkill.applyMarketAdjustments. cbn [deref].
  unfold mbind, mret. cbn [completion_bind completion_ret].
  rewrite Hv, Hl. cbn [JS.truthy_opt JS.toNumber JS.lt].
  eexists. split; [reflexivity |].
  change (ConfidenceScoringSkill.calibrationEnabled
            (ConfidenceScoringSkill.config PoliticsAI.scoringSkill)) with true.
  cbn iota.
  assert (Hcal : forall c mt,
             ConfidenceScoringSkill.applyCalibration PoliticsAI.scoringSkill c mt = c).
  { intros c mt. unfold ConfidenceScoringSkill.applyCalibration,
      ConfidenceScoringSkill.ledgerFor.
    destruct mt as [m |]; cbn [PoliticsAI.scoringSkill ConfidenceScoringSkill.new
                                 ConfidenceScoringSkill.calibrationData];
      now rewrite ?lookup_empty. }
  rewrite Hcal. unfold ConfidenceScoringSkill.combined. rewrite Hg, Hh.
  change (ConfidenceScoringSkill.baseWeight
            (ConfidenceScoringSkill.config PoliticsAI.scoringSkill)) with (Fin 0.2).
  change (ConfidenceScoringSkill.signalWeight
            (ConfidenceScoringSkill.config PoliticsAI.scoringSkill)) with (Fin 0.4).
  change (ConfidenceScoringSkill.historyWeight
            (ConfidenceScoringSkill.config PoliticsAI.scoringSkill)) with (Fin 0.4).
  destruct (base_cases prediction) as [-> | [-> | (q & -> & Hq)]].
  - left. reflexivity.
  - right. change (NegInf * Fin 0.2)%js with NegInf. cbn [JS.mul JS.add].
    change (JS.min (JS.max NegInf (Fin 0.01)) (Fin 0.99)) with (Fin 0.01).
    cbn [in_range]. lra.
  - right. cbn [JS.mul JS.add].
    assert (Hc : q * 0.2 + g * 0.4 + 0.5 * 0.4 <= 0.63) by lra.
    revert Hc. generalize (q * 0.2 + g * 0.4 + 0.5 * 0.4). intros c Hc.
    cbn [JS.max JS.lt]. destruct (Qltb c 0.01) eqn:Hlow; cbn [JS.min JS.lt];
      qcases; cbn [in_range]; lra.
Qed.

Lemma politics_below_threshold_witness :
  exists v,
    BaseAgent.calculateConfidence
      (BaseAgent.logAll [(Some "yes", Some "yes")]
         (PoliticsAI.init
            (Execution.mkClient (fun _ => Normal None) (fun _ => Throw (Error "down")))
            (Execution.mkClient (fun _ => Normal None) (fun _ => Throw (Error "down")))
            (PoliticsAI.new None None None None)))
      (Some (mkPrediction (Some (Fin 0.9)) (Some "ensemble") (Some (Fin 1))
               None None None))
      (Some (BaseAgent.aggregateSignals (fun s => s) (fun _ _ => 0.99)
               (BaseAgent.logAll [(Some "yes", Some "yes")]
                  (PoliticsAI.init
                     (Execution.mkClient (fun _ => Normal None)
                                         (fun _ => Throw (Error "down")))
                     (Execution.mkClient (fun _ => Normal None)
                                         (fun _ => Throw (Error "down")))
                     (PoliticsAI.new None None None None)))
               (MarketObject (Some "m1")) 5 (freshState 0)).1)
    = Normal v
    /\ (v = NaN \/ in_range 0.01 0.63 v).
Proof.
  refine (politics_below_threshold (fun s => s) (fun _ _ => 0.99)
            (Execution.mkClient (fun _ => Normal None) (fun _ => Throw (Error "down")))
            (Execution.mkClient (fun _ => Normal None) (fun _ => Throw (Error "down")))
            None None None None [(Some "yes", Some "yes")] []
            (MarketObject (Some "m1")) 5 0
            (mkPrediction (Some (Fin 0.9)) (Some "ensemble") (Some (Fin 1))
               None None None) _ _).
  - intros n k. split; [discriminate | reflexivity].
  - cbn. lia.
Defined.
End PoliticsPipeline.
